(** * nibabel.streamlines.tractogram: a shallow embedding

    This development embeds [nibabel/streamlines/tractogram.py] and states
    its specified behaviour as theorems.

    Conventions of the embedding:
    - Python objects with identity (tractograms) live in a store [heap]
      indexed by references [loc]; a method takes [self] as a reference and
      is a computation in the state-and-exception monad [M heap].
    - An exception is a value [Raise e]; the store that comes with it is the
      store at the point of the [raise].
    - Array entries are exact rationals [Qc]; numpy's floating point
      rounding is not modelled, so "approximately equal" in a docstring
      becomes "equal" here.
    - A Python [dict] is a [gmap]; a Python [int] used as a size or an
      offset is an [N], one used as a subscript is a [Z].
    - A zero-argument callable of the source (a generator function, a
      [lambda]) is a function of the store it is called in; the iterator it
      returns is the list of the values it produces. *)

From Stdlib Require Import QArith Qcanon Field Lia.
From stdpp Require Import base option list gmap strings numbers.

Set Default Proof Using "Type".

(** ** Exceptions and the two monads *)

Inductive exn :=
| KeyError | TypeError | ValueError | IndexError | NameError
| NotImplementedError | LinAlgError | StopIteration
| ReferenceError.
    (* the store holds no such object; a running program never meets it *)

Global Instance exn_eq_dec : EqDecision exn.
Proof. solve_decision. Defined.

Inductive res (A : Type) :=
| Ok (a : A)
| Raise (e : exn).
Arguments Ok {A} a.
Arguments Raise {A} e.

Global Instance res_ret : MRet res := λ A a, Ok a.
Global Instance res_bind : MBind res := λ A B f m,
  match m with
  | Ok a => f a
  | Raise e => Raise e
  end.
Global Instance res_fmap : FMap res := λ A B f m,
  match m with
  | Ok a => Ok (f a)
  | Raise e => Raise e
  end.

(** A computation on a mutable state [S] that may raise. *)
Definition M (S A : Type) : Type := S → res A * S.

Global Instance M_ret {S} : MRet (M S) := λ A a s, (Ok a, s).
Global Instance M_bind {S} : MBind (M S) := λ A B f m s,
  match m s with
  | (Ok a, s') => f a s'
  | (Raise e, s') => (Raise e, s')
  end.

Definition raise {S A} (e : exn) : M S A := λ s, (Raise e, s).
Definition lift {S A} (r : res A) : M S A := λ s, (r, s).
Definition get_state {S} : M S S := λ s, (Ok s, s).
Definition put_state {S} (s : S) : M S () := λ _, (Ok (), s).

(** [for x in l: body x] *)
Fixpoint for_each {S A} (l : list A) (body : A → M S ()) : M S () :=
  match l with
  | [] => mret ()
  | x :: l' => body x;; for_each l' body
  end.

(** ** Python built-ins on sequences *)

(** [range(start, stop, step)] for [step > 0]; the starts are produced one
    by one while they stay below [stop], at most [stop - start] of them. *)
Fixpoint range_from (fuel : nat) (start stop step : N) : list N :=
  match fuel with
  | O => []
  | S fuel' =>
      if (start <? stop)%N
      then start :: range_from fuel' (start + step)%N stop step
      else []
  end.

Definition py_range (start stop step : N) : list N :=
  range_from (N.to_nat (stop - start)) start stop step.

(** [l[start:stop]] for non-negative bounds: both bounds are clipped to
    [len(l)], as Python's slicing does. *)
Definition py_slice {A} (l : list A) (start stop : N) : list A :=
  let n := N.of_nat (length l) in
  let a := N.min start n in
  let b := N.min stop n in
  take (N.to_nat (b - a)) (drop (N.to_nat a) l).

(** [l[start:stop] = new] on a numpy buffer: the replacement must have the
    shape of the slice it replaces, else numpy raises [ValueError]. *)
Definition py_set_slice {A} (l : list A) (start stop : N) (new : list A)
  : res (list A) :=
  let n := N.of_nat (length l) in
  let a := N.min start n in
  let b := N.max a (N.min stop n) in
  if bool_decide (N.of_nat (length new) = (b - a)%N)
  then Ok (take (N.to_nat a) l ++ new ++ drop (N.to_nat b) l)
  else Raise ValueError.

(** [l[i]] with Python's negative subscripts. *)
Definition py_index {A} (l : list A) (i : Z) : res A :=
  let n := Z.of_nat (length l) in
  let j := if (i <? 0)%Z then (i + n)%Z else i in
  if ((0 <=? j) && (j <? n))%Z
  then match l !! Z.to_nat j with
       | Some x => Ok x
       | None => Raise IndexError
       end
  else Raise IndexError.

(** [l[start:stop]] with optional, possibly negative bounds. *)
Definition py_slice_Z {A} (l : list A) (start stop : option Z) : list A :=
  let n := Z.of_nat (length l) in
  let clip i := if (i <? 0)%Z then Z.max 0 (i + n) else Z.min i n in
  let a := from_option clip 0%Z start in
  let b := from_option clip n stop in
  take (Z.to_nat (b - a)) (drop (Z.to_nat a) l).

(** [[f(x) for x in l]] where [f] may raise. *)
Fixpoint res_mapM {A B} (f : A → res B) (l : list A) : res (list B) :=
  match l with
  | [] => Ok []
  | x :: l' => y ← f x; ys ← res_mapM f l'; mret (y :: ys)
  end.

(** ** numpy: 4x4 matrices and points over exact rationals *)

Module np.
Local Open Scope Qc_scope.

Inductive ix4 := I0 | I1 | I2 | I3.

Record vec4 := V4 { v0 : Qc; v1 : Qc; v2 : Qc; v3 : Qc }.

(** An [ndarray] of shape (4, 4), by rows. *)
Record mat4 := M4 { r0 : vec4; r1 : vec4; r2 : vec4; r3 : vec4 }.

(** One row of an [ndarray] of shape (N, 3). *)
Record point := P3 { px : Qc; py : Qc; pz : Qc }.

Definition vget (v : vec4) (j : ix4) : Qc :=
  match j with I0 => v0 v | I1 => v1 v | I2 => v2 v | I3 => v3 v end.

Definition mrow (A : mat4) (i : ix4) : vec4 :=
  match i with I0 => r0 A | I1 => r1 A | I2 => r2 A | I3 => r3 A end.

Definition mget (A : mat4) (i j : ix4) : Qc := vget (mrow A i) j.

Definition vmk (f : ix4 → Qc) : vec4 := V4 (f I0) (f I1) (f I2) (f I3).

Definition mmk (f : ix4 → ix4 → Qc) : mat4 :=
  M4 (vmk (f I0)) (vmk (f I1)) (vmk (f I2)) (vmk (f I3)).

Definition sum4 (f : ix4 → Qc) : Qc := f I0 + f I1 + f I2 + f I3.

(** [np.eye(4)] *)
Definition eye4 : mat4 :=
  mmk (λ i j, match i, j with
              | I0, I0 | I1, I1 | I2, I2 | I3, I3 => 1
              | _, _ => 0
              end).

(** [np.dot(A, B)] on two (4, 4) arrays: the matrix product. *)
Definition dot (A B : mat4) : mat4 :=
  mmk (λ i j, sum4 (λ k, mget A i k * mget B k j)).

(** The three indices other than [i], in increasing order. *)
Definition others (i : ix4) : ix4 * ix4 * ix4 :=
  match i with
  | I0 => (I1, I2, I3) | I1 => (I0, I2, I3)
  | I2 => (I0, I1, I3) | I3 => (I0, I1, I2)
  end.

Definition det3 (a b c d e f g h k : Qc) : Qc :=
  a * (e * k - f * h) - b * (d * k - f * g) + c * (d * h - e * g).

Definition minor (A : mat4) (i j : ix4) : Qc :=
  let '(i1, i2, i3) := others i in
  let '(j1, j2, j3) := others j in
  det3 (mget A i1 j1) (mget A i1 j2) (mget A i1 j3)
       (mget A i2 j1) (mget A i2 j2) (mget A i2 j3)
       (mget A i3 j1) (mget A i3 j2) (mget A i3 j3).

Definition sgn (i j : ix4) : Qc :=
  match i, j with
  | I0, I0 | I0, I2 | I1, I1 | I1, I3
  | I2, I0 | I2, I2 | I3, I1 | I3, I3 => 1
  | _, _ => - 1
  end.

Definition cofactor (A : mat4) (i j : ix4) : Qc := sgn i j * minor A i j.

Definition det (A : mat4) : Qc :=
  sum4 (λ j, mget A I0 j * cofactor A I0 j).

Definition adjugate (A : mat4) : mat4 := mmk (λ i j, cofactor A j i).

Definition scale (c : Qc) (A : mat4) : mat4 := mmk (λ i j, c * mget A i j).

(** [np.linalg.inv(A)]: the inverse matrix, and [LinAlgError] on a
    singular one.  numpy obtains it by an LU factorisation with partial
    pivoting and raises when a pivot is exactly zero; over exact numbers
    that is the case exactly when the determinant is zero, and the result
    is the inverse whatever the method (see [linalg_inv_unique]), computed
    here as adjugate over determinant.  In floating point a singular
    matrix can keep pivots that are not exactly zero, and numpy then
    returns a matrix: the error branch is used below only for a matrix
    with a zero column, whose pivot in that column is exactly zero in
    floating point as well. *)
Definition linalg_inv (A : mat4) : res mat4 :=
  if bool_decide (det A = 0) then Raise LinAlgError
  else Ok (scale (/ det A) (adjugate A)).

(** [np.allclose(A, B)] with numpy's default tolerances:
    [|a - b| <= atol + rtol * |b|] entry by entry, [rtol = 1e-05] and
    [atol = 1e-08]. *)
Definition Qcabs (x : Qc) : Qc := if bool_decide (x < 0) then - x else x.
Definition rtol : Qc := Q2Qc (1 # 100000).
Definition atol : Qc := Q2Qc (1 # 100000000).
Definition isclose (a b : Qc) : bool :=
  bool_decide (Qcabs (a - b) ≤ atol + rtol * Qcabs b).
Definition allclose (A B : mat4) : bool :=
  forallb (λ i, forallb (λ j, isclose (mget A i j) (mget B i j))
                        [I0; I1; I2; I3]) [I0; I1; I2; I3].

(** The affine that translates by [(tx, ty, tz)]. *)
Definition translation (tx ty tz : Qc) : mat4 :=
  M4 (V4 1 0 0 tx) (V4 0 1 0 ty) (V4 0 0 1 tz) (V4 0 0 0 1).

(** A homogeneous affine has last row [0 0 0 1]. *)
Definition is_affine (A : mat4) : Prop := r3 A = V4 0 0 0 1.
End np.

(** ** nibabel.affines *)

Module affines.
Import np.
Local Open Scope Qc_scope.

(** Modelled from the spec: [nibabel.affines.apply_affine] is imported by
    the module and its file is not part of the sources at hand.  The spec
    has each point [p] replaced by the affine applied to [p], a
    translation affine by [(+1, +2, +3)] adding exactly [(1, 2, 3)] to
    it: the rotation-zoom-shear block [aff[:3, :3]] times [p], plus the
    translation column [aff[:3, 3]]; the last row of [aff] is not read. *)
Definition apply_point (aff : mat4) (p : point) : point :=
  let out i :=
    mget aff i I0 * px p + mget aff i I1 * py p + mget aff i I2 * pz p
    + mget aff i I3 in
  P3 (out I0) (out I1) (out I2).

(** [apply_affine(aff, pts)] on an array of shape (N, 3): a new array of
    the same shape. *)
Definition apply_affine (aff : mat4) (pts : list point) : list point :=
  apply_point aff <$> pts.
End affines.

(** ** nibabel.streamlines.array_sequence *)

Module ArraySequence.
(** Modelled from the spec: [ArraySequence] is imported from
    [.array_sequence], which is not part of the sources at hand.  The spec
    describes the ragged sequence as one contiguous buffer of rows plus,
    per logical sequence, an offset and a length into that buffer; the
    source reads the buffer as [_data]. *)
Record t (A : Type) := Build {
  _data : list A;
  _offsets : list N;
  _lengths : list N;
}.
Arguments Build {A} _ _ _.
Arguments _data {A} _.
Arguments _offsets {A} _.
Arguments _lengths {A} _.

Section methods.
Context {A : Type}.

Definition empty : t A := Build [] [] [].

(** [append(points)]: extends the storage and records a new
    (offset, length) pair. *)
Definition append (self : t A) (element : list A) : t A :=
  Build (_data self ++ element)
        (_offsets self ++ [N.of_nat (length (_data self))])
        (_lengths self ++ [N.of_nat (length element)]).

(** [ArraySequence(iterable)]: created from an iterable of per-item
    arrays, or empty when given [None]. *)
Definition __init__ (iterable : option (list (list A))) : t A :=
  foldl append empty (default [] iterable).

(** [len(seq)]: the number of sequences. *)
Definition __len__ (self : t A) : N := N.of_nat (length (_offsets self)).

(** The rows of the sequence recorded as [(offset, length)]. *)
Definition view (self : t A) (offset length : N) : list A :=
  py_slice (_data self) offset (offset + length).

(** [seq[idx]] for an integer [idx]: a single array; out of range is a
    bounds error. *)
Definition __getitem__ (self : t A) (idx : Z) : res (list A) :=
  offset ← py_index (_offsets self) idx;
  length ← py_index (_lengths self) idx;
  mret (view self offset length).

(** [seq[start:stop]]: a new sequence restricted to the selected
    items, on the same buffer. *)
Definition slice (self : t A) (start stop : option Z) : t A :=
  Build (_data self) (py_slice_Z (_offsets self) start stop)
        (py_slice_Z (_lengths self) start stop).

(** [iter(seq)]: the sequences in order. *)
Definition __iter__ (self : t A) : list (list A) :=
  (λ '(offset, length), view self offset length)
    <$> zip (_offsets self) (_lengths self).

(** [seq.copy()]: an independent sequence with equal contents. *)
Definition copy (self : t A) : t A :=
  Build (_data self) (_offsets self) (_lengths self).

(** The invariant of the spec: there is a length for every offset, and
    offsets plus lengths never exceed the buffer size. *)
Definition within (self : t A) : Prop :=
  Forall2 (λ offset length,
             (offset + length ≤ N.of_nat (List.length (_data self)))%N)
          (_offsets self) (_lengths self).
End methods.
End ArraySequence.

(** ** Array-likes and numpy conversion *)

(** An array-like value: a number, or a sequence of array-likes (a nested
    list, or an [ndarray] read along its first axis). *)
#[warnings="-register-all"]
Inductive nd :=
| Num (x : Qc)
| Seq (items : list nd).

(** A key that can be stored in a [dict], and a subscript as passed to
    [__getitem__]: a hashable key, or a [slice] (not hashable). *)
Inductive hkey :=
| KStr (s : string)
| KInt (i : Z).

Inductive pykey :=
| Hashable (k : hkey)
| Slice (start stop : option Z).

Global Instance hkey_eq_dec : EqDecision hkey.
Proof. solve_decision. Defined.

Global Instance hkey_countable : Countable hkey.
Proof.
  refine (inj_countable'
            (λ k, match k with KStr s => inl s | KInt i => inr i end)
            (λ x, match x with inl s => KStr s | inr i => KInt i end) _).
  by intros [].
Defined.

(** [store[key]] on a built-in [dict]. *)
Definition dict_getitem {V} (store : gmap hkey V) (key : pykey) : res V :=
  match key with
  | Hashable k =>
      match store !! k with
      | Some v => Ok v
      | None => Raise KeyError
      end
  | Slice _ _ => Raise TypeError
  end.

(** [store[key] = value] on a built-in [dict]. *)
Definition dict_setitem {V} (store : gmap hkey V) (key : pykey) (value : V)
  : res (gmap hkey V) :=
  match key with
  | Hashable k => Ok (<[k := value]> store)
  | Slice _ _ => Raise TypeError
  end.

Module ndarray.
(** The result of [np.asarray]: a shape, whether the dtype is [object],
    and the items along the first axis. *)
Record t := Build {
  shape : list N;
  dtype_object : bool;
  items : list nd;
}.

Fixpoint common_prefix (s1 s2 : list N) : list N :=
  match s1, s2 with
  | a :: s1', b :: s2' =>
      if (a =? b)%N then a :: common_prefix s1' s2' else []
  | _, _ => []
  end.

(** The dimensions numpy discovers in a nested sequence: the length of
    the sequence, then the dimensions all its items agree on. *)
Fixpoint discover (v : nd) : list N :=
  match v with
  | Num _ => []
  | Seq l =>
      N.of_nat (length l) ::
      match discover <$> l with
      | [] => []
      | s :: ss => foldr common_prefix s ss
      end
  end.

(** A nested sequence is regular when its leaves are numbers at one
    depth and sibling items have equal dimensions; otherwise the array
    numpy builds holds Python objects. *)
Fixpoint regular (v : nd) : bool :=
  match v with
  | Num _ => true
  | Seq l =>
      forallb regular l &&
      match discover <$> l with
      | [] => true
      | s :: ss => forallb (λ s', bool_decide (s' = s)) ss
      end
  end.

(** [list(value)]: a number is not iterable. *)
Definition py_list (value : nd) : res (list nd) :=
  match value with
  | Num _ => Raise TypeError
  | Seq l => Ok l
  end.

(** [np.asarray(l)] on a list. *)
Definition asarray (l : list nd) : t :=
  Build (discover (Seq l)) (negb (regular (Seq l))) l.

Definition ndim (a : t) : nat := length (shape a).

(** [len(a)] for [a.ndim >= 1]. *)
Definition len (a : t) : N := hd 0%N (shape a).

(** [a.shape = (len(a), 1)] on a one-dimensional array. *)
Definition reshape_column (a : t) : t :=
  Build [len a; 1%N] (dtype_object a) ((λ x, Seq [x]) <$> items a).


(** [a[idx]]: an integer selects one item (bounds error when out of
    range), a slice selects a sub-array, and a string is not a valid
    subscript of an array without named fields ([IndexError]). *)
Definition __getitem__ (a : t) (idx : pykey) : res nd :=
  match idx with
  | Hashable (KInt i) => py_index (items a) i
  | Hashable (KStr _) => Raise IndexError
  | Slice start stop => Ok (Seq (py_slice_Z (items a) start stop))
  end.
End ndarray.

(** ** The data dictionaries *)

(** A positional argument of a dictionary constructor. *)
Inductive pyarg (I : Type) :=
| ArgNone
| ArgObject
    (* an object [dict] cannot be built from: neither a mapping nor an
       iterable of key-value pairs *)
| ArgMapping (sliceable : bool) (content : gmap hkey I)
    (* a mapping with its items; [sliceable] tells whether it is an
       instance of [SliceableDataDict] *).
Arguments ArgNone {I}.
Arguments ArgObject {I}.
Arguments ArgMapping {I} _ _.

(** [dict] called on the positional arguments: no argument gives an
    empty dict, a mapping is copied, something [dict] cannot be built from
    or more than one positional argument is a [TypeError]. *)
Definition py_dict {I} (args : list (pyarg I)) : res (gmap hkey I) :=
  match args with
  | [] => Ok ∅
  | [ArgMapping _ d] => Ok d
  | [ArgNone] | [ArgObject] => Raise TypeError
  | _ :: _ :: _ => Raise TypeError
  end.

(** [**mapping]: every key has to be a string. *)
Definition py_kwargs {I} (d : gmap hkey I) : res (gmap hkey I) :=
  if forallb (λ kv, match kv.1 with KStr _ => true | KInt _ => false end)
             (map_to_list d)
  then Ok d else Raise TypeError.

Module SliceableDataDict.
(** What the base class expects of a concrete subclass.  [__setitem__]
    is abstract in the base class; [clear] is [self.store = dict()]. *)
Class Mutable (D I : Type) := {
  clear : D → D;
  __setitem__ : pykey → I → M D ();
}.

(** For the inherited [__getitem__]: the [store] attribute,
    [type(self)(None)], and the subscript operation of the values. *)
Class Indexable (D V I : Type) := {
  store : D → gmap hkey V;
  construct_None : res D;
  value_getitem : V → pykey → res I;
}.

(** The outcome of [d[key]]: a stored value, or a new dictionary of the
    same class holding the re-indexed values. *)
Inductive getitem_result (D V : Type) :=
| Value (v : V)
| Sliced (d : D).
Arguments Value {D V} v.
Arguments Sliced {D V} d.

Section methods.
Context {D V I : Type} `{!Mutable D I, !Indexable D V I}.

(** [self.update(d)]: [self[key] = value] for every item of [d]. *)
Definition update (d : gmap hkey I) : M D () :=
  for_each (map_to_list d) (λ kv, __setitem__ (Hashable kv.1) kv.2).

Definition __init__ (args : list (pyarg I)) : M D () :=
  λ self,
    let self := clear self in       (* self.store = dict() *)
    if bool_decide (length args ≠ 1%nat) then
      (d ← lift (py_dict args); update d) self
    else
      match args with
      | ArgNone :: _ => (Ok (), self)
      | ArgMapping true d :: _ => (d' ← lift (py_kwargs d); update d') self
      | _ => (d ← lift (py_dict args); update d) self
      end.

(** The [for k, v in self.items(): new_dict[k] = v[idx]] loop; an item
    of [self.items()] is [(k, self[k])], the stored value. *)
Definition reindex (self : D) (idx : pykey) : M D () :=
  for_each (map_to_list (store self))
           (λ kv, x ← lift (value_getitem kv.2 idx);
                  __setitem__ (Hashable kv.1) x).

Definition __getitem__ (self : D) (key : pykey)
  : res (getitem_result D V) :=
  match dict_getitem (store self) key with
  | Ok v => Ok (Value v)                     (* return self.store[key] *)
  | Raise KeyError | Raise TypeError =>      (* except: pass *)
      new_dict ← construct_None;             (* type(self)(None) *)
      match reindex self key new_dict with
      | (Ok _, new_dict) => Ok (Sliced new_dict)    (* else: return *)
      | (Raise TypeError, _) =>              (* except TypeError: pass *)
          Value <$> dict_getitem (store self) key
      | (Raise e, _) => Raise e
      end
  | Raise e => Raise e
  end.

Definition __len__ (self : D) : N := N.of_nat (size (store self)).
End methods.
End SliceableDataDict.

Module PerArrayDict.
Record t := Build {
  n_elements : option N;
  store : gmap hkey ndarray.t;
}.

Definition __setitem__ (key : pykey) (value : nd) : M t () :=
  l ← lift (ndarray.py_list value);
  let value := ndarray.asarray l in
  let value :=
    if bool_decide (ndarray.ndim value = 1%nat)
       && negb (ndarray.dtype_object value)
    then ndarray.reshape_column value      (* reshape without copy *)
    else value in
  if bool_decide (ndarray.ndim value ≠ 2%nat) then raise ValueError
  else
    self ← get_state;
    if bool_decide (is_Some (n_elements self)
                    ∧ Some (ndarray.len value) ≠ n_elements self)
    then raise ValueError
    else
      store' ← lift (dict_setitem (store self) key value);
      put_state (Build (n_elements self) store').

Global Instance mutable : SliceableDataDict.Mutable t nd := {|
  SliceableDataDict.clear := λ self, Build (n_elements self) ∅;
  SliceableDataDict.__setitem__ := __setitem__;
|}.

(** [PerArrayDict(n_elements, *args)] *)
Definition __init__ (n_elements : option N) (args : list (pyarg nd))
  : res t :=
  match SliceableDataDict.__init__ args (Build n_elements ∅) with
  | (Ok _, self) => Ok self
  | (Raise e, _) => Raise e
  end.

Global Instance indexable : SliceableDataDict.Indexable t ndarray.t nd := {|
  SliceableDataDict.store := store;
  SliceableDataDict.construct_None := __init__ None [];
  SliceableDataDict.value_getitem := ndarray.__getitem__;
|}.

(** Inherited from [SliceableDataDict]. *)
Definition __getitem__ (self : t) (key : pykey)
  : res (SliceableDataDict.getitem_result t ndarray.t) :=
  SliceableDataDict.__getitem__ self key.

Definition __len__ (self : t) : N := SliceableDataDict.__len__ self.
End PerArrayDict.

(** ** Tractogram items and the eager tractogram state *)

(** References to objects in the store. *)
Definition loc := positive.

(** A value produced by an iterator: an array, or a key (iterating a
    dictionary produces its keys). *)
Inductive pyobj :=
| ObjArray (v : nd)
| ObjKey (k : hkey).

Module TractogramItem.
Record t := Build {
  streamline : list np.point;
  data_for_streamline : gmap hkey pyobj;
  data_for_points : gmap hkey pyobj;
}.

Definition __iter__ (self : t) : list np.point := streamline self.
Definition __len__ (self : t) : N := N.of_nat (length (streamline self)).
End TractogramItem.

Module TractogramState.
(** The attributes of a [Tractogram] instance.  Modelled from the spec:
    the classes of the two dictionaries are the names
    [DataPerStreamlineDict] and [DataPerPointDict], which the module does
    not define (see [Tractogram.__init__]).  The spec gives the eager
    tractogram a validated per-element dictionary for the per-streamline
    data and, for the per-point data, a collection of ragged sequences
    keyed by name. *)
Record t := Build {
  _streamlines : ArraySequence.t np.point;
  _data_per_streamline : PerArrayDict.t;
  _data_per_point : gmap hkey (ArraySequence.t nd);
  _affine_to_rasmm : np.mat4;
}.
End TractogramState.

(** The eager tractograms of the store. *)
Abbreviation eager_heap := (gmap loc TractogramState.t).

(** A zero-argument callable that returns an iterator: run in the current
    store, it gives the values the iterator produces, or raises. *)
Abbreviation callable Y := (eager_heap → res (list Y)).

(** A value assigned into a [LazyDict] or passed as [streamlines]. *)
Inductive pyval (Y : Type) :=
| PyNone
| PyCallable (f : callable Y)
| PyOther.   (* neither [None] nor callable, as an array *)
Arguments PyNone {Y}.
Arguments PyCallable {Y} f.
Arguments PyOther {Y}.

Module LazyDict.
Record t := Build {
  store : gmap hkey (option (callable pyobj));
}.

(** A positional argument of [LazyDict(...)]. *)
Inductive arg :=
| Arg (a : pyarg (pyval pyobj))
| ArgLazyDict (d : t).

Definition __getitem__ (self : t) (key : pykey) : callable pyobj :=
  λ h,
    f ← dict_getitem (store self) key;
    match f with
    | Some f => f h
    | None => Raise TypeError      (* [None] is not callable *)
    end.

Definition __setitem__ (key : pykey) (value : pyval pyobj) : M t () :=
  match value with
  | PyOther => raise TypeError
  | PyNone =>
      self ← get_state;
      store' ← lift (dict_setitem (store self) key None);
      put_state (Build store')
  | PyCallable f =>
      self ← get_state;
      store' ← lift (dict_setitem (store self) key (Some f));
      put_state (Build store')
  end.

Global Instance mutable : SliceableDataDict.Mutable t (pyval pyobj) := {|
  SliceableDataDict.clear := λ _, Build ∅;
  SliceableDataDict.__setitem__ := __setitem__;
|}.

(** The stored objects as values. *)
Definition stored (f : option (callable pyobj)) : pyval pyobj :=
  match f with
  | Some f => PyCallable f
  | None => PyNone
  end.

(** How the base constructor sees an argument. *)
Definition upcast (a : arg) : pyarg (pyval pyobj) :=
  match a with
  | Arg a => a
  | ArgLazyDict d => ArgMapping true (stored <$> store d)
  end.

(** [LazyDict] called on [args].  The object under construction starts
    without attributes; both branches begin by resetting [store]. *)
Definition __init__ (args : list arg) : res t :=
  let run (m : M t ()) :=
    match m (Build ∅) with
    | (Ok _, self) => Ok self
    | (Raise e, _) => Raise e
    end in
  match args with
  | [ArgLazyDict d] =>
      (* copy the generator functions *)
      run (kw ← lift (py_kwargs (stored <$> store d));
           SliceableDataDict.update kw)
  | _ => run (SliceableDataDict.__init__ (upcast <$> args))
  end.
End LazyDict.

Module LazyTractogramState.
(** The attributes of a [LazyTractogram] instance. *)
Record t := Build {
  _streamlines : option (callable (list np.point));
  _data_per_streamline : LazyDict.t;
  _data_per_point : LazyDict.t;
  _affine_to_rasmm : np.mat4;
  _nb_streamlines : option N;
  _data : option (callable TractogramItem.t);
  _affine_to_apply : np.mat4;
}.
End LazyTractogramState.

(** ** The store *)

Record heap := Heap {
  eager : eager_heap;
  lazy : gmap loc LazyTractogramState.t;
}.

(** What [apply_affine] returns: a [Tractogram] or a [LazyTractogram]. *)
Inductive ref :=
| Eager (l : loc)
| Lazy (l : loc).

Definition load_eager (self : loc) : M heap TractogramState.t :=
  λ h, match eager h !! self with
       | Some t => (Ok t, h)
       | None => (Raise ReferenceError, h)
       end.

Definition store_eager (self : loc) (t : TractogramState.t) : M heap () :=
  λ h, (Ok (), Heap (<[self := t]> (eager h)) (lazy h)).

Definition new_eager (t : TractogramState.t) : M heap loc :=
  λ h, let l := fresh (dom (eager h)) in
       (Ok l, Heap (<[l := t]> (eager h)) (lazy h)).

Definition load_lazy (self : loc) : M heap LazyTractogramState.t :=
  λ h, match lazy h !! self with
       | Some t => (Ok t, h)
       | None => (Raise ReferenceError, h)
       end.

Definition store_lazy (self : loc) (t : LazyTractogramState.t) : M heap () :=
  λ h, (Ok (), Heap (eager h) (<[self := t]> (lazy h))).

Definition new_lazy (t : LazyTractogramState.t) : M heap loc :=
  λ h, let l := fresh (dom (lazy h)) in
       (Ok l, Heap (eager h) (<[l := t]> (lazy h))).

(** ** The module namespace *)

(** The names bound at the top level of [tractogram.py]: its imports, its
    two functions and its six classes. *)
Definition module_names : list string :=
  ["copy"; "numbers"; "np"; "collections"; "warn"; "apply_affine";
   "ArraySequence"; "is_data_dict"; "is_lazy_dict"; "SliceableDataDict";
   "PerArrayDict"; "LazyDict"; "TractogramItem"; "Tractogram";
   "LazyTractogram"].

(** Evaluating a global name: [NameError] when nothing binds it.  (A name
    the module does not bind could still be a Python built-in; the two
    names the source looks up without binding them are not.) *)
Definition load_global (name : string) : res () :=
  if bool_decide (name ∈ module_names) then Ok () else Raise NameError.

(** [{k: f(v) for k, v in d.items()}] where [f] may raise. *)
Definition dict_mapM {V W} (f : V → res W) (d : gmap hkey V)
  : res (gmap hkey W) :=
  list_to_map
    <$> res_mapM (λ kv, w ← f kv.2; mret (kv.1, w)) (map_to_list d).

(** [[f(x) for x in l]] for a computation [f] on the store. *)
Fixpoint M_mapM {S A B} (f : A → M S B) (l : list A) : M S (list B) :=
  match l with
  | [] => mret []
  | x :: l' => y ← f x; ys ← M_mapM f l'; mret (y :: ys)
  end.

(** ** class Tractogram *)

(** A subscript of a tractogram: an integer or a slice. *)
Inductive subscript :=
| Int (i : Z)
| Slc (start stop : option Z).

Definition as_key (idx : subscript) : pykey :=
  match idx with
  | Int i => Hashable (KInt i)
  | Slc start stop => Slice start stop
  end.

Module Tractogram.
Import TractogramState.

Section unbound_names.
(** The two setters below call [DataPerStreamlineDict] and
    [DataPerPointDict].  The module neither defines nor imports these
    names ([module_names]); what a call to them would return is left
    open here, as a function of the streamlines already set on the
    instance and of the value passed. *)
Variable DataPerStreamlineDict :
  ArraySequence.t np.point → option (gmap hkey nd) → res PerArrayDict.t.
Variable DataPerPointDict :
  ArraySequence.t np.point → option (gmap hkey (list nd)) →
  res (gmap hkey (ArraySequence.t nd)).

(** [self._streamlines = ArraySequence(value)] *)
Definition streamlines_setter (value : option (list (list np.point)))
  : ArraySequence.t np.point :=
  ArraySequence.__init__ value.

(** [self._data_per_streamline = DataPerStreamlineDict(self, value)]:
    the name is evaluated first. *)
Definition data_per_streamline_setter
    (self_streamlines : ArraySequence.t np.point)
    (value : option (gmap hkey nd)) : res PerArrayDict.t :=
  load_global "DataPerStreamlineDict";;
  DataPerStreamlineDict self_streamlines value.

(** [self._data_per_point = DataPerPointDict(self, value)] *)
Definition data_per_point_setter
    (self_streamlines : ArraySequence.t np.point)
    (value : option (gmap hkey (list nd)))
  : res (gmap hkey (ArraySequence.t nd)) :=
  load_global "DataPerPointDict";;
  DataPerPointDict self_streamlines value.

(** [Tractogram(streamlines, data_per_streamline, data_per_point,
    affine_to_rasmm)].  The new object enters the store when its
    attributes are set; a constructor that raises leaves nothing
    behind that the program can reach. *)
Definition __init__
    (streamlines : option (list (list np.point)))
    (data_per_streamline : option (gmap hkey nd))
    (data_per_point : option (gmap hkey (list nd)))
    (affine_to_rasmm : np.mat4) : M heap loc :=
  let _streamlines := streamlines_setter streamlines in
  _data_per_streamline ←
    lift (data_per_streamline_setter _streamlines data_per_streamline);
  _data_per_point ←
    lift (data_per_point_setter _streamlines data_per_point);
  new_eager (Build _streamlines _data_per_streamline _data_per_point
                   affine_to_rasmm).

(** [get_affine_to_rasmm]: a copy of the matrix. *)
Definition get_affine_to_rasmm (self : loc) : M heap np.mat4 :=
  t ← load_eager self; mret (_affine_to_rasmm t).

Definition __len__ (self : loc) : M heap N :=
  t ← load_eager self; mret (ArraySequence.__len__ (_streamlines t)).

(** [self[idx]] for an integer [idx].  The two loops go through the keys
    of a dictionary and read [d[key][idx]]; a stored key subscripts to its
    stored value, so they are maps over the stores. *)
Definition item (self : loc) (idx : Z) : M heap TractogramItem.t :=
  t ← load_eager self;
  pts ← lift (ArraySequence.__getitem__ (_streamlines t) idx);
  data_per_streamline ←
    lift (dict_mapM
            (λ v, ObjArray <$> ndarray.__getitem__ v (Hashable (KInt idx)))
            (PerArrayDict.store (_data_per_streamline t)));
  data_per_point ←
    lift (dict_mapM
            (λ s, (ObjArray ∘ Seq) <$> ArraySequence.__getitem__ s idx)
            (_data_per_point t));
  mret (TractogramItem.Build pts data_per_streamline data_per_point).

Inductive getitem_result :=
| Item (i : TractogramItem.t)
| Sub (tractogram : loc).

Definition __getitem__ (self : loc) (idx : subscript)
  : M heap getitem_result :=
  match idx with
  | Int i => i ← item self i; mret (Item i)
  | Slc start stop =>
      t ← load_eager self;
      let pts := ArraySequence.slice (_streamlines t) start stop in
      data_per_streamline ←
        lift (dict_mapM (λ v, ndarray.__getitem__ v (as_key idx))
                        (PerArrayDict.store (_data_per_streamline t)));
      let data_per_point :=
        (λ s, Seq <$> ArraySequence.__iter__
                        (ArraySequence.slice s start stop))
          <$> _data_per_point t in
      new ← __init__ (Some (ArraySequence.__iter__ pts))
                     (Some data_per_streamline) (Some data_per_point)
                     np.eye4;
      mret (Sub new)
  end.

(** [iter(self)], run to the end: [self[i]] for [i] in
    [range(len(self.streamlines))]. *)
Definition __iter__ (self : loc) : M heap (list TractogramItem.t) :=
  n ← __len__ self;
  M_mapM (λ i, item self (Z.of_N i)) (py_range 0 n 1).

(** [copy.deepcopy(self)]: a new object with equal, unshared state. *)
Definition copy (self : loc) : M heap loc :=
  t ← load_eager self; new_eager t.
End unbound_names.

(** The invariant of the eager tractogram in the spec: the streamlines lie
    inside their buffer, every per-streamline array has one item per
    streamline, and every per-point sequence has one sequence per
    streamline. *)
Definition consistent (self : t) : Prop :=
  ArraySequence.within (_streamlines self)
  ∧ (∀ k v, PerArrayDict.store (_data_per_streamline self) !! k = Some v →
            N.of_nat (length (ndarray.items v))
            = ArraySequence.__len__ (_streamlines self))
  ∧ (∀ k s, _data_per_point self !! k = Some s →
            ArraySequence.within s
            ∧ ArraySequence.__len__ s
              = ArraySequence.__len__ (_streamlines self)).

(** The items iteration is specified to give for a consistent tractogram:
    for the streamline at position [i], its points, and under every key the
    [i]-th item of the per-streamline array and the [i]-th sequence of the
    per-point data. *)
Definition items_of (self : t) : list TractogramItem.t :=
  imap (λ i pts,
          TractogramItem.Build pts
            (omap (λ v, ObjArray <$> ndarray.items v !! i)
                  (PerArrayDict.store (_data_per_streamline self)))
            (omap (λ s, (ObjArray ∘ Seq) <$> ArraySequence.__iter__ s !! i)
                  (_data_per_point self)))
       (ArraySequence.__iter__ (_streamlines self)).
End Tractogram.

(** ** class LazyTractogram *)

(** Calling a stored object with no argument. *)
Definition call {Y} (f : option (callable Y)) : callable Y :=
  λ h, match f with
       | Some f => f h
       | None => Raise TypeError
       end.

(** [next(v)] on every iterator of a dictionary of iterators: the values
    produced and the iterators advanced, or nothing when one of them is
    exhausted ([StopIteration]). *)
Definition next_all {Y} (gens : gmap hkey (list Y))
  : option (gmap hkey Y * gmap hkey (list Y)) :=
  if bool_decide (map_Forall (λ _ l, l ≠ []) gens)
  then Some (omap head gens, tail <$> gens)
  else None.

Module LazyTractogram.
Import LazyTractogramState.

Definition set_data_per_streamline (d : LazyDict.t) (self : t) : t :=
  Build (_streamlines self) d (_data_per_point self) (_affine_to_rasmm self)
        (_nb_streamlines self) (_data self) (_affine_to_apply self).
Definition set_data_per_point (d : LazyDict.t) (self : t) : t :=
  Build (_streamlines self) (_data_per_streamline self) d (_affine_to_rasmm self)
        (_nb_streamlines self) (_data self) (_affine_to_apply self).
Definition set_affine_to_rasmm (a : np.mat4) (self : t) : t :=
  Build (_streamlines self) (_data_per_streamline self) (_data_per_point self) a
        (_nb_streamlines self) (_data self) (_affine_to_apply self).
Definition set_nb_streamlines (n : option N) (self : t) : t :=
  Build (_streamlines self) (_data_per_streamline self) (_data_per_point self)
        (_affine_to_rasmm self) n (_data self) (_affine_to_apply self).
Definition set_data (d : option (callable TractogramItem.t)) (self : t) : t :=
  Build (_streamlines self) (_data_per_streamline self) (_data_per_point self)
        (_affine_to_rasmm self) (_nb_streamlines self) d (_affine_to_apply self).
Definition set_affine_to_apply (a : np.mat4) (self : t) : t :=
  Build (_streamlines self) (_data_per_streamline self) (_data_per_point self)
        (_affine_to_rasmm self) (_nb_streamlines self) (_data self) a.

(** [obj.attribute = value] on the object at [self]. *)
Definition setattr (self : loc) (set : t → t) : M heap () :=
  t ← load_lazy self; store_lazy self (set t).

(** The [streamlines] setter: [None] or a generator function. *)
Definition streamlines_setter (value : pyval (list np.point))
  : res (option (callable (list np.point))) :=
  match value with
  | PyOther => Raise TypeError
  | PyNone => Ok None
  | PyCallable f => Ok (Some f)
  end.

(** [self._data_per_streamline = LazyDict(self, value)].  The first
    argument is the tractogram under construction; what kind of object it
    is plays no role, since [dict] is reached with two arguments. *)
Definition data_per_streamline_setter (value : LazyDict.arg)
  : res LazyDict.t :=
  LazyDict.__init__ [LazyDict.Arg ArgObject; value].

(** [self._data_per_point = LazyDict(self, value)] *)
Definition data_per_point_setter (value : LazyDict.arg) : res LazyDict.t :=
  LazyDict.__init__ [LazyDict.Arg ArgObject; value].

(** [LazyTractogram(streamlines, data_per_streamline, data_per_point,
    affine_to_rasmm)]: the constructor of [Tractogram] with the setters of
    this class, then the three attributes of the lazy variant. *)
Definition __init__
    (streamlines : pyval (list np.point))
    (data_per_streamline data_per_point : LazyDict.arg)
    (affine_to_rasmm : np.mat4) : M heap loc :=
  _streamlines ← lift (streamlines_setter streamlines);
  _data_per_streamline ←
    lift (data_per_streamline_setter data_per_streamline);
  _data_per_point ← lift (data_per_point_setter data_per_point);
  new_lazy (Build _streamlines _data_per_streamline _data_per_point
                  affine_to_rasmm None None np.eye4).

(** [iter(x)] for the outcome of a dictionary subscript: the items of an
    array, the keys of a dictionary. *)
Definition py_iter
    (x : SliceableDataDict.getitem_result PerArrayDict.t ndarray.t)
  : list pyobj :=
  match x with
  | SliceableDataDict.Value v => ObjArray <$> ndarray.items v
  | SliceableDataDict.Sliced d =>
      (λ kv, ObjKey kv.1) <$> map_to_list (PerArrayDict.store d)
  end.

(** [lambda: tractogram.streamlines.copy()] *)
Definition lambda_streamlines (tractogram : loc)
  : callable (list np.point) :=
  λ h, match h !! tractogram with
       | Some t =>
           Ok (ArraySequence.__iter__
                 (ArraySequence.copy (TractogramState._streamlines t)))
       | None => Raise ReferenceError
       end.

(** [lambda: iter(tractogram.data_per_streamline[key])] *)
Definition lambda_data_per_streamline (tractogram : loc) (key : hkey)
  : callable pyobj :=
  λ h, match h !! tractogram with
       | Some t =>
           py_iter <$> PerArrayDict.__getitem__
                         (TractogramState._data_per_streamline t)
                         (Hashable key)
       | None => Raise ReferenceError
       end.

(** [lambda: iter(tractogram.data_per_point[key])] *)
Definition lambda_data_per_point (tractogram : loc) (key : hkey)
  : callable pyobj :=
  λ h, match h !! tractogram with
       | Some t =>
           s ← dict_getitem (TractogramState._data_per_point t)
                            (Hashable key);
           mret ((ObjArray ∘ Seq) <$> ArraySequence.__iter__ s)
       | None => Raise ReferenceError
       end.

(** [lazy_tractogram._data_per_streamline[k] = f] *)
Definition data_per_streamline_setitem (self : loc) (k : hkey)
    (f : callable pyobj) : M heap () :=
  t ← load_lazy self;
  match LazyDict.__setitem__ (Hashable k) (PyCallable f)
                             (_data_per_streamline t) with
  | (Ok _, d) => store_lazy self (set_data_per_streamline d t)
  | (Raise e, _) => raise e
  end.

(** [lazy_tractogram._data_per_point[k] = f] *)
Definition data_per_point_setitem (self : loc) (k : hkey)
    (f : callable pyobj) : M heap () :=
  t ← load_lazy self;
  match LazyDict.__setitem__ (Hashable k) (PyCallable f)
                             (_data_per_point t) with
  | (Ok _, d) => store_lazy self (set_data_per_point d t)
  | (Raise e, _) => raise e
  end.

Definition from_tractogram (tractogram : loc) : M heap loc :=
  lazy_tractogram ←
    __init__ (PyCallable (lambda_streamlines tractogram))
             (LazyDict.Arg ArgNone) (LazyDict.Arg ArgNone) np.eye4;
  t ← load_eager tractogram;
  for_each (map_to_list (PerArrayDict.store
                           (TractogramState._data_per_streamline t)))
           (λ kv, data_per_streamline_setitem lazy_tractogram kv.1
                    (lambda_data_per_streamline tractogram kv.1));;
  for_each (map_to_list (TractogramState._data_per_point t))
           (λ kv, data_per_point_setitem lazy_tractogram kv.1
                    (lambda_data_per_point tractogram kv.1));;
  setattr lazy_tractogram
          (set_nb_streamlines
             (Some (ArraySequence.__len__ (TractogramState._streamlines t))));;
  setattr lazy_tractogram
          (set_affine_to_rasmm (TractogramState._affine_to_rasmm t));;
  mret lazy_tractogram.

(** The [streamlines] property: what the generator it returns produces
    when run to the end. *)
Definition streamlines (self : t) : callable (list np.point) :=
  λ h,
    let generator : res (list (list np.point)) :=
      match _streamlines self, _data self with
      | Some f, _ => f h
      | None, Some g =>
          items ← g h; mret (fmap (M:=list) TractogramItem.streamline items)
      | None, None => Ok []
      end in
    streamlines_gen ← generator;
    if negb (np.allclose (_affine_to_apply self) np.eye4)
    then mret (fmap (M:=list)
                 (affines.apply_affine (_affine_to_apply self))
                 streamlines_gen)
    else mret streamlines_gen.

(** The loop of [_gen_data]: one value from every iterator per
    streamline; a [StopIteration] from [next] ends the generator. *)
Fixpoint gen_data (streamlines : list (list np.point))
    (data_per_streamline_generators data_per_point_generators
       : gmap hkey (list pyobj)) : list TractogramItem.t :=
  match streamlines with
  | [] => []
  | s :: rest =>
      match next_all data_per_streamline_generators,
            next_all data_per_point_generators with
      | Some (data_for_streamline, gens1), Some (data_for_points, gens2) =>
          TractogramItem.Build s data_for_streamline data_for_points
            :: gen_data rest gens1 gens2
      | _, _ => []
      end
  end.

(** The [data] property, run to the end.  An item of
    [self.data_per_streamline.items()] is [(k, self.data_per_streamline[k])],
    the stored producer called. *)
Definition data (self : t) : callable TractogramItem.t :=
  λ h,
    match _data self with
    | Some g => g h
    | None =>
        gens1 ← dict_mapM (λ f, call f h)
                          (LazyDict.store (_data_per_streamline self));
        gens2 ← dict_mapM (λ f, call f h)
                          (LazyDict.store (_data_per_point self));
        s ← streamlines self h;
        mret (gen_data s gens1 gens2)
    end.

Definition __getitem__ {A} (self : loc) (idx : subscript) : M heap A :=
  raise NotImplementedError.

(** [iter(self)], run to the end: yields the items of [self.data], then
    records how many there were. *)
Definition __iter__ (self : loc) : M heap (list TractogramItem.t) :=
  t ← load_lazy self;
  items ← (λ h, (data t (eager h), h));
  setattr self (set_nb_streamlines (Some (N.of_nat (length items))));;
  mret items.

(** [len(self)]; the warning issued when the streamlines have to be
    counted is not modelled. *)
Definition __len__ (self : loc) : M heap N :=
  t ← load_lazy self;
  match _nb_streamlines t with
  | Some n => mret n
  | None =>
      s ← (λ h, (streamlines t (eager h), h));
      setattr self (set_nb_streamlines (Some (N.of_nat (length s))));;
      mret (N.of_nat (length s))
  end.

Definition copy (self : loc) : M heap loc :=
  t ← load_lazy self;
  tractogram ←
    __init__ (from_option PyCallable PyNone (_streamlines t))
             (LazyDict.ArgLazyDict (_data_per_streamline t))
             (LazyDict.ArgLazyDict (_data_per_point t))
             np.eye4;
  setattr tractogram (set_nb_streamlines (_nb_streamlines t));;
  setattr tractogram (set_data (_data t));;
  setattr tractogram (set_affine_to_apply (_affine_to_apply t));;
  mret tractogram.

Definition apply_affine (self : loc) (affine : np.mat4) (lazy : bool)
  : M heap loc :=
  if negb lazy then raise ValueError
  else
    tractogram ← copy self;                  (* new instance *)
    t ← load_lazy self;
    setattr tractogram
            (set_affine_to_apply (np.dot affine (_affine_to_apply t)));;
    inv ← lift (np.linalg_inv affine);
    setattr tractogram
            (set_affine_to_rasmm (np.dot (_affine_to_rasmm t) inv));;
    mret tractogram.

Definition to_world (self : loc) (lazy : bool) : M heap loc :=
  t ← load_lazy self;
  apply_affine self (_affine_to_rasmm t) lazy.

(** The attributes [from_tractogram] is written to leave on the lazy
    tractogram it returns: the producers it installs for the streamlines
    and for every key of the two dictionaries of [tractogram], and the
    attributes the constructor sets last. *)
Definition view_of (self : t) (tractogram : loc)
    (eager : TractogramState.t) : Prop :=
  _streamlines self = Some (lambda_streamlines tractogram)
  ∧ LazyDict.store (_data_per_streamline self)
    = map_imap (λ k _, Some (Some (lambda_data_per_streamline tractogram k)))
               (PerArrayDict.store
                  (TractogramState._data_per_streamline eager))
  ∧ LazyDict.store (_data_per_point self)
    = map_imap (λ k _, Some (Some (lambda_data_per_point tractogram k)))
               (TractogramState._data_per_point eager)
  ∧ _data self = None
  ∧ _affine_to_apply self = np.eye4.
End LazyTractogram.

(** ** class Tractogram: the methods that refer to [LazyTractogram] *)

Module EagerTractogram.
Import TractogramState.

Definition set_data (data : list np.point) (self : t) : t :=
  Build (ArraySequence.Build data
           (ArraySequence._offsets (_streamlines self))
           (ArraySequence._lengths (_streamlines self)))
        (_data_per_streamline self) (_data_per_point self)
        (_affine_to_rasmm self).

Definition set_affine_to_rasmm (a : np.mat4) (self : t) : t :=
  Build (_streamlines self) (_data_per_streamline self)
        (_data_per_point self) a.

(** About 128 Mb since pts shape is 3. *)
Definition BUFFER_SIZE : N := 10000000.

(** One round of the loop of [apply_affine]:
    [pts = self.streamlines._data[start:end]] and
    [self.streamlines._data[start:end] = apply_affine(affine, pts)]. *)
Definition transform_chunk (self : loc) (affine : np.mat4) (start : N)
  : M heap () :=
  let end_ := (start + BUFFER_SIZE)%N in
  t ← load_eager self;
  let pts := py_slice (ArraySequence._data (_streamlines t)) start end_ in
  data ← lift (py_set_slice (ArraySequence._data (_streamlines t))
                            start end_ (affines.apply_affine affine pts));
  store_eager self (set_data data t).

Definition apply_affine (self : loc) (affine : np.mat4) (lazy : bool)
  : M heap ref :=
  if lazy then
    lazy_tractogram ← LazyTractogram.from_tractogram self;
    r ← LazyTractogram.apply_affine lazy_tractogram affine true;
    mret (Lazy r)
  else
    t ← load_eager self;
    if bool_decide (ArraySequence.__len__ (_streamlines t) = 0%N)
    then mret (Eager self)
    else
      for_each
        (py_range 0 (N.of_nat (length (ArraySequence._data (_streamlines t))))
                  BUFFER_SIZE)
        (transform_chunk self affine);;
      (* Update the affine that brings back the streamlines to RASmm. *)
      t ← load_eager self;
      inv ← lift (np.linalg_inv affine);
      store_eager self
        (set_affine_to_rasmm (np.dot (_affine_to_rasmm t) inv) t);;
      mret (Eager self).

Definition to_world (self : loc) (lazy : bool) : M heap ref :=
  t ← load_eager self;
  apply_affine self (_affine_to_rasmm t) lazy.

(** The state the in-place transformation is specified to reach: every
    row of the buffer replaced by the affine applied to it, the offsets
    and lengths as they were, and the world affine multiplied on the
    right by the inverse [inv] of the affine. *)
Definition transformed (affine inv : np.mat4) (self : t) : t :=
  set_affine_to_rasmm (np.dot (_affine_to_rasmm self) inv)
    (set_data (affines.apply_affine affine
                 (ArraySequence._data (_streamlines self))) self).
End EagerTractogram.

(** ** class SliceableDataDict: deletion and iteration *)

(** [del store[key]] on a built-in [dict]. *)
Definition dict_delitem {V} (store : gmap hkey V) (key : pykey)
  : res (gmap hkey V) :=
  match key with
  | Hashable k =>
      match store !! k with
      | Some _ => Ok (delete k store)
      | None => Raise KeyError
      end
  | Slice _ _ => Raise TypeError
  end.

Module StoreMethods.
(** class SliceableDataDict: [__delitem__] and [__iter__], which only
    read or write [self.store].  A subclass is seen through its [store]
    attribute. *)
Class Stored (D V : Type) := {
  get_store : D → gmap hkey V;
  set_store : gmap hkey V → D → D;
}.

Section methods.
Context {D V : Type} `{!Stored D V}.

(** [del self.store[key]] *)
Definition __delitem__ (key : pykey) : M D () :=
  self ← get_state;
  store' ← lift (dict_delitem (get_store self) key);
  put_state (set_store store' self).

(** [iter(self.store)]: the keys. *)
Definition __iter__ (self : D) : list hkey := (map_to_list (get_store self)).*1.
End methods.

Global Instance PerArrayDict_stored : Stored PerArrayDict.t ndarray.t := {|
  get_store := PerArrayDict.store;
  set_store := λ s self, PerArrayDict.Build (PerArrayDict.n_elements self) s;
|}.

Global Instance LazyDict_stored
  : Stored LazyDict.t (option (callable pyobj)) := {|
  get_store := LazyDict.store;
  set_store := λ s _, LazyDict.Build s;
|}.
End StoreMethods.

(** ** The module-level predicates *)

(** The interpreter: [dict.values()] is a list in Python 2 and a view in
    Python 3; the module runs on both. *)
Inductive python := Python2 | Python3.

(** An object as [is_data_dict] and [is_lazy_dict] look at it. *)
Inductive object :=
| PerArrayDictObject (d : PerArrayDict.t)
| LazyDictObject (d : LazyDict.t)
| OtherObject.      (* an object without an attribute [store] *)

(** [obj.store.values()], each value reduced to whether it is callable:
    an array is not, a stored [None] is not, a generator function is. *)
Definition store_values (obj : object) : list bool :=
  match obj with
  | PerArrayDictObject d =>
      (λ _, false) <$> map_to_list (PerArrayDict.store d)
  | LazyDictObject d =>
      (λ kv, bool_decide (is_Some kv.2)) <$> map_to_list (LazyDict.store d)
  | OtherObject => []
  end.

(** [values[i]] on what [dict.values()] returns. *)
Definition values_getitem {A} (version : python) (values : list A) (i : Z)
  : res A :=
  match version with
  | Python2 => py_index values i
  | Python3 => Raise TypeError    (* a view is not subscriptable *)
  end.

(** True if [obj] seems to implement the DataDict API. *)
Definition is_data_dict (obj : object) : bool :=
  match obj with
  | OtherObject => false
  | _ => true                     (* hasattr(obj, 'store') *)
  end.

(** True if [obj] seems to implement the LazyDict API. *)
Definition is_lazy_dict (version : python) (obj : object) : res bool :=
  if is_data_dict obj
  then values_getitem version (store_values obj) 0
  else Ok false.

(** ** What the dictionaries keep *)

Module PerArrayDictChecks.
Import ndarray.

(** The array [PerArrayDict.__setitem__] stores for [value] in a
    dictionary for [n_elements] elements, or the exception its checks
    raise: the conversion, the reshape of a one-dimensional array to a
    column, the test of the dimensions and the test of the length. *)
Definition checked (n_elements : option N) (value : nd) : res t :=
  l ← py_list value;
  let value := asarray l in
  let value :=
    if bool_decide (ndim value = 1%nat) && negb (dtype_object value)
    then reshape_column value
    else value in
  if bool_decide (ndim value ≠ 2%nat) then Raise ValueError
  else if bool_decide (is_Some n_elements ∧ Some (len value) ≠ n_elements)
       then Raise ValueError
       else Ok value.

(** The invariant of a [PerArrayDict]: every stored array has two
    dimensions and, when the dictionary was given a number of elements,
    that number of rows. *)
Definition valid (d : PerArrayDict.t) : Prop :=
  ∀ k v, PerArrayDict.store d !! k = Some v →
         ndim v = 2%nat
         ∧ ∀ n, PerArrayDict.n_elements d = Some n → len v = n.

(** An array whose items are rows of [width] numbers. *)
Definition table (width : nat) (v : t) : Prop :=
  Forall (λ x, ∃ row : list Qc, x = Seq (Num <$> row) ∧ length row = width)
         (items v).
End PerArrayDictChecks.

(** ** class LazyTractogram: [create_from] *)

(** [next(iterator)] on an iterator that has produced nothing yet. *)
Definition py_next {Y} (values : list Y) : res Y :=
  match values with
  | x :: _ => Ok x
  | [] => Raise StopIteration
  end.

(** [try: body] followed by [except StopIteration: pass]. *)
Definition except_StopIteration {S} (body : M S ()) : M S () :=
  λ s, match body s with
       | (Raise StopIteration, s') => (Ok (), s')
       | r => r
       end.

Module LazyTractogramCreate.
Import LazyTractogramState.

(** [lambda: (t.data_for_streamline[key] for t in data_func())] *)
Definition lambda_data_for_streamline
    (data_func : callable TractogramItem.t) (key : hkey) : callable pyobj :=
  λ h, items ← data_func h;
       res_mapM (λ t, dict_getitem (TractogramItem.data_for_streamline t)
                                   (Hashable key)) items.

(** [lambda: (t.data_for_points[key] for t in data_func())] *)
Definition lambda_data_for_points
    (data_func : callable TractogramItem.t) (key : hkey) : callable pyobj :=
  λ h, items ← data_func h;
       res_mapM (λ t, dict_getitem (TractogramItem.data_for_points t)
                                   (Hashable key)) items.

(** [LazyTractogram.create_from(data_func)] *)
Definition create_from (data_func : pyval TractogramItem.t) : M heap loc :=
  match data_func with
  | PyCallable data_func =>
      lazy_tractogram ←
        LazyTractogram.__init__ PyNone (LazyDict.Arg ArgNone)
                                (LazyDict.Arg ArgNone) np.eye4;   (* cls() *)
      LazyTractogram.setattr lazy_tractogram
        (LazyTractogram.set_data (Some data_func));;
      except_StopIteration
        (first_item ← (λ h, (items ← data_func (eager h); py_next items, h));
         for_each (map_to_list (TractogramItem.data_for_streamline first_item))
                  (λ kv, LazyTractogram.data_per_streamline_setitem
                           lazy_tractogram kv.1
                           (lambda_data_for_streamline data_func kv.1));;
         for_each (map_to_list (TractogramItem.data_for_points first_item))
                  (λ kv, LazyTractogram.data_per_point_setitem
                           lazy_tractogram kv.1
                           (lambda_data_for_points data_func kv.1)));;
      mret lazy_tractogram
  | PyNone | PyOther =>
      raise TypeError     (* `data_func` must be a generator function *)
  end.

(** The producers [from_tractogram] is written to install on the lazy
    tractogram it returns, for the streamlines and for every key of the
    two dictionaries of [tractogram]; the pending affine is left open. *)
Definition producers_of (self : t) (tractogram : loc)
    (eager : TractogramState.t) : Prop :=
  _streamlines self = Some (LazyTractogram.lambda_streamlines tractogram)
  ∧ LazyDict.store (_data_per_streamline self)
    = map_imap (λ k _, Some (Some (LazyTractogram.lambda_data_per_streamline
                                     tractogram k)))
               (PerArrayDict.store
                  (TractogramState._data_per_streamline eager))
  ∧ LazyDict.store (_data_per_point self)
    = map_imap (λ k _, Some (Some (LazyTractogram.lambda_data_per_point
                                     tractogram k)))
               (TractogramState._data_per_point eager)
  ∧ _data self = None.

(** An item with its streamline transformed by the affine. *)
Definition transformed_item (affine : np.mat4) (item : TractogramItem.t)
  : TractogramItem.t :=
  TractogramItem.Build
    (affines.apply_affine affine (TractogramItem.streamline item))
    (TractogramItem.data_for_streamline item)
    (TractogramItem.data_for_points item).
End LazyTractogramCreate.

(** ** Concrete inputs *)

Module Examples.
Import np.

Definition pt (x y z : Z) : point :=
  P3 (Qc_of_Z x) (Qc_of_Z y) (Qc_of_Z z).

(** Three streamlines of lengths 2, 3 and 1. *)
Definition streamlines : list (list point) :=
  [[pt 0 0 0; pt 1 0 0]; [pt 0 1 0; pt 0 2 0; pt 0 3 0]; [pt 5 5 5]].

Definition move : mat4 :=
  translation (Qc_of_Z 1) (Qc_of_Z 2) (Qc_of_Z 3).
Definition move_back : mat4 :=
  translation (Qc_of_Z (-1)) (Qc_of_Z (-2)) (Qc_of_Z (-3)).

Definition zoom : mat4 :=
  M4 (V4 (Qc_of_Z 2) 0 0 0) (V4 0 (Qc_of_Z 2) 0 0)
     (V4 0 0 (Qc_of_Z 2) 0) (V4 0 0 0 1).
Definition zoom_back : mat4 :=
  M4 (V4 (Q2Qc (1 # 2)) 0 0 0) (V4 0 (Q2Qc (1 # 2)) 0 0)
     (V4 0 0 (Q2Qc (1 # 2)) 0) (V4 0 0 0 1).

(** An invertible matrix whose last row is not 0 0 0 1. *)
Definition not_affine : mat4 :=
  M4 (V4 1 0 0 0) (V4 0 1 0 0) (V4 0 0 1 0) (V4 0 0 0 (Qc_of_Z 2)).

Definition not_affine_back : mat4 :=
  M4 (V4 1 0 0 0) (V4 0 1 0 0) (V4 0 0 1 0) (V4 0 0 0 (Q2Qc (1 # 2))).

(** A matrix without inverse. *)
Definition singular : mat4 :=
  M4 (V4 1 0 0 0) (V4 0 1 0 0) (V4 0 0 0 0) (V4 0 0 0 1).

(** The three streamlines, no auxiliary data, world affine [W]. *)
Definition tractogram (W : mat4) : TractogramState.t :=
  TractogramState.Build (ArraySequence.__init__ (Some streamlines))
                        (PerArrayDict.Build (Some 3%N) ∅) ∅ W.

(** No streamline at all, world affine [W]. *)
Definition empty_tractogram (W : mat4) : TractogramState.t :=
  TractogramState.Build (ArraySequence.__init__ None)
                        (PerArrayDict.Build (Some 0%N) ∅) ∅ W.

(** A store with one eager tractogram, at reference 1. *)
Definition store_of (t : TractogramState.t) : heap :=
  Heap {[1%positive := t]} ∅.

(** A lazy tractogram without producers, and a store that holds it. *)
Definition lazy_tractogram : LazyTractogramState.t :=
  LazyTractogramState.Build None (LazyDict.Build ∅) (LazyDict.Build ∅)
                            eye4 None None eye4.
Definition lazy_store : heap := Heap ∅ {[1%positive := lazy_tractogram]}.

Definition column (xs : list Z) : ndarray.t :=
  ndarray.Build [N.of_nat (length xs); 1%N] false
                ((λ x, Seq [Num (Qc_of_Z x)]) <$> xs).

(** [{"scalars": [[1], [2], [3]]}] for three elements. *)
Definition scalars : PerArrayDict.t :=
  PerArrayDict.Build (Some 3%N) {[KStr "scalars" := column [1; 2; 3]%Z]}.

(** [{0: [[10], [20]]}] for two elements: the key 0 is also a valid
    subscript of the stored array. *)
Definition int_keyed : PerArrayDict.t :=
  PerArrayDict.Build (Some 2%N) {[KInt 0 := column [10; 20]%Z]}.


(** The three streamlines with one scalar per streamline under
    ["scalars"] and one number per point under ["colors"]. *)
Definition with_data : TractogramState.t :=
  TractogramState.Build
    (ArraySequence.__init__ (Some streamlines))
    scalars
    {[KStr "colors" :=
        ArraySequence.__init__
          (Some [[Seq [Num 0]; Seq [Num 0]];
                 [Seq [Num 0]; Seq [Num 0]; Seq [Num 0]];
                 [Seq [Num 0]]])]}
    eye4.

(** The attributes of a lazy view of [with_data] held at reference 1. *)
Definition view_with_data : LazyTractogramState.t :=
  LazyTractogramState.Build
    (Some (LazyTractogram.lambda_streamlines 1%positive))
    (LazyDict.Build
       {[KStr "scalars" :=
           Some (LazyTractogram.lambda_data_per_streamline 1%positive
                   (KStr "scalars"))]})
    (LazyDict.Build
       {[KStr "colors" :=
           Some (LazyTractogram.lambda_data_per_point 1%positive (KStr "colors"))]})
    eye4 (Some 3%N) None eye4.

(** A dictionary whose store was given a one-dimensional array
    directly, without [__setitem__]. *)
Definition flat : PerArrayDict.t :=
  PerArrayDict.Build None
    {[KStr "flat" :=
        ndarray.Build [2%N] false [Num (Qc_of_Z 1); Num (Qc_of_Z 2)]]}.
End Examples.

(** ** More concrete inputs *)

Module Inputs.
Import np.

(** The numbers of a list of integers. *)
Definition nums (xs : list Z) : nd := Seq ((λ x, Num (Qc_of_Z x)) <$> xs).

(** [{"scalars": [[1], [2], [3]], "more": [[4], [5], [6]]}] for three
    elements. *)
Definition two_columns : PerArrayDict.t :=
  PerArrayDict.Build (Some 3%N)
    (<[KStr "more" := Examples.column [4; 5; 6]%Z]>
       (PerArrayDict.store Examples.scalars)).

(** The mapping [{"scalars": [1, 2, 3]}]. *)
Definition scalars_mapping : gmap hkey nd :=
  {[KStr "scalars" := nums [1; 2; 3]%Z]}.

(** A producer of three scalars, and a [LazyDict] that holds it. *)
Definition producer : callable pyobj :=
  LazyTractogram.lambda_data_per_streamline 1%positive (KStr "scalars").

Definition lazy_dict : LazyDict.t :=
  LazyDict.Build {[KStr "scalars" := Some producer]}.

(** A [LazyDict] with an integer key. *)
Definition int_keyed_lazy_dict : LazyDict.t :=
  LazyDict.Build {[KInt 0 := Some producer]}.

(** A store with the tractogram [Examples.with_data] at reference 1. *)
Definition store_with_data : heap := Examples.store_of Examples.with_data.

(** A lazy view of [Examples.with_data] with the translation by (1, 2, 3)
    pending, and a store that holds both. *)
Definition pending_view : LazyTractogramState.t :=
  LazyTractogram.set_affine_to_apply Examples.move Examples.view_with_data.

Definition store_with_view : heap :=
  Heap {[1%positive := Examples.with_data]} {[1%positive := pending_view]}.

(** A lazy view of [Examples.with_data] with a pending translation by one
    billionth along x, which numpy's tolerance does not tell from the
    identity. *)
Definition tiny : mat4 := translation (Q2Qc (1 # 1000000000)) 0 0.

Definition tiny_view : LazyTractogramState.t :=
  LazyTractogram.set_affine_to_apply tiny Examples.view_with_data.

Definition store_with_tiny_view : heap :=
  Heap {[1%positive := Examples.with_data]} {[1%positive := tiny_view]}.

(** A producer of one item with the single point (0, 0, 0), and a lazy
    tractogram driven by it with the translation by (1, 2, 3) pending. *)
Definition one_item : callable TractogramItem.t :=
  λ _, Ok [TractogramItem.Build [Examples.pt 0 0 0] ∅ ∅].

Definition data_driven : LazyTractogramState.t :=
  LazyTractogramState.Build None (LazyDict.Build ∅) (LazyDict.Build ∅)
                            eye4 None (Some one_item) Examples.move.

Definition store_data_driven : heap := Heap ∅ {[1%positive := data_driven]}.

(** The same lazy tractogram with the number 7 recorded, which is not the
    number of items its producer yields. *)
Definition miscounted : LazyTractogramState.t :=
  LazyTractogram.set_nb_streamlines (Some 7%N) data_driven.

Definition store_miscounted : heap := Heap ∅ {[1%positive := miscounted]}.

(** The lazy view [pending_view] with no number of streamlines recorded,
    and a store that holds it with the tractogram it reads. *)
Definition uncounted_view : LazyTractogramState.t :=
  LazyTractogram.set_nb_streamlines None pending_view.

Definition store_uncounted : heap :=
  Heap {[1%positive := Examples.with_data]} {[1%positive := uncounted_view]}.

(** A lazy tractogram whose streamlines producer raises [ValueError], with
    no number of streamlines recorded. *)
Definition failing : callable (list point) := λ _, Raise ValueError.

Definition failing_view : LazyTractogramState.t :=
  LazyTractogramState.Build (Some failing) (LazyDict.Build ∅)
                            (LazyDict.Build ∅) eye4 None None eye4.

Definition store_failing : heap := Heap ∅ {[1%positive := failing_view]}.

(** What the two unbound names of [Tractogram] are taken to be. *)
Definition unbound {A B C} (_ : A) (_ : B) : res C := Raise NameError.
End Inputs.

(** * Properties *)

(** ** The monads *)

Lemma for_each_app {S A} (l1 l2 : list A) (body : A → M S ()) (s : S) :
  for_each (l1 ++ l2) body s =
  match for_each l1 body s with
  | (Ok _, s') => for_each l2 body s'
  | (Raise e, s') => (Raise e, s')
  end.
Proof.
  revert s. induction l1 as [|x l1 IH]; intros s; simpl; [done|].
  unfold mbind, M_bind. destruct (body x s) as [[[]|e] s']; [|done].
  apply IH.
Qed.

(** ** Matrix algebra *)

Section matrix_algebra.
Import np.
Local Open Scope Qc_scope.

Local Ltac entries A :=
  destruct A as [[? ? ? ?] [? ? ? ?] [? ? ? ?] [? ? ? ?]].
Local Ltac unfold_all :=
  cbv [dot adjugate scale eye4 mmk vmk det sum4 cofactor minor det3 sgn
       mget vget mrow others r0 r1 r2 r3 v0 v1 v2 v3 translation].

Lemma dot_assoc A B C : dot (dot A B) C = dot A (dot B C).
Proof. entries A; entries B; entries C. unfold_all. f_equal; f_equal; ring. Qed.

Lemma dot_eye4_l A : dot eye4 A = A.
Proof. entries A. unfold_all. f_equal; f_equal; ring. Qed.

Lemma dot_eye4_r A : dot A eye4 = A.
Proof. entries A. unfold_all. f_equal; f_equal; ring. Qed.

Lemma dot_adjugate A : dot A (adjugate A) = scale (det A) eye4.
Proof. entries A. unfold_all. f_equal; f_equal; ring. Qed.

Lemma adjugate_dot A : dot (adjugate A) A = scale (det A) eye4.
Proof. entries A. unfold_all. f_equal; f_equal; ring. Qed.

Lemma det_dot A B : det (dot A B) = det A * det B.
Proof. entries A; entries B. unfold_all. ring. Qed.

Lemma det_eye4 : det eye4 = 1.
Proof. unfold_all. ring. Qed.

Lemma dot_scale_r c A B : dot A (scale c B) = scale c (dot A B).
Proof. entries A; entries B. unfold_all. f_equal; f_equal; ring. Qed.

Lemma dot_scale_l c A B : dot (scale c A) B = scale c (dot A B).
Proof. entries A; entries B. unfold_all. f_equal; f_equal; ring. Qed.

Lemma scale_scale c d A : scale c (scale d A) = scale (c * d) A.
Proof. entries A. unfold_all. f_equal; f_equal; ring. Qed.

Lemma scale_1 A : scale 1 A = A.
Proof. entries A. unfold_all. f_equal; f_equal; ring. Qed.

(** What [np.linalg.inv] returns is a two-sided inverse. *)
Lemma linalg_inv_Ok A B :
  linalg_inv A = Ok B → dot A B = eye4 ∧ dot B A = eye4.
Proof.
  unfold linalg_inv. case_bool_decide as Hdet; [done|].
  intros [= <-]. split.
  - rewrite dot_scale_r, dot_adjugate, scale_scale.
    rewrite Qcmult_inv_l by done. apply scale_1.
  - rewrite dot_scale_l, adjugate_dot, scale_scale.
    rewrite Qcmult_inv_l by done. apply scale_1.
Qed.

Lemma invertible_det A B : dot A B = eye4 → det A ≠ 0.
Proof.
  intros HAB Hdet. pose proof (det_dot A B) as H.
  rewrite HAB, det_eye4, Hdet, Qcmult_0_l in H. discriminate H.
Qed.

(** Any right inverse is what [np.linalg.inv] returns: the model of
    [np.linalg.inv] does not depend on how the inverse is computed. *)
Lemma linalg_inv_unique A B : dot A B = eye4 → linalg_inv A = Ok B.
Proof.
  intros HAB. pose proof (invertible_det A B HAB) as Hdet.
  destruct (linalg_inv A) as [C|e] eqn:HA.
  - apply linalg_inv_Ok in HA as [_ HCA]. f_equal.
    rewrite <-(dot_eye4_r C), <-HAB, <-dot_assoc, HCA. apply dot_eye4_l.
  - unfold linalg_inv in HA. by case_bool_decide.
Qed.

Lemma linalg_inv_singular A : det A = 0 → linalg_inv A = Raise LinAlgError.
Proof. intros H. unfold linalg_inv. by rewrite bool_decide_eq_true_2. Qed.

(** A matrix with a zero column has determinant zero. *)
Lemma det_zero_column A j : (∀ i, mget A i j = 0) → det A = 0.
Proof.
  intros H.
  pose proof (H I0) as H0. pose proof (H I1) as H1.
  pose proof (H I2) as H2. pose proof (H I3) as H3. clear H.
  entries A. destruct j; cbn in H0, H1, H2, H3; subst; unfold_all; ring.
Qed.

Lemma inverse_comm A B : dot A B = eye4 → dot B A = eye4.
Proof. intros H. by apply linalg_inv_unique, linalg_inv_Ok in H as [_ ?]. Qed.

(** The inverse of a product. *)
Lemma dot_inverse A B Ainv Binv :
  dot A Ainv = eye4 → dot B Binv = eye4 →
  dot (dot B A) (dot Ainv Binv) = eye4.
Proof.
  intros HA HB.
  rewrite dot_assoc, <-(dot_assoc A), HA, dot_eye4_l. done.
Qed.

Lemma translation_inverse tx ty tz :
  dot (translation tx ty tz) (translation (- tx) (- ty) (- tz)) = eye4.
Proof. unfold_all. f_equal; f_equal; ring. Qed.

Lemma allclose_eye4 : allclose eye4 eye4 = true.
Proof. vm_compute. reflexivity. Qed.
End matrix_algebra.

(** ** Slices and the chunked loop *)

Lemma py_slice_fmap {A B} (f : A → B) (l : list A) (start stop : N) :
  py_slice (f <$> l) start stop = f <$> py_slice l start stop.
Proof. unfold py_slice. by rewrite length_fmap, fmap_take, fmap_drop. Qed.

Lemma py_slice_all {A} (l : list A) (stop : N) :
  (N.of_nat (length l) ≤ stop)%N → py_slice l 0 stop = l.
Proof.
  intros H. unfold py_slice.
  rewrite N.min_0_l, N.sub_0_r, (N.min_r stop) by done.
  rewrite Nat2N.id. simpl. by rewrite firstn_all.
Qed.

Lemma range_from_nil (fuel : nat) (start stop step : N) :
  (stop ≤ start)%N → range_from fuel start stop step = [].
Proof.
  intros H. destruct fuel; simpl; [done|].
  destruct (N.ltb_spec start stop); [lia|done].
Qed.

(** One chunk of an in-place map: when the buffer is already mapped up to
    [start], rewriting the slice [start : start + step] leaves it mapped up
    to [start + step]. *)
Lemma chunk_step {A} (f : A → A) (d data : list A) (start step : N) :
  let n := N.of_nat (length d) in
  let p := N.to_nat (N.min start n) in
  let p' := N.to_nat (N.min (start + step) n) in
  data = (f <$> take p d) ++ drop p d →
  py_set_slice data start (start + step)
               (f <$> py_slice data start (start + step))
  = Ok ((f <$> take p' d) ++ drop p' d).
Proof.
  intros n p p' ->.
  assert (p ≤ length d)%nat as Hp by (unfold p, n; lia).
  assert (p ≤ p' ≤ length d)%nat as Hp' by (unfold p, p', n; lia).
  assert (length ((f <$> take p d) ++ drop p d) = length d) as Hlen.
  { rewrite length_app, length_fmap, length_take, length_drop. lia. }
  assert (drop p ((f <$> take p d) ++ drop p d) = drop p d) as Hdrop.
  { rewrite drop_app_length'; [done|]. rewrite length_fmap, length_take. lia. }
  unfold py_set_slice, py_slice. rewrite Hlen. fold n.
  replace (N.to_nat (N.min start n)) with p by done.
  replace (N.to_nat (N.max (N.min start n) (N.min (start + step) n)))
    with p' by (unfold p'; lia).
  replace (N.to_nat (N.min (start + step) n - N.min start n))
    with (p' - p)%nat by (unfold p, p'; lia).
  rewrite Hdrop.
  rewrite bool_decide_eq_true_2; last first.
  { rewrite length_fmap, length_take, length_drop. unfold p, p', n. lia. }
  f_equal.
  rewrite take_app_length' by (rewrite length_fmap, length_take; lia).
  rewrite app_assoc, <-fmap_app, take_take_drop.
  replace (p + (p' - p))%nat with p' by lia.
  f_equal.
  replace p' with (p + (p' - p))%nat at 1 by lia.
  rewrite <-drop_drop, Hdrop, drop_drop. f_equal. lia.
Qed.

(** ** Tractogram.apply_affine, in place *)

Section apply_affine_in_place.
Import TractogramState EagerTractogram.

Lemma BUFFER_SIZE_pos : (0 < BUFFER_SIZE)%N.
Proof. done. Qed.

Lemma set_data_set_data d1 d2 t : set_data d1 (set_data d2 t) = set_data d1 t.
Proof. done. Qed.

Lemma set_data_id t : set_data (ArraySequence._data (_streamlines t)) t = t.
Proof. by destruct t as [[] ? ? ?]. Qed.

Context (self : loc) (affine : np.mat4) (t0 : t).
Context (E : eager_heap) (L : gmap loc LazyTractogramState.t).

Local Abbreviation d := (ArraySequence._data (_streamlines t0)).
Local Abbreviation n := (N.of_nat (length d)).
Local Abbreviation f := (affines.apply_point affine).

Lemma transform_chunk_run (start : N) (data : list np.point) :
  let p := N.to_nat (N.min start n) in
  let p' := N.to_nat (N.min (start + BUFFER_SIZE) n) in
  data = (f <$> take p d) ++ drop p d →
  transform_chunk self affine start (Heap (<[self := set_data data t0]> E) L)
  = (Ok (),
     Heap (<[self := set_data ((f <$> take p' d) ++ drop p' d) t0]> E) L).
Proof.
  intros p p' Hdata.
  unfold transform_chunk, mbind, M_bind, load_eager, lift, store_eager.
  cbn [eager lazy]. rewrite lookup_insert_eq.
  cbn [set_data _streamlines ArraySequence._data].
  unfold affines.apply_affine.
  rewrite (chunk_step f d data start BUFFER_SIZE Hdata).
  cbn [eager lazy]. rewrite insert_insert_eq. done.
Qed.

(** The loop invariant: the buffer is transformed up to [start]. *)
Lemma transform_chunks (fuel : nat) (start : N) (data : list np.point) :
  let p := N.to_nat (N.min start n) in
  data = (f <$> take p d) ++ drop p d →
  (N.to_nat (n - start) ≤ fuel)%nat →
  for_each (range_from fuel start n BUFFER_SIZE)
           (transform_chunk self affine)
           (Heap (<[self := set_data data t0]> E) L)
  = (Ok (), Heap (<[self := set_data (f <$> d) t0]> E) L).
Proof.
  pose proof BUFFER_SIZE_pos as Hpos.
  revert start data.
  induction fuel as [|fuel IH]; intros start data p Hdata Hfuel.
  - simpl. unfold mret, M_ret. do 3 f_equal.
    rewrite Hdata. unfold p.
    replace (N.to_nat (N.min start n)) with (length d) by lia.
    by rewrite firstn_all, drop_all, app_nil_r.
  - simpl. destruct (N.ltb_spec start n) as [Hlt|Hge].
    + simpl. unfold mbind at 1, M_bind at 1.
      rewrite (transform_chunk_run start data Hdata).
      apply IH; [done|lia].
    + simpl. unfold mret, M_ret. do 3 f_equal.
      rewrite Hdata. unfold p.
    replace (N.to_nat (N.min start n)) with (length d) by lia.
      by rewrite firstn_all, drop_all, app_nil_r.
Qed.
End apply_affine_in_place.

Section apply_affine_spec.
Import TractogramState EagerTractogram.

(** What [apply_affine(affine, lazy=False)] does on a tractogram with at
    least one streamline, and on one without. *)
Lemma apply_affine_in_place (h : heap) (self : loc) (t : t)
    (A Ainv : np.mat4) :
  eager h !! self = Some t →
  np.dot A Ainv = np.eye4 →
  apply_affine self A false h =
  (Ok (Eager self),
   if bool_decide (ArraySequence.__len__ (_streamlines t) = 0%N) then h
   else Heap (<[self := transformed A Ainv t]> (eager h)) (lazy h)).
Proof.
  intros Hself HA. destruct h as [E L]. cbn [eager lazy] in *.
  unfold apply_affine, mbind at 1, M_bind at 1, load_eager. cbn [eager].
  rewrite Hself. case_bool_decide as Hlen; [done|].
  unfold py_range. rewrite N.sub_0_r.
  unfold mbind at 1, M_bind at 1.
  pose proof (transform_chunks self A t E L
                (N.to_nat (N.of_nat (length (ArraySequence._data (_streamlines t)))))
                0%N (ArraySequence._data (_streamlines t))) as Hloop.
  cbn zeta in Hloop. rewrite N.min_0_l in Hloop. simpl in Hloop.
  specialize (Hloop eq_refl).
  rewrite set_data_id, (insert_id E self t Hself) in Hloop.
  rewrite Hloop by lia.
  unfold mbind, M_bind, load_eager, lift, store_eager, mret, M_ret.
  cbn [eager lazy]. rewrite lookup_insert_eq.
  rewrite (linalg_inv_unique A Ainv HA).
  cbn [eager lazy]. by rewrite insert_insert_eq.
Qed.
End apply_affine_spec.

(** ** The eager tractogram *)

Lemma M_bind_Ok {S A B} (m : M S A) (f : A → M S B) (s s' : S) (a : A) :
  m s = (Ok a, s') → (m ≫= f) s = f a s'.
Proof. intros H. unfold mbind, M_bind. by rewrite H. Qed.

Lemma M_bind_Raise {S A B} (m : M S A) (f : A → M S B) (s s' : S) (e : exn) :
  m s = (Raise e, s') → (m ≫= f) s = (Raise e, s').
Proof. intros H. unfold mbind, M_bind. by rewrite H. Qed.

Lemma load_eager_run (h : heap) (self : loc) (t : TractogramState.t) :
  eager h !! self = Some t → load_eager self h = (Ok t, h).
Proof. intros H. unfold load_eager. by rewrite H. Qed.

Lemma load_lazy_run (h : heap) (self : loc) (t : LazyTractogramState.t) :
  lazy h !! self = Some t → load_lazy self h = (Ok t, h).
Proof. intros H. unfold load_lazy. by rewrite H. Qed.

Lemma copy_run (h : heap) (self : loc) (t : TractogramState.t) :
  eager h !! self = Some t →
  Tractogram.copy self h
  = (Ok (fresh (dom (eager h))),
     Heap (<[fresh (dom (eager h)) := t]> (eager h)) (lazy h)).
Proof.
  intros H. unfold Tractogram.copy.
  by rewrite (M_bind_Ok _ _ _ _ _ (load_eager_run h self t H)).
Qed.

Section eager_claims.
Import TractogramState EagerTractogram.
Local Open Scope Qc_scope.

Lemma getitem_transformed (A Ainv : np.mat4) (t : t) (i : Z) :
  ArraySequence.__getitem__ (_streamlines (transformed A Ainv t)) i
  = affines.apply_affine A <$> ArraySequence.__getitem__ (_streamlines t) i.
Proof.
  unfold ArraySequence.__getitem__.
  change (ArraySequence._offsets (_streamlines (transformed A Ainv t)))
    with (ArraySequence._offsets (_streamlines t)).
  change (ArraySequence._lengths (_streamlines (transformed A Ainv t)))
    with (ArraySequence._lengths (_streamlines t)).
  destruct (py_index (ArraySequence._offsets _) i) as [o|e]; [|reflexivity].
  destruct (py_index (ArraySequence._lengths _) i) as [l|e]; [|reflexivity].
  cbn [mbind res_bind mret res_ret fmap res_fmap]. f_equal.
  unfold ArraySequence.view, transformed, affines.apply_affine.
  cbn [set_affine_to_rasmm set_data _streamlines ArraySequence._data].
  apply py_slice_fmap.
Qed.

Lemma apply_translation (tx ty tz : Qc) (p : np.point) :
  affines.apply_point (np.translation tx ty tz) p
  = np.P3 (np.px p + tx) (np.py p + ty) (np.pz p + tz).
Proof.
  destruct p as [x y z]. unfold affines.apply_point, np.translation, np.mget.
  cbn. f_equal; ring.
Qed.

(** C1. For every eager tractogram with at least one streamline and every
    invertible affine [A] (with inverse [Ainv]), [apply_affine(A,
    lazy=False)] returns [self], and leaves at [self] the tractogram whose
    buffer holds [A] applied to every point (so that every streamline
    [i] is the old streamline [i] with [A] applied to each of its points)
    and whose world affine is [W . Ainv]; the loop goes through the buffer
    in chunks of [BUFFER_SIZE] rows.  In particular, for three
    streamlines of lengths 2, 3 and 1 with the identity as world affine,
    the translation by (1, 2, 3) adds (1, 2, 3) to every point and the
    world affine becomes the translation by (-1, -2, -3). *)
Theorem C1_apply_affine_in_place :
  (∀ (h : heap) (self : loc) (t : t) (A Ainv : np.mat4),
     eager h !! self = Some t →
     ArraySequence.__len__ (_streamlines t) ≠ 0%N →
     np.dot A Ainv = np.eye4 →
     apply_affine self A false h
     = (Ok (Eager self),
        Heap (<[self := transformed A Ainv t]> (eager h)) (lazy h))
     ∧ ArraySequence._data (_streamlines (transformed A Ainv t))
       = affines.apply_point A <$> ArraySequence._data (_streamlines t)
     ∧ (∀ i : Z,
          ArraySequence.__getitem__ (_streamlines (transformed A Ainv t)) i
          = fmap (M:=list) (affines.apply_point A)
              <$> ArraySequence.__getitem__ (_streamlines t) i)
     ∧ _affine_to_rasmm (transformed A Ainv t)
       = np.dot (_affine_to_rasmm t) Ainv)
  ∧ (∀ (h : heap) (self : loc) (p1 p2 p3 p4 p5 p6 : np.point)
       (data_per_streamline : PerArrayDict.t)
       (data_per_point : gmap hkey (ArraySequence.t nd)),
       let shift p := np.P3 (np.px p + Qc_of_Z 1) (np.py p + Qc_of_Z 2)
                            (np.pz p + Qc_of_Z 3) in
       eager h !! self
       = Some (Build (ArraySequence.__init__
                        (Some [[p1; p2]; [p3; p4; p5]; [p6]]))
                     data_per_streamline data_per_point np.eye4) →
       apply_affine self
         (np.translation (Qc_of_Z 1) (Qc_of_Z 2) (Qc_of_Z 3)) false h
       = (Ok (Eager self),
          Heap (<[self :=
                  Build (ArraySequence.__init__
                           (Some [[shift p1; shift p2];
                                  [shift p3; shift p4; shift p5];
                                  [shift p6]]))
                        data_per_streamline data_per_point
                        (np.translation (Qc_of_Z (-1)) (Qc_of_Z (-2))
                                        (Qc_of_Z (-3)))]>
                  (eager h))
               (lazy h))).
Proof.
  split.
  - intros h self t A Ainv Hself Hlen HA.
    rewrite (apply_affine_in_place h self t A Ainv Hself HA).
    rewrite bool_decide_eq_false_2 by done.
    split_and!; [done|done| |done].
    intros i. apply getitem_transformed.
  - intros h self p1 p2 p3 p4 p5 p6 dps dpp shift Hself.
    rewrite (apply_affine_in_place h self _ _ _ Hself
               (translation_inverse (Qc_of_Z 1) (Qc_of_Z 2) (Qc_of_Z 3))).
    rewrite bool_decide_eq_false_2 by done.
    do 3 f_equal. unfold transformed, set_affine_to_rasmm, set_data. cbn.
    unfold affines.apply_affine. cbn.
    rewrite !apply_translation, dot_eye4_l.
    by rewrite <-(Z2Qc_inj_opp 1), <-(Z2Qc_inj_opp 2), <-(Z2Qc_inj_opp 3).
Qed.

Lemma apply_point_dot (A B : np.mat4) (p : np.point) :
  np.is_affine A →
  affines.apply_point (np.dot B A) p
  = affines.apply_point B (affines.apply_point A p).
Proof.
  destruct A as [[? ? ? ?] [? ? ? ?] [? ? ? ?] [? ? ? ?]].
  destruct B as [[? ? ? ?] [? ? ? ?] [? ? ? ?] [? ? ? ?]].
  destruct p as [x y z]. unfold np.is_affine. cbn. intros [= -> -> -> ->].
  unfold affines.apply_point, np.dot, np.mmk, np.vmk, np.sum4, np.mget.
  cbn. f_equal; ring.
Qed.

Lemma len_transformed (A Ainv : np.mat4) (t : t) :
  ArraySequence.__len__ (_streamlines (transformed A Ainv t))
  = ArraySequence.__len__ (_streamlines t).
Proof. done. Qed.

(** C3. On an eager tractogram, for an affine [A] (last row 0 0 0 1) and
    invertible [A] and [B]: take a fresh copy of the tractogram, apply [A]
    and then [B] in place to the tractogram and the single affine [B . A]
    in place to the copy; all four calls succeed and the tractogram and
    its copy end with the same streamlines, point for point. *)
Theorem C3_apply_affine_composes (h : heap) (self : loc) (t : t)
    (A B Ainv Binv : np.mat4) :
  eager h !! self = Some t →
  np.is_affine A →
  np.dot A Ainv = np.eye4 →
  np.dot B Binv = np.eye4 →
  ∃ (fresh : loc) (h' : heap) (t1 t2 : TractogramState.t),
    (fresh ← Tractogram.copy self;
     apply_affine self A false;;
     apply_affine self B false;;
     apply_affine fresh (np.dot B A) false;;
     mret fresh) h = (Ok fresh, h')
    ∧ fresh ≠ self
    ∧ eager h' !! self = Some t1
    ∧ eager h' !! fresh = Some t2
    ∧ _streamlines t1 = _streamlines t2.
Proof.
  intros Hself HAff HA HB.
  set (c := fresh (dom (eager h))).
  assert (c ≠ self) as Hc.
  { intros Heq. apply (is_fresh (dom (eager h))). fold c. rewrite Heq.
    apply elem_of_dom. eauto. }
  pose proof (dot_inverse A B Ainv Binv HA HB) as HBA.
  exists c.
  rewrite (M_bind_Ok _ _ _ _ _ (copy_run h self t Hself)). fold c.
  set (h1 := Heap (<[c := t]> (eager h)) (lazy h)).
  assert (eager h1 !! self = Some t) as Hself1
    by (by cbn; rewrite lookup_insert_ne).
  assert (eager h1 !! c = Some t) as Hc1
    by (by cbn; rewrite lookup_insert_eq).
  rewrite (M_bind_Ok _ _ _ _ _
             (apply_affine_in_place h1 self t A Ainv Hself1 HA)).
  case_bool_decide as Hlen.
  - rewrite (M_bind_Ok _ _ _ _ _
               (apply_affine_in_place h1 self t B Binv Hself1 HB)).
    rewrite bool_decide_eq_true_2 by done.
    rewrite (M_bind_Ok _ _ _ _ _
               (apply_affine_in_place h1 c t _ _ Hc1 HBA)).
    rewrite bool_decide_eq_true_2 by done.
    by exists h1, t, t.
  - set (tA := transformed A Ainv t).
    set (h2 := Heap (<[self := tA]> (eager h1)) (lazy h1)).
    assert (eager h2 !! self = Some tA) as Hself2
      by (by cbn; rewrite lookup_insert_eq).
    rewrite (M_bind_Ok _ _ _ _ _
               (apply_affine_in_place h2 self tA B Binv Hself2 HB)).
    rewrite bool_decide_eq_false_2 by done.
    set (h3 := Heap (<[self := transformed B Binv tA]> (eager h2)) (lazy h2)).
    assert (eager h3 !! c = Some t) as Hc3.
    { cbn. by rewrite !(lookup_insert_ne _ self c), lookup_insert_eq. }
    rewrite (M_bind_Ok _ _ _ _ _
               (apply_affine_in_place h3 c t _ _ Hc3 HBA)).
    rewrite bool_decide_eq_false_2 by done.
    eexists _, _, _. split_and!; [done|done| | |]; cbn.
    + rewrite lookup_insert_ne, lookup_insert_eq; done.
    + by rewrite lookup_insert_eq.
    + unfold tA, transformed, set_affine_to_rasmm, set_data,
        affines.apply_affine. cbn. f_equal.
      rewrite <-list_fmap_compose. apply list_fmap_ext.
      intros _ p _. symmetry. by apply apply_point_dot.
Qed.

(** C7 (amended). For every eager tractogram with at least one
    streamline whose world affine [W] is invertible, after one
    [to_world(lazy=False)] the matrix [get_affine_to_rasmm()] returns is
    the identity.  With zero streamlines [to_world(lazy=False)] returns
    [self] and leaves the store as it was, so that
    [get_affine_to_rasmm()] still returns [W], whether [W] is invertible
    or not. *)
Theorem C7_to_world_identity (h : heap) (self : loc) (t : t) :
  eager h !! self = Some t →
  (ArraySequence.__len__ (_streamlines t) ≠ 0%N →
   ∀ Winv : np.mat4,
     np.dot (_affine_to_rasmm t) Winv = np.eye4 →
     ∃ h' : heap,
       (to_world self false;; Tractogram.get_affine_to_rasmm self) h
       = (Ok np.eye4, h'))
  ∧ (ArraySequence.__len__ (_streamlines t) = 0%N →
     to_world self false h = (Ok (Eager self), h)
     ∧ (to_world self false;; Tractogram.get_affine_to_rasmm self) h
       = (Ok (_affine_to_rasmm t), h)).
Proof.
  intros Hself. split.
  - intros Hlen Winv HW.
    assert (to_world self false h
            = (Ok (Eager self),
               Heap (<[self := transformed (_affine_to_rasmm t) Winv t]>
                       (eager h)) (lazy h))) as Hrun.
    { unfold to_world.
      rewrite (M_bind_Ok _ _ _ _ _ (load_eager_run h self t Hself)).
      rewrite (apply_affine_in_place h self t _ Winv Hself HW).
      by rewrite bool_decide_eq_false_2. }
    rewrite (M_bind_Ok _ _ _ _ _ Hrun).
    unfold Tractogram.get_affine_to_rasmm.
    erewrite M_bind_Ok; [|apply load_eager_run; cbn; apply lookup_insert_eq].
    eexists. unfold mret, M_ret. do 2 f_equal. cbn.
    exact HW.
  - intros Hlen.
    assert (to_world self false h = (Ok (Eager self), h)) as Hrun.
    { unfold to_world.
      rewrite (M_bind_Ok _ _ _ _ _ (load_eager_run h self t Hself)).
      unfold apply_affine.
      rewrite (M_bind_Ok _ _ _ _ _ (load_eager_run h self t Hself)).
      by rewrite bool_decide_eq_true_2. }
    split; [exact Hrun|].
    rewrite (M_bind_Ok _ _ _ _ _ Hrun).
    unfold Tractogram.get_affine_to_rasmm.
    by rewrite (M_bind_Ok _ _ _ _ _ (load_eager_run h self t Hself)).
Qed.
End eager_claims.

(** ** The data dictionaries *)

Section per_array_dict.
Import ndarray.

Lemma discover_nums (xs : list Qc) :
  discover <$> (Num <$> xs) = replicate (length xs) [].
Proof. induction xs as [|x xs IH]; simpl; [done|]. f_equal. apply IH. Qed.

Lemma common_prefix_replicate (k : nat) :
  foldr common_prefix [] (replicate k []) = [].
Proof. by destruct k. Qed.

Lemma regular_nums (xs : list Qc) : forallb regular (Num <$> xs) = true.
Proof. induction xs as [|x xs IH]; simpl; done. Qed.

Lemma asarray_nums (xs : list Qc) :
  asarray (Num <$> xs)
  = Build [N.of_nat (length xs)] false (Num <$> xs).
Proof.
  unfold asarray. f_equal.
  - cbn [discover]. rewrite length_fmap, discover_nums. f_equal.
    destruct xs as [|x xs]; [done|]. apply common_prefix_replicate.
  - cbn [regular]. rewrite discover_nums, regular_nums.
    destruct xs as [|x xs]; [done|]. cbn [replicate length andb].
    generalize (length xs). intros k. by induction k.
Qed.

Lemma len_asarray (l : list nd) : len (asarray l) = N.of_nat (length l).
Proof. done. Qed.

End per_array_dict.

Section sliceable_getitem.
Context {D V I : Type}.
Context {mutable : SliceableDataDict.Mutable D I}.
Context {indexable : SliceableDataDict.Indexable D V I}.
Import SliceableDataDict.

Lemma dict_getitem_Ok (store : gmap hkey V) (k : hkey) (v : V) :
  store !! k = Some v → dict_getitem store (Hashable k) = Ok v.
Proof. intros H. cbn. by rewrite H. Qed.

Lemma dict_getitem_Raise (store : gmap hkey V) (key : pykey) :
  (∀ v, dict_getitem store key ≠ Ok v) →
  dict_getitem store key = Raise KeyError
  ∨ dict_getitem store key = Raise TypeError.
Proof.
  intros H. destruct key as [k|]; cbn in *; [|by right].
  destruct (store !! k) as [v|]; [by destruct (H v)|by left].
Qed.

(** A loop that ends without an exception has subscripted every value. *)
Lemma reindex_Ok_all (l : list (hkey * V)) (idx : pykey) (d0 d1 : D) :
  for_each l (λ kv, x ← lift (value_getitem kv.2 idx);
                    __setitem__ (Hashable kv.1) x) d0 = (Ok (), d1) →
  ∀ kv, kv ∈ l → ∃ x, value_getitem kv.2 idx = Ok x.
Proof.
  revert d0. induction l as [|kv l IH]; intros d0 Hrun kv' Hin.
  - by apply elem_of_nil in Hin.
  - cbn [for_each] in Hrun. unfold mbind, M_bind, lift in Hrun.
    fold (@for_each D (hkey * V)) in Hrun.
    destruct (value_getitem kv.2 idx) as [x|e] eqn:Hx; [|done].
    apply elem_of_cons in Hin as [->|Hin]; [by exists x|].
    destruct (__setitem__ (Hashable kv.1) x d0) as [[[]|e] d'] eqn:Hset;
      [|done].
    by apply (IH d' Hrun).
Qed.

(** C9 (amended). [d[key]] on a dictionary that inherits
    [SliceableDataDict.__getitem__]: a stored key gives the stored value,
    whether or not the key is also a valid subscript of the values; only
    when the plain lookup fails is the key applied as a subscript to
    every stored value, giving a new dictionary of the same class; and
    when that attempt raises [TypeError] the plain lookup is made again
    and its error is the outcome. *)
Theorem C9_getitem_key_first :
  (∀ (self : D) (k : hkey) (v : V),
     store self !! k = Some v →
     __getitem__ self (Hashable k) = Ok (Value v))
  ∧ (∀ (self : D) (key : pykey) (new_dict sliced : D),
       (∀ v, dict_getitem (store self) key ≠ Ok v) →
       construct_None = Ok new_dict →
       reindex self key new_dict = (Ok (), sliced) →
       __getitem__ self key = Ok (Sliced sliced)
       ∧ ∀ (k : hkey) (v : V),
           store self !! k = Some v → ∃ x, value_getitem v key = Ok x)
  ∧ (∀ (self : D) (key : pykey) (new_dict d' : D),
       (∀ v, dict_getitem (store self) key ≠ Ok v) →
       construct_None = Ok new_dict →
       reindex self key new_dict = (Raise TypeError, d') →
       ∃ e : exn,
         __getitem__ self key = Raise e
         ∧ dict_getitem (store self) key = Raise e).
Proof.
  split_and!.
  - intros self k v Hk. unfold __getitem__.
    by rewrite (dict_getitem_Ok _ k v Hk).
  - intros self key new_dict sliced Hfail Hnew Hrun. split.
    + unfold __getitem__.
      pose proof (dict_getitem_Raise _ key Hfail) as Hcases.
      destruct (dict_getitem (store self) key) as [v|e];
        [by destruct (Hfail v)|].
      destruct Hcases as [[= ->]|[= ->]];
        rewrite Hnew; cbn; by rewrite Hrun.
    + intros k v Hk.
      apply (reindex_Ok_all _ key new_dict sliced Hrun (k, v)).
      by apply elem_of_map_to_list.
  - intros self key new_dict d' Hfail Hnew Hrun. unfold __getitem__.
    pose proof (dict_getitem_Raise _ key Hfail) as Hcases.
    destruct (dict_getitem (store self) key) as [v|e];
      [by destruct (Hfail v)|].
    destruct Hcases as [[= ->]|[= ->]];
      rewrite Hnew; cbn; rewrite Hrun; cbn; by eexists.
Qed.
End sliceable_getitem.

(** C10. In a [LazyDict], [d[k] = None] is accepted, and reading [d[k]]
    afterwards raises [TypeError]: the stored [None] is called. *)
Theorem C10_LazyDict_None_not_callable (d : LazyDict.t) (k : hkey)
    (h : eager_heap) :
  ∃ d' : LazyDict.t,
    LazyDict.__setitem__ (Hashable k) PyNone d = (Ok (), d')
    ∧ LazyDict.store d' !! k = Some None
    ∧ LazyDict.__getitem__ d' (Hashable k) h = Raise TypeError.
Proof.
  eexists. split; [reflexivity|]. cbn. by rewrite lookup_insert_eq.
Qed.

(** ** The constructors *)

(** C4 (what the code does). [Tractogram(...)] raises [NameError] for
    every input, whatever the two unbound names are taken to stand for:
    the setter of [data_per_streamline] evaluates [DataPerStreamlineDict],
    which the module does not bind.  The store is left as it was. *)
Theorem C4_Tractogram_init_NameError
    (DataPerStreamlineDict :
       ArraySequence.t np.point → option (gmap hkey nd) → res PerArrayDict.t)
    (DataPerPointDict :
       ArraySequence.t np.point → option (gmap hkey (list nd)) →
       res (gmap hkey (ArraySequence.t nd)))
    (streamlines : option (list (list np.point)))
    (data_per_streamline : option (gmap hkey nd))
    (data_per_point : option (gmap hkey (list nd)))
    (affine_to_rasmm : np.mat4) (h : heap) :
  Tractogram.__init__ DataPerStreamlineDict DataPerPointDict
    streamlines data_per_streamline data_per_point affine_to_rasmm h
  = (Raise NameError, h).
Proof. reflexivity. Qed.

Lemma LazyDict_init_two_arguments (value : LazyDict.arg) :
  LazyDict.__init__ [LazyDict.Arg ArgObject; value] = Raise TypeError.
Proof. reflexivity. Qed.

Lemma LazyTractogram_init_TypeError (streamlines : pyval (list np.point))
    (data_per_streamline data_per_point : LazyDict.arg)
    (affine_to_rasmm : np.mat4) (h : heap) :
  streamlines ≠ PyOther →
  LazyTractogram.__init__ streamlines data_per_streamline data_per_point
    affine_to_rasmm h = (Raise TypeError, h).
Proof. by destruct streamlines. Qed.

(** C2 (what the code does). [LazyTractogram.from_tractogram(t)] raises
    [TypeError] for every tractogram: the constructor it calls first
    builds [LazyDict(self, value)], and two positional arguments reach
    [dict].  The store is left as it was. *)
Theorem C2_from_tractogram_TypeError (tractogram : loc) (h : heap) :
  LazyTractogram.from_tractogram tractogram h = (Raise TypeError, h).
Proof. reflexivity. Qed.

(** C5 (what the code does). On every lazy tractogram,
    [apply_affine(affine, lazy=True)] raises [TypeError]: [copy()] calls
    the constructor, which builds [LazyDict(self, value)].  No new
    tractogram is made and the store is left as it was. *)
Theorem C5_lazy_apply_affine_TypeError (self : loc)
    (t : LazyTractogramState.t) (affine : np.mat4) (h : heap) :
  lazy h !! self = Some t →
  LazyTractogram.apply_affine self affine true h = (Raise TypeError, h).
Proof.
  intros Hself. unfold LazyTractogram.apply_affine. cbn [negb].
  apply M_bind_Raise. unfold LazyTractogram.copy.
  rewrite (M_bind_Ok _ _ _ _ _ (load_lazy_run h self t Hself)).
  apply M_bind_Raise, LazyTractogram_init_TypeError.
  by destruct (LazyTractogramState._streamlines t).
Qed.

(** C6. On a lazy tractogram, a subscript raises [NotImplementedError]
    and [apply_affine(affine, lazy=False)] raises [ValueError]; each is
    raised at once, with the store as it was. *)
Theorem C6_lazy_capability_errors (self : loc) (h : heap) :
  (∀ (A : Type) (idx : subscript),
     LazyTractogram.__getitem__ (A:=A) self idx h
     = (Raise NotImplementedError, h))
  ∧ (∀ affine : np.mat4,
       LazyTractogram.apply_affine self affine false h
       = (Raise ValueError, h)).
Proof. done. Qed.

(** ** The ragged sequence *)

Lemma py_index_lookup {B} (l : list B) (i : nat) (x : B) :
  l !! i = Some x → py_index l (Z.of_nat i) = Ok x.
Proof.
  intros Hx. pose proof (lookup_lt_Some _ _ _ Hx). unfold py_index.
  destruct (Z.ltb_spec (Z.of_nat i) 0); [lia|].
  destruct (Z.leb_spec 0 (Z.of_nat i)); [|lia].
  destruct (Z.ltb_spec (Z.of_nat i) (Z.of_nat (length l))); [|lia].
  cbn. by rewrite Nat2Z.id, Hx.
Qed.

Section array_sequence.
Context {A : Type}.
Import ArraySequence.

Lemma py_slice_app_l (l1 l2 : list A) (start stop : N) :
  (stop ≤ N.of_nat (length l1))%N →
  py_slice (l1 ++ l2) start stop = py_slice l1 start stop.
Proof.
  intros Hstop. unfold py_slice. rewrite length_app.
  destruct (decide (start ≤ N.of_nat (length l1))%N) as [Hstart|Hstart].
  - replace (N.min start (N.of_nat (length l1 + length l2)))
      with (N.min start (N.of_nat (length l1))) by lia.
    replace (N.min stop (N.of_nat (length l1 + length l2)))
      with (N.min stop (N.of_nat (length l1))) by lia.
    rewrite drop_app_le by lia. rewrite take_app_le; [done|].
    rewrite length_drop. lia.
  - replace (N.to_nat (_ - _)) with 0%nat by lia.
    replace (N.to_nat (N.min stop _ - N.min start (N.of_nat (length l1))))
      with 0%nat by lia.
    done.
Qed.

Lemma py_slice_app_r (l1 l2 : list A) :
  py_slice (l1 ++ l2) (N.of_nat (length l1))
           (N.of_nat (length l1) + N.of_nat (length l2)) = l2.
Proof.
  unfold py_slice. rewrite length_app.
  replace (N.min (N.of_nat (length l1)) (N.of_nat (length l1 + length l2)))
    with (N.of_nat (length l1)) by lia.
  replace (N.min (N.of_nat (length l1) + N.of_nat (length l2))
                 (N.of_nat (length l1 + length l2)))
    with (N.of_nat (length l1) + N.of_nat (length l2))%N by lia.
  rewrite Nat2N.id, drop_app_length.
  replace (N.to_nat (_ - _)) with (length l2) by lia.
  apply firstn_all.
Qed.

Lemma within_empty : within (empty (A:=A)).
Proof. constructor. Qed.

Lemma append_within (s : t A) (e : list A) :
  within s → within (append s e).
Proof.
  intros Hs. unfold within, append in *. cbn. apply Forall2_app.
  - eapply Forall2_impl; [|exact Hs]. cbn. intros o l Hol.
    rewrite length_app. lia.
  - constructor; [|constructor]. rewrite length_app. lia.
Qed.

Lemma append_iter (s : t A) (e : list A) :
  within s → __iter__ (append s e) = __iter__ s ++ [e].
Proof.
  intros Hs. unfold __iter__, append, view. cbn.
  rewrite zip_with_app by (by eapply Forall2_length).
  rewrite fmap_app. cbn. f_equal.
  - unfold within in Hs. induction Hs as [|o l os ls Hol Hs IH]; [done|].
    cbn. f_equal; [|exact IH]. by apply py_slice_app_l.
  - f_equal. apply py_slice_app_r.
Qed.

Lemma foldl_append (arrays : list (list A)) (s : t A) :
  within s →
  within (foldl append s arrays)
  ∧ __iter__ (foldl append s arrays) = __iter__ s ++ arrays.
Proof.
  revert s. induction arrays as [|e arrays IH]; intros s Hs; cbn.
  - by rewrite app_nil_r.
  - destruct (IH (append s e) (append_within s e Hs)) as [Hw Hiter].
    split; [done|]. rewrite Hiter, append_iter by done.
    by rewrite <-app_assoc.
Qed.

(** Reading back a sequence built from arrays gives the arrays. *)
Lemma init_iter (arrays : list (list A)) :
  __iter__ (__init__ (Some arrays)) = arrays.
Proof.
  change (__init__ (Some arrays)) with (foldl append empty arrays).
  by destruct (foldl_append arrays empty within_empty) as [_ ->].
Qed.

Lemma init_within (iterable : option (list (list A))) :
  within (__init__ iterable).
Proof. by destruct (foldl_append (default [] iterable) empty within_empty). Qed.

Lemma within_lengths (s : t A) :
  within s → length (_offsets s) = length (_lengths s).
Proof. apply Forall2_length. Qed.

Lemma iter_length (s : t A) :
  within s → N.of_nat (length (__iter__ s)) = __len__ s.
Proof.
  intros Hs. unfold __iter__, __len__.
  rewrite length_fmap, length_zip_with_l_eq; [done|]. by apply within_lengths.
Qed.

Lemma init_len (arrays : list (list A)) :
  __len__ (__init__ (Some arrays)) = N.of_nat (length arrays).
Proof. by rewrite <-iter_length, init_iter by apply init_within. Qed.

(** [seq[i]] is the [i]-th sequence of the iteration. *)
Lemma getitem_iter (s : t A) (i : nat) (a : list A) :
  within s → __iter__ s !! i = Some a → __getitem__ s (Z.of_nat i) = Ok a.
Proof.
  intros Hs Hi. unfold __iter__ in Hi.
  apply list_lookup_fmap_Some in Hi as ([o l] & -> & Hol).
  apply lookup_zip_with_Some in Hol as (o' & l' & [= <- <-] & Ho & Hl).
  unfold __getitem__.
  by rewrite (py_index_lookup _ _ _ Ho), (py_index_lookup _ _ _ Hl).
Qed.
End array_sequence.

(** ** Iterating an eager tractogram *)

Lemma range_from_step_1 (fuel : nat) (start stop : N) :
  (N.to_nat (stop - start) ≤ fuel)%nat →
  range_from fuel start stop 1
  = N.of_nat <$> seq (N.to_nat start) (N.to_nat (stop - start)).
Proof.
  revert start. induction fuel as [|fuel IH]; intros start Hfuel; cbn.
  - by replace (N.to_nat (stop - start)) with 0%nat by lia.
  - destruct (N.ltb_spec start stop) as [Hlt|Hge].
    + rewrite IH by lia.
      replace (N.to_nat (stop - start)) with (S (N.to_nat (stop - (start + 1))))
        by lia.
      replace (N.to_nat (start + 1)) with (S (N.to_nat start)) by lia.
      cbn [seq]. rewrite fmap_cons, N2Nat.id. done.
    + by replace (N.to_nat (stop - start)) with 0%nat by lia.
Qed.

Lemma py_range_0_1 (n : N) :
  py_range 0 n 1 = N.of_nat <$> seq 0 (N.to_nat n).
Proof.
  unfold py_range. rewrite range_from_step_1 by done.
  by rewrite N.sub_0_r.
Qed.

Lemma dict_mapM_empty {V W} (f : V → res W) : dict_mapM f ∅ = Ok ∅.
Proof. unfold dict_mapM. by rewrite map_to_list_empty. Qed.

Section eager_iteration.
Import TractogramState.

(** A tractogram without auxiliary data, whose streamlines lie inside the
    buffer: [len] is the number of streamlines, and iterating it gives one
    item per streamline, in order, with the points of that streamline. *)
Lemma iter_without_data (h : heap) (self : loc) (t : t) :
  eager h !! self = Some t →
  ArraySequence.within (_streamlines t) →
  PerArrayDict.store (_data_per_streamline t) = ∅ →
  _data_per_point t = ∅ →
  Tractogram.__len__ self h
  = (Ok (N.of_nat (length (ArraySequence.__iter__ (_streamlines t)))), h)
  ∧ Tractogram.__iter__ self h
    = (Ok ((λ pts, TractogramItem.Build pts ∅ ∅)
             <$> ArraySequence.__iter__ (_streamlines t)), h).
Proof.
  intros Hself Hwithin Hdps Hdpp.
  assert (Tractogram.__len__ self h
          = (Ok (N.of_nat (length (ArraySequence.__iter__ (_streamlines t)))),
             h)) as Hlen.
  { unfold Tractogram.__len__.
    rewrite (M_bind_Ok _ _ _ _ _ (load_eager_run h self t Hself)).
    by rewrite iter_length. }
  split; [done|]. unfold Tractogram.__iter__.
  rewrite (M_bind_Ok _ _ _ _ _ Hlen), py_range_0_1, Nat2N.id.
  assert (∀ (i : nat) (pts : list np.point),
            ArraySequence.__iter__ (_streamlines t) !! i = Some pts →
            Tractogram.item self (Z.of_N (N.of_nat i)) h
            = (Ok (TractogramItem.Build pts ∅ ∅), h)) as Hitem.
  { intros i pts Hi. unfold Tractogram.item.
    rewrite (M_bind_Ok _ _ _ _ _ (load_eager_run h self t Hself)).
    rewrite nat_N_Z, (getitem_iter _ i pts Hwithin Hi).
    rewrite Hdps, Hdpp, !dict_mapM_empty. done. }
  revert Hitem. generalize (ArraySequence.__iter__ (_streamlines t)).
  intros l Hitem.
  enough (∀ done_ : list (list np.point),
            (∀ i pts, (done_ ++ l) !! i = Some pts →
                      Tractogram.item self (Z.of_N (N.of_nat i)) h
                      = (Ok (TractogramItem.Build pts ∅ ∅), h)) →
            M_mapM (λ i, Tractogram.item self (Z.of_N i))
                   (N.of_nat <$> seq (length done_) (length l)) h
            = (Ok ((λ pts, TractogramItem.Build pts ∅ ∅) <$> l), h)) as Hgen
    by exact (Hgen [] Hitem).
  clear Hitem. induction l as [|pts l IH]; intros done_ Hitem; [done|].
  cbn [length seq]. rewrite !fmap_cons. cbn [M_mapM].
  rewrite (M_bind_Ok _ _ _ _ _ (Hitem (length done_) pts
             (list_lookup_middle done_ l pts _ eq_refl))).
  specialize (IH (done_ ++ [pts])).
  rewrite length_app, Nat.add_1_r, <-app_assoc in IH.
  by rewrite (M_bind_Ok _ _ _ _ _ (IH Hitem)).
Qed.
End eager_iteration.

(** The state the streamlines setter builds from [T] arrays, when there is
    no auxiliary data: its length is [T], and iterating it gives [T] items,
    in order, whose points are the arrays. *)
Lemma iter_of_arrays (h : heap) (self : loc)
    (arrays : list (list np.point)) (n : option N) (W : np.mat4) :
  eager h !! self
  = Some (TractogramState.Build (Tractogram.streamlines_setter (Some arrays))
                                (PerArrayDict.Build n ∅) ∅ W) →
  Tractogram.__len__ self h = (Ok (N.of_nat (length arrays)), h)
  ∧ Tractogram.__iter__ self h
    = (Ok ((λ pts, TractogramItem.Build pts ∅ ∅) <$> arrays), h).
Proof.
  intros Hself.
  destruct (iter_without_data h self _ Hself) as [Hlen Hiter];
    [apply init_within|done|done|].
  cbn [TractogramState._streamlines] in *.
  unfold Tractogram.streamlines_setter in *.
  by rewrite init_iter in Hlen, Hiter.
Qed.

(** ** Comprehensions over dictionaries *)

Lemma res_mapM_keyed {V W} (f : V → res W) (m' : gmap hkey W)
    (l : list (hkey * V)) :
  (∀ k x, (k, x) ∈ l → ∃ y, f x = Ok y ∧ m' !! k = Some y) →
  ∃ l' : list (hkey * W),
    res_mapM (λ kv, w ← f kv.2; mret (kv.1, w)) l = Ok l'
    ∧ l'.*1 = l.*1
    ∧ ∀ k y, (k, y) ∈ l' → m' !! k = Some y.
Proof.
  induction l as [|[k x] l IH]; intros Hl.
  - exists []. split_and!; [done|done|]. intros k y Hin.
    by apply elem_of_nil in Hin.
  - destruct IH as (l' & Hrun & Hkeys & Hl').
    { intros k' x' Hin. apply Hl. by right. }
    destruct (Hl k x) as (y & Hy & Hk); [by left|].
    exists ((k, y) :: l'). cbn. rewrite Hy. cbn. rewrite Hrun. cbn.
    split_and!; [done|by rewrite Hkeys|].
    intros k' y' [[= -> ->]|Hin]%elem_of_cons; [done|by apply Hl'].
Qed.

(** A comprehension whose body succeeds on every value gives the
    dictionary of the results. *)
Lemma dict_mapM_Ok {V W} (f : V → res W) (m : gmap hkey V)
    (m' : gmap hkey W) :
  (∀ k, match m !! k with
        | Some x => ∃ y, f x = Ok y ∧ m' !! k = Some y
        | None => m' !! k = None
        end) →
  dict_mapM f m = Ok m'.
Proof.
  intros Hm. unfold dict_mapM.
  destruct (res_mapM_keyed f m' (map_to_list m)) as (l' & -> & Hkeys & Hl').
  { intros k x Hin%elem_of_map_to_list. specialize (Hm k).
    by rewrite Hin in Hm. }
  cbn. f_equal. apply map_eq. intros k.
  assert (NoDup l'.*1) as Hnodup
    by (rewrite Hkeys; apply NoDup_fst_map_to_list).
  destruct (m' !! k) as [y|] eqn:Hk.
  - apply elem_of_list_to_map; [done|].
    specialize (Hm k). destruct (m !! k) as [x|] eqn:Hx; [|congruence].
    assert (k ∈ l'.*1) as Hin.
    { rewrite Hkeys. apply list_elem_of_fmap. exists (k, x).
      split; [done|]. by apply elem_of_map_to_list. }
    apply list_elem_of_fmap in Hin as ([k' y'] & -> & Hin).
    pose proof (Hl' _ _ Hin) as Hy'. cbn in *. congruence.
  - apply not_elem_of_list_to_map. intros Hin.
    apply list_elem_of_fmap in Hin as ([k' y'] & -> & Hin).
    pose proof (Hl' _ _ Hin) as Hy'. cbn in *. congruence.
Qed.

(** ** Iterating a consistent tractogram, eagerly and through a lazy view *)

Section iteration.
Import TractogramState.

Lemma item_of_consistent (h : heap) (self : loc) (t : t) (i : nat)
    (pts : list np.point) :
  eager h !! self = Some t →
  Tractogram.consistent t →
  ArraySequence.__iter__ (_streamlines t) !! i = Some pts →
  Tractogram.item self (Z.of_N (N.of_nat i)) h
  = (Ok (TractogramItem.Build pts
           (omap (λ v, ObjArray <$> ndarray.items v !! i)
                 (PerArrayDict.store (_data_per_streamline t)))
           (omap (λ s, (ObjArray ∘ Seq) <$> ArraySequence.__iter__ s !! i)
                 (_data_per_point t))), h).
Proof.
  intros Hself (Hwithin & Hdps & Hdpp) Hi.
  assert (N.of_nat i < ArraySequence.__len__ (_streamlines t))%N as Hlt.
  { rewrite <-iter_length by done. apply lookup_lt_Some in Hi. lia. }
  assert (dict_mapM
            (λ v, ObjArray <$> ndarray.__getitem__ v
                                 (Hashable (KInt (Z.of_nat i))))
            (PerArrayDict.store (_data_per_streamline t))
          = Ok (omap (λ v, ObjArray <$> ndarray.items v !! i)
                     (PerArrayDict.store (_data_per_streamline t)))) as H1.
  { apply dict_mapM_Ok. intros k. rewrite lookup_omap.
    destruct (PerArrayDict.store (_data_per_streamline t) !! k) as [v|] eqn:Hk;
      [|done].
    specialize (Hdps k v Hk).
    destruct (lookup_lt_is_Some_2 (ndarray.items v) i) as [x Hx]; [lia|].
    exists (ObjArray x). cbn. rewrite (py_index_lookup _ _ _ Hx), Hx. done. }
  assert (dict_mapM
            (λ s, (ObjArray ∘ Seq)
                    <$> ArraySequence.__getitem__ s (Z.of_nat i))
            (_data_per_point t)
          = Ok (omap (λ s, (ObjArray ∘ Seq)
                             <$> ArraySequence.__iter__ s !! i)
                     (_data_per_point t))) as H2.
  { apply dict_mapM_Ok. intros k. rewrite lookup_omap.
    destruct (_data_per_point t !! k) as [s|] eqn:Hk; [|done].
    destruct (Hdpp k s Hk) as [Hs Hlen].
    destruct (lookup_lt_is_Some_2 (ArraySequence.__iter__ s) i) as [a Ha].
    { pose proof (iter_length s Hs). lia. }
    exists (ObjArray (Seq a)). cbn.
    rewrite (getitem_iter _ i a Hs Ha), Ha. done. }
  unfold Tractogram.item.
  rewrite (M_bind_Ok _ _ _ _ _ (load_eager_run h self t Hself)).
  rewrite nat_N_Z, (getitem_iter _ i pts Hwithin Hi), H1, H2. done.
Qed.

(** Iterating a consistent eager tractogram gives its items. *)
Lemma eager_iter (h : heap) (self : loc) (t : t) :
  eager h !! self = Some t →
  Tractogram.consistent t →
  Tractogram.__iter__ self h = (Ok (Tractogram.items_of t), h).
Proof.
  intros Hself Hcons.
  assert (Tractogram.__len__ self h
          = (Ok (N.of_nat (length (ArraySequence.__iter__ (_streamlines t)))),
             h)) as Hlen.
  { unfold Tractogram.__len__.
    rewrite (M_bind_Ok _ _ _ _ _ (load_eager_run h self t Hself)).
    rewrite iter_length by apply Hcons. done. }
  unfold Tractogram.__iter__.
  rewrite (M_bind_Ok _ _ _ _ _ Hlen), py_range_0_1, Nat2N.id.
  unfold Tractogram.items_of.
  set (mk := λ (i : nat) (pts : list np.point),
     TractogramItem.Build pts
       (omap (λ v, ObjArray <$> ndarray.items v !! i)
          (PerArrayDict.store (_data_per_streamline t)))
       (omap (λ s, (ObjArray ∘ Seq) <$> ArraySequence.__iter__ s !! i)
          (_data_per_point t))).
  assert (∀ i pts, ArraySequence.__iter__ (_streamlines t) !! i = Some pts →
                   Tractogram.item self (Z.of_N (N.of_nat i)) h
                   = (Ok (mk i pts), h)) as Hitem
    by (intros i pts; apply item_of_consistent; done).
  clearbody mk. revert Hitem.
  generalize (ArraySequence.__iter__ (_streamlines t)) as l.
  intros l Hitem.
  enough (∀ done_ : list (list np.point),
            (∀ i pts, (done_ ++ l) !! i = Some pts →
                      Tractogram.item self (Z.of_N (N.of_nat i)) h
                      = (Ok (mk i pts), h)) →
            M_mapM (λ i, Tractogram.item self (Z.of_N i))
                   (N.of_nat <$> seq (length done_) (length l)) h
            = (Ok (imap (λ i, mk (length done_ + i)%nat) l), h)) as Hgen
    by exact (Hgen [] Hitem).
  clear Hitem. induction l as [|pts l IH]; intros done_ Hitem; [done|].
  cbn [length seq]. rewrite !fmap_cons, imap_cons. cbn [M_mapM].
  rewrite (M_bind_Ok _ _ _ _ _ (Hitem (length done_) pts
             (list_lookup_middle done_ l pts _ eq_refl))).
  specialize (IH (done_ ++ [pts])).
  rewrite length_app, Nat.add_1_r, <-app_assoc in IH.
  rewrite (M_bind_Ok _ _ _ _ _ (IH Hitem)).
  unfold mret, M_ret. rewrite Nat.add_0_r. do 3 f_equal.
  apply imap_ext. intros j x _. cbn. f_equal. lia.
Qed.

Lemma omap_lookup_tail {Y} (g : gmap hkey (list Y)) (i : nat) :
  omap (λ l, l !! i) (tail <$> g) = omap (λ l, l !! S i) g.
Proof.
  apply map_eq. intros k. rewrite !lookup_omap, lookup_fmap.
  destruct (g !! k) as [l|]; [|done]. cbn. apply lookup_tail.
Qed.

Lemma omap_head {Y} (g : gmap hkey (list Y)) :
  omap head g = omap (λ l, l !! 0%nat) g.
Proof.
  apply map_eq. intros k. rewrite !lookup_omap.
  destruct (g !! k) as [l|]; [|done]. cbn. apply head_lookup.
Qed.

Lemma next_all_Some {Y} (g : gmap hkey (list Y)) (n : nat) :
  (∀ k l, g !! k = Some l → S n ≤ length l)%nat →
  next_all g = Some (omap (λ l, l !! 0%nat) g, tail <$> g)
  ∧ ∀ k l, (tail <$> g) !! k = Some l → (n ≤ length l)%nat.
Proof.
  intros Hg. split.
  - unfold next_all. rewrite bool_decide_eq_true_2, omap_head; [done|].
    apply map_Forall_lookup. intros k l Hk ->. specialize (Hg _ _ Hk).
    cbn in Hg. lia.
  - intros k l. rewrite lookup_fmap.
    destruct (g !! k) as [l'|] eqn:Hk; [|done]. intros [= <-].
    specialize (Hg _ _ Hk). destruct l'; cbn in *; lia.
Qed.

(** The lockstep loop of [_gen_data], when every iterator has a value for
    every streamline. *)
Lemma gen_data_imap (l : list (list np.point))
    (g1 g2 : gmap hkey (list pyobj)) :
  (∀ k x, g1 !! k = Some x → length l ≤ length x)%nat →
  (∀ k x, g2 !! k = Some x → length l ≤ length x)%nat →
  LazyTractogram.gen_data l g1 g2
  = imap (λ i pts, TractogramItem.Build pts (omap (λ x, x !! i) g1)
                                        (omap (λ x, x !! i) g2)) l.
Proof.
  revert g1 g2. induction l as [|pts l IH]; intros g1 g2 H1 H2; [done|].
  cbn [LazyTractogram.gen_data]. rewrite imap_cons.
  destruct (next_all_Some g1 (length l) H1) as [-> H1'].
  destruct (next_all_Some g2 (length l) H2) as [-> H2'].
  f_equal. rewrite (IH _ _ H1' H2'). apply imap_ext. intros i x _. cbn.
  by rewrite !omap_lookup_tail.
Qed.

(** What the producers installed by [from_tractogram] give when called. *)
Lemma call_lambda_data_per_streamline (h : eager_heap) (tractogram : loc)
    (t : t) (k : hkey) (v : ndarray.t) :
  h !! tractogram = Some t →
  PerArrayDict.store (_data_per_streamline t) !! k = Some v →
  LazyTractogram.lambda_data_per_streamline tractogram k h
  = Ok (ObjArray <$> ndarray.items v).
Proof.
  intros Ht Hk. unfold LazyTractogram.lambda_data_per_streamline.
  rewrite Ht. unfold PerArrayDict.__getitem__, SliceableDataDict.__getitem__.
  cbn. by rewrite Hk.
Qed.

Lemma call_lambda_data_per_point (h : eager_heap) (tractogram : loc)
    (t : t) (k : hkey) (s : ArraySequence.t nd) :
  h !! tractogram = Some t →
  _data_per_point t !! k = Some s →
  LazyTractogram.lambda_data_per_point tractogram k h
  = Ok ((ObjArray ∘ Seq) <$> ArraySequence.__iter__ s).
Proof.
  intros Ht Hk. unfold LazyTractogram.lambda_data_per_point.
  rewrite Ht. cbn. by rewrite Hk.
Qed.

(** The [data] of a lazy view of a consistent tractogram are the items of
    the tractogram. *)
Lemma lazy_data (h : eager_heap) (tractogram : loc) (t : t)
    (lt : LazyTractogramState.t) :
  h !! tractogram = Some t →
  Tractogram.consistent t →
  LazyTractogram.view_of lt tractogram t →
  LazyTractogram.data lt h = Ok (Tractogram.items_of t).
Proof.
  intros Ht (Hwithin & Hdps & Hdpp) (Hsl & Hstore1 & Hstore2 & Hdata & Haff).
  assert (dict_mapM (λ f, call f h)
            (LazyDict.store (LazyTractogramState._data_per_streamline lt))
          = Ok ((λ v, ObjArray <$> ndarray.items v)
                  <$> PerArrayDict.store (_data_per_streamline t))) as H1.
  { apply dict_mapM_Ok. intros k.
    rewrite Hstore1, map_lookup_imap, lookup_fmap.
    destruct (PerArrayDict.store (_data_per_streamline t) !! k) as [v|] eqn:Hk;
      [|done].
    cbn. eexists. split; [|done].
    by apply (call_lambda_data_per_streamline h tractogram t). }
  assert (dict_mapM (λ f, call f h)
            (LazyDict.store (LazyTractogramState._data_per_point lt))
          = Ok ((λ s, (ObjArray ∘ Seq) <$> ArraySequence.__iter__ s)
                  <$> _data_per_point t)) as H2.
  { apply dict_mapM_Ok. intros k.
    rewrite Hstore2, map_lookup_imap, lookup_fmap.
    destruct (_data_per_point t !! k) as [s|] eqn:Hk; [|done].
    cbn. eexists. split; [|done].
    by apply (call_lambda_data_per_point h tractogram t). }
  assert (LazyTractogram.streamlines lt h
          = Ok (ArraySequence.__iter__ (_streamlines t))) as H3.
  { unfold LazyTractogram.streamlines.
    rewrite Hsl, Haff, allclose_eye4. cbn.
    unfold LazyTractogram.lambda_streamlines. by rewrite Ht. }
  unfold LazyTractogram.data. rewrite Hdata, H1. cbn. rewrite H2. cbn.
  rewrite H3. cbn. f_equal. rewrite gen_data_imap.
  - unfold Tractogram.items_of. apply imap_ext. intros i pts _. cbn.
    f_equal; apply map_eq; intros k; rewrite !lookup_omap, lookup_fmap.
    + destruct (PerArrayDict.store (_data_per_streamline t) !! k); [|done].
      cbn. apply list_lookup_fmap.
    + destruct (_data_per_point t !! k); [|done].
      cbn. apply list_lookup_fmap.
  - intros k x. rewrite lookup_fmap.
    destruct (PerArrayDict.store (_data_per_streamline t) !! k) as [v|] eqn:Hk;
      [|done].
    intros [= <-]. rewrite length_fmap.
    pose proof (Hdps k v Hk). pose proof (iter_length _ Hwithin). lia.
  - intros k x. rewrite lookup_fmap.
    destruct (_data_per_point t !! k) as [s|] eqn:Hk; [|done].
    intros [= <-]. rewrite length_fmap.
    destruct (Hdpp k s Hk) as [Hs Hlen].
    pose proof (iter_length _ Hs). pose proof (iter_length _ Hwithin). lia.
Qed.

(** Iterating the lazy view to the end gives the items of the tractogram
    and records their number. *)
Lemma lazy_iter (h : heap) (self tractogram : loc) (t : t)
    (lt : LazyTractogramState.t) :
  lazy h !! self = Some lt →
  eager h !! tractogram = Some t →
  Tractogram.consistent t →
  LazyTractogram.view_of lt tractogram t →
  LazyTractogram.__iter__ self h
  = (Ok (Tractogram.items_of t),
     Heap (eager h)
          (<[self := LazyTractogram.set_nb_streamlines
                       (Some (N.of_nat (length (Tractogram.items_of t)))) lt]>
             (lazy h))).
Proof.
  intros Hself Ht Hcons Hview. unfold LazyTractogram.__iter__.
  rewrite (M_bind_Ok _ _ _ _ _ (load_lazy_run h self lt Hself)).
  erewrite M_bind_Ok; [|by rewrite (lazy_data (eager h) tractogram t lt)].
  unfold LazyTractogram.setattr.
  erewrite M_bind_Ok; [done|].
  by rewrite (M_bind_Ok _ _ _ _ _ (load_lazy_run h self lt Hself)).
Qed.
End iteration.

(** A lazy view of a consistent tractogram iterates as the tractogram
    does: the same items, in the same order. *)
Lemma lazy_view_iterates_as_eager (h : heap) (self tractogram : loc)
    (t : TractogramState.t) (lt : LazyTractogramState.t) :
  lazy h !! self = Some lt →
  eager h !! tractogram = Some t →
  Tractogram.consistent t →
  LazyTractogram.view_of lt tractogram t →
  ∃ (items : list TractogramItem.t) (h' : heap),
    Tractogram.__iter__ tractogram h = (Ok items, h)
    ∧ LazyTractogram.__iter__ self h = (Ok items, h')
    ∧ N.of_nat (length items)
      = ArraySequence.__len__ (TractogramState._streamlines t).
Proof.
  intros Hself Ht Hcons Hview. eexists _, _. split_and!.
  - by apply eager_iter.
  - by eapply lazy_iter.
  - unfold Tractogram.items_of. rewrite length_imap.
    apply iter_length, Hcons.
Qed.

Lemma with_data_consistent : Tractogram.consistent Examples.with_data.
Proof.
  split_and!.
  - apply init_within.
  - intros k v Hk. cbn in Hk.
    apply lookup_singleton_Some in Hk as [_ <-]. reflexivity.
  - intros k s Hk. unfold Examples.with_data in Hk.
    cbn [TractogramState._data_per_point] in Hk.
    apply lookup_singleton_Some in Hk as [_ <-].
    split; [apply init_within|reflexivity].
Qed.

Lemma view_with_data_view :
  LazyTractogram.view_of Examples.view_with_data 1%positive
    Examples.with_data.
Proof.
  split_and!; reflexivity.
Qed.

(** The hypotheses of [lazy_view_iterates_as_eager] on a concrete store. *)
Lemma lazy_view_example :
  ∃ (items : list TractogramItem.t) (h' : heap),
    Tractogram.__iter__ 1%positive
      (Heap {[1%positive := Examples.with_data]}
            {[1%positive := Examples.view_with_data]})
    = (Ok items,
       Heap {[1%positive := Examples.with_data]}
            {[1%positive := Examples.view_with_data]})
    ∧ LazyTractogram.__iter__ 1%positive
        (Heap {[1%positive := Examples.with_data]}
              {[1%positive := Examples.view_with_data]})
      = (Ok items, h')
    ∧ N.of_nat (length items) = 3%N.
Proof.
  apply (lazy_view_iterates_as_eager
           (Heap {[1%positive := Examples.with_data]}
                 {[1%positive := Examples.view_with_data]})
           1%positive 1%positive Examples.with_data Examples.view_with_data).
  - reflexivity.
  - reflexivity.
  - exact with_data_consistent.
  - exact view_with_data_view.
Qed.

(** ** Remarks *)

(** [apply_affine] does not read the last row of its matrix: for an
    invertible matrix whose last row is not 0 0 0 1, applying it and then a
    translation is not applying the product. *)
Lemma composition_needs_affine :
  np.dot Examples.not_affine Examples.not_affine_back = np.eye4
  ∧ affines.apply_point (np.dot Examples.move Examples.not_affine)
                        (Examples.pt 0 0 0)
    ≠ affines.apply_point Examples.move
        (affines.apply_point Examples.not_affine (Examples.pt 0 0 0)).
Proof.
  split.
  - cbv [np.dot np.eye4 np.mmk np.vmk np.sum4 np.mget np.vget np.mrow
         np.r0 np.r1 np.r2 np.r3 np.v0 np.v1 np.v2 np.v3
         Examples.not_affine Examples.not_affine_back].
    f_equal; f_equal; apply Qc_is_canon; vm_compute; reflexivity.
  - intros H. apply (f_equal np.px) in H. apply (f_equal this) in H.
    vm_compute in H. discriminate H.
Qed.

(** A value that is not iterable is rejected by [list(value)], with a
    [TypeError]; the dictionary stays as it was. *)
Lemma setitem_number (key : pykey) (x : Qc) (d : PerArrayDict.t) :
  PerArrayDict.__setitem__ key (Num x) d = (Raise TypeError, d).
Proof. reflexivity. Qed.

(** A key that is not hashable is rejected by the built-in [dict] that
    backs the store, after the value has passed the checks. *)
Lemma setitem_slice_key (start stop : option Z) (value : list Qc)
    (d : PerArrayDict.t) :
  PerArrayDict.n_elements d = Some (N.of_nat (length value)) →
  PerArrayDict.__setitem__ (Slice start stop) (Seq (Num <$> value)) d
  = (Raise TypeError, d).
Proof.
  intros Hn. unfold PerArrayDict.__setitem__, ndarray.py_list, lift.
  rewrite (M_bind_Ok _ _ d d (Num <$> value)) by done.
  rewrite asarray_nums. cbn [ndarray.ndim ndarray.shape ndarray.dtype_object
                             length negb andb].
  rewrite (bool_decide_eq_true_2 (1 = 1)%nat) by done.
  cbn [andb ndarray.reshape_column ndarray.ndim ndarray.shape length].
  rewrite bool_decide_eq_false_2 by lia.
  rewrite (M_bind_Ok _ _ d d d) by done.
  rewrite bool_decide_eq_false_2; [done|].
  rewrite Hn. intros [_ H]. by apply H.
Qed.

(** When [np.linalg.inv] raises on a tractogram that has streamlines, the
    points are already transformed: the exception leaves the buffer
    rewritten and the world affine as it was. *)
Lemma apply_affine_inv_raises (h : heap) (self : loc)
    (t : TractogramState.t) (A : np.mat4) (e : exn) :
  eager h !! self = Some t →
  ArraySequence.__len__ (TractogramState._streamlines t) ≠ 0%N →
  np.linalg_inv A = Raise e →
  EagerTractogram.apply_affine self A false h
  = (Raise e,
     Heap (<[self :=
             EagerTractogram.set_data
               (affines.apply_affine A
                  (ArraySequence._data (TractogramState._streamlines t))) t]>
             (eager h)) (lazy h)).
Proof.
  intros Hself Hlen Hinv. destruct h as [E L]. cbn [eager lazy] in *.
  unfold EagerTractogram.apply_affine.
  rewrite (M_bind_Ok _ _ _ _ _ (load_eager_run (Heap E L) self t Hself)).
  rewrite bool_decide_eq_false_2 by done.
  unfold py_range. rewrite N.sub_0_r.
  pose proof (transform_chunks self A t E L
                (N.to_nat (N.of_nat (length (ArraySequence._data
                   (TractogramState._streamlines t)))))
                0%N (ArraySequence._data (TractogramState._streamlines t)))
    as Hloop.
  cbn zeta in Hloop. rewrite N.min_0_l in Hloop. simpl in Hloop.
  specialize (Hloop eq_refl).
  rewrite set_data_id, (insert_id E self t Hself) in Hloop.
  rewrite (M_bind_Ok _ _ _ _ _ (Hloop ltac:(lia))).
  erewrite M_bind_Ok;
    [|apply load_eager_run; cbn; apply lookup_insert_eq].
  unfold lift. by rewrite Hinv.
Qed.

(** ** Instances on concrete inputs *)

(** Equality of two concrete matrices, entry by entry. *)
Ltac matrix_entries :=
  cbv [np.dot np.eye4 np.mmk np.vmk np.sum4 np.mget np.vget np.mrow
       np.translation np.r0 np.r1 np.r2 np.r3 np.v0 np.v1 np.v2 np.v3
       Examples.move Examples.move_back Examples.zoom Examples.zoom_back
       Examples.not_affine];
  f_equal; f_equal; apply Qc_is_canon; vm_compute; reflexivity.

Lemma move_inverse : np.dot Examples.move Examples.move_back = np.eye4.
Proof. matrix_entries. Defined.

Lemma zoom_inverse : np.dot Examples.zoom Examples.zoom_back = np.eye4.
Proof. matrix_entries. Defined.

Lemma move_not_identity : Examples.move ≠ np.eye4.
Proof.
  intros H. apply (f_equal (λ A, np.mget A np.I0 np.I3)) in H.
  apply (f_equal this) in H. vm_compute in H. discriminate H.
Defined.

Lemma C1_witness :
  (EagerTractogram.apply_affine 1%positive Examples.move false
     (Examples.store_of (Examples.tractogram np.eye4))
   = (Ok (Eager 1%positive),
      Heap (<[1%positive :=
              EagerTractogram.transformed Examples.move Examples.move_back
                (Examples.tractogram np.eye4)]>
              (eager (Examples.store_of (Examples.tractogram np.eye4))))
           (lazy (Examples.store_of (Examples.tractogram np.eye4))))
   ∧ ArraySequence._data
       (TractogramState._streamlines
          (EagerTractogram.transformed Examples.move Examples.move_back
             (Examples.tractogram np.eye4)))
     = affines.apply_point Examples.move
         <$> ArraySequence._data
               (TractogramState._streamlines (Examples.tractogram np.eye4))
   ∧ (∀ i : Z,
        ArraySequence.__getitem__
          (TractogramState._streamlines
             (EagerTractogram.transformed Examples.move Examples.move_back
                (Examples.tractogram np.eye4))) i
        = fmap (M:=list) (affines.apply_point Examples.move)
            <$> ArraySequence.__getitem__
                  (TractogramState._streamlines
                     (Examples.tractogram np.eye4)) i)
   ∧ TractogramState._affine_to_rasmm
       (EagerTractogram.transformed Examples.move Examples.move_back
          (Examples.tractogram np.eye4))
     = np.dot np.eye4 Examples.move_back)
  ∧ EagerTractogram.apply_affine 1%positive
      (np.translation (Qc_of_Z 1) (Qc_of_Z 2) (Qc_of_Z 3)) false
      (Examples.store_of (Examples.tractogram np.eye4))
    = (Ok (Eager 1%positive),
       Heap (<[1%positive :=
               TractogramState.Build
                 (ArraySequence.__init__
                    (Some [[Examples.pt 1 2 3; Examples.pt 2 2 3];
                           [Examples.pt 1 3 3; Examples.pt 1 4 3;
                            Examples.pt 1 5 3];
                           [Examples.pt 6 7 8]]))
                 (PerArrayDict.Build (Some 3%N) ∅) ∅
                 (np.translation (Qc_of_Z (-1)) (Qc_of_Z (-2))
                                 (Qc_of_Z (-3)))]>
               (eager (Examples.store_of (Examples.tractogram np.eye4))))
            (lazy (Examples.store_of (Examples.tractogram np.eye4)))).
Proof.
  split.
  - apply (proj1 C1_apply_affine_in_place
             (Examples.store_of (Examples.tractogram np.eye4)) 1%positive
             (Examples.tractogram np.eye4) Examples.move Examples.move_back).
    + reflexivity.
    + vm_compute. discriminate.
    + exact move_inverse.
  - pose proof (proj2 C1_apply_affine_in_place
                  (Examples.store_of (Examples.tractogram np.eye4)) 1%positive
                  (Examples.pt 0 0 0) (Examples.pt 1 0 0) (Examples.pt 0 1 0)
                  (Examples.pt 0 2 0) (Examples.pt 0 3 0) (Examples.pt 5 5 5)
                  (PerArrayDict.Build (Some 3%N) ∅) ∅ eq_refl) as Hrun.
    cbn zeta in Hrun. rewrite Hrun. do 4 f_equal.
    unfold ArraySequence.__init__. cbn [default from_option id].
    unfold Examples.pt. cbn [np.px np.py np.pz].
    rewrite <-!Z2Qc_inj_add. reflexivity.
Defined.

Lemma C3_witness :
  ∃ (fresh : loc) (h' : heap) (t1 t2 : TractogramState.t),
    (fresh ← Tractogram.copy 1%positive;
     EagerTractogram.apply_affine 1%positive Examples.move false;;
     EagerTractogram.apply_affine 1%positive Examples.zoom false;;
     EagerTractogram.apply_affine fresh
       (np.dot Examples.zoom Examples.move) false;;
     mret fresh) (Examples.store_of (Examples.tractogram np.eye4))
    = (Ok fresh, h')
    ∧ fresh ≠ 1%positive
    ∧ eager h' !! 1%positive = Some t1
    ∧ eager h' !! fresh = Some t2
    ∧ TractogramState._streamlines t1 = TractogramState._streamlines t2.
Proof.
  apply (C3_apply_affine_composes
           (Examples.store_of (Examples.tractogram np.eye4)) 1%positive
           (Examples.tractogram np.eye4) Examples.move Examples.zoom
           Examples.move_back Examples.zoom_back).
  - reflexivity.
  - reflexivity.
  - exact move_inverse.
  - exact zoom_inverse.
Defined.

Lemma C7_witness :
  (∃ h' : heap,
     (EagerTractogram.to_world 1%positive false;;
      Tractogram.get_affine_to_rasmm 1%positive)
       (Examples.store_of (Examples.tractogram Examples.move))
     = (Ok np.eye4, h'))
  ∧ EagerTractogram.to_world 1%positive false
      (Examples.store_of (Examples.empty_tractogram Examples.singular))
    = (Ok (Eager 1%positive),
       Examples.store_of (Examples.empty_tractogram Examples.singular))
  ∧ (EagerTractogram.to_world 1%positive false;;
     Tractogram.get_affine_to_rasmm 1%positive)
      (Examples.store_of (Examples.empty_tractogram Examples.singular))
    = (Ok Examples.singular,
       Examples.store_of (Examples.empty_tractogram Examples.singular)).
Proof.
  split.
  - refine (proj1 (C7_to_world_identity
                     (Examples.store_of (Examples.tractogram Examples.move))
                     1%positive (Examples.tractogram Examples.move) eq_refl)
                  _ Examples.move_back move_inverse).
    vm_compute. discriminate.
  - apply (proj2 (C7_to_world_identity
                    (Examples.store_of
                       (Examples.empty_tractogram Examples.singular))
                    1%positive (Examples.empty_tractogram Examples.singular)
                    eq_refl)).
    reflexivity.
Defined.

(** C7 as stated fails without streamlines: the world affine is
    invertible, [to_world(lazy=False)] returns at once, and
    [get_affine_to_rasmm()] still gives the translation, which is not close
    to the identity. *)
Lemma C7_counterexample :
  eager (Examples.store_of (Examples.empty_tractogram Examples.move))
    !! 1%positive
  = Some (Examples.empty_tractogram Examples.move)
  ∧ np.dot Examples.move Examples.move_back = np.eye4
  ∧ (EagerTractogram.to_world 1%positive false;;
     Tractogram.get_affine_to_rasmm 1%positive)
      (Examples.store_of (Examples.empty_tractogram Examples.move))
    = (Ok Examples.move,
       Examples.store_of (Examples.empty_tractogram Examples.move))
  ∧ Examples.move ≠ np.eye4
  ∧ np.allclose Examples.move np.eye4 = false.
Proof.
  split_and!.
  - reflexivity.
  - exact move_inverse.
  - reflexivity.
  - exact move_not_identity.
  - vm_compute. reflexivity.
Qed.

Lemma C5_witness :
  LazyTractogram.apply_affine 1%positive Examples.move true Examples.lazy_store
  = (Raise TypeError, Examples.lazy_store).
Proof.
  apply (C5_lazy_apply_affine_TypeError 1%positive Examples.lazy_tractogram).
  reflexivity.
Defined.


Lemma int_keyed_built :
  PerArrayDict.__setitem__ (Hashable (KInt 0))
    (Seq [Num (Qc_of_Z 10); Num (Qc_of_Z 20)])
    (PerArrayDict.Build (Some 2%N) ∅)
  = (Ok (), Examples.int_keyed).
Proof. reflexivity. Qed.

Lemma C9_witness :
  PerArrayDict.__getitem__ Examples.scalars (Hashable (KStr "scalars"))
  = Ok (SliceableDataDict.Value (Examples.column [1; 2; 3]%Z))
  ∧ (PerArrayDict.__getitem__ Examples.scalars (Slice (Some 0%Z) (Some 2%Z))
     = Ok (SliceableDataDict.Sliced
             (PerArrayDict.Build None
                {[KStr "scalars" := Examples.column [1; 2]%Z]}))
     ∧ ∀ (k : hkey) (v : ndarray.t),
         PerArrayDict.store Examples.scalars !! k = Some v →
         ∃ x, ndarray.__getitem__ v (Slice (Some 0%Z) (Some 2%Z)) = Ok x)
  ∧ ∃ e : exn,
      PerArrayDict.__getitem__ Examples.flat (Hashable (KInt 0)) = Raise e
      ∧ dict_getitem (PerArrayDict.store Examples.flat) (Hashable (KInt 0))
        = Raise e.
Proof.
  pose proof (C9_getitem_key_first (D:=PerArrayDict.t) (V:=ndarray.t) (I:=nd))
    as (Hstored & Hsliced & Hfallback).
  split; [|split].
  - apply (Hstored Examples.scalars (KStr "scalars")). reflexivity.
  - apply (Hsliced Examples.scalars (Slice (Some 0%Z) (Some 2%Z))
             (PerArrayDict.Build None ∅)
             (PerArrayDict.Build None
                {[KStr "scalars" := Examples.column [1; 2]%Z]})).
    + intros v. discriminate.
    + reflexivity.
    + vm_compute. reflexivity.
  - apply (Hfallback Examples.flat (Hashable (KInt 0))
             (PerArrayDict.Build None ∅) (PerArrayDict.Build None ∅)).
    + intros v. vm_compute. discriminate.
    + reflexivity.
    + vm_compute. reflexivity.
Defined.

(** C9 as stated fails: in [{0: [[10], [20]]}] the key 0 is stored and is
    a valid subscript of the one stored array (applying it to every value
    would give the dictionary [{0: [[10]]}]), and [d[0]] is the stored
    array, not that dictionary. *)
Lemma C9_counterexample :
  PerArrayDict.store Examples.int_keyed !! KInt 0
  = Some (Examples.column [10; 20]%Z)
  ∧ ndarray.__getitem__ (Examples.column [10; 20]%Z) (Hashable (KInt 0))
    = Ok (Seq [Num (Qc_of_Z 10)])
  ∧ SliceableDataDict.reindex Examples.int_keyed (Hashable (KInt 0))
      (PerArrayDict.Build None ∅)
    = (Ok (), PerArrayDict.Build None {[KInt 0 := Examples.column [10]%Z]})
  ∧ PerArrayDict.__getitem__ Examples.int_keyed (Hashable (KInt 0))
    = Ok (SliceableDataDict.Value (Examples.column [10; 20]%Z))
  ∧ PerArrayDict.__getitem__ Examples.int_keyed (Hashable (KInt 0))
    ≠ Ok (SliceableDataDict.Sliced
            (PerArrayDict.Build None {[KInt 0 := Examples.column [10]%Z]})).
Proof.
  split_and!; [reflexivity|reflexivity|vm_compute; reflexivity|reflexivity|].
  discriminate.
Qed.

(** * Further properties *)

(** ** Helper lemmas on comprehensions and subscripts *)

Lemma dict_mapM_total {V W} (f : V → res W) (g : V → W) (m : gmap hkey V) :
  (∀ k v, m !! k = Some v → f v = Ok (g v)) →
  dict_mapM f m = Ok (g <$> m).
Proof.
  intros Hf. apply dict_mapM_Ok. intros k. rewrite lookup_fmap.
  destruct (m !! k) as [v|] eqn:Hk; [|done].
  exists (g v). by rewrite (Hf k v Hk).
Qed.

Lemma py_index_out_of_range {A} (l : list A) (i : Z) :
  (i < - Z.of_nat (length l) ∨ Z.of_nat (length l) ≤ i)%Z →
  py_index l i = Raise IndexError.
Proof.
  intros Hi. unfold py_index.
  destruct (Z.ltb_spec i 0).
  - destruct (Z.leb_spec 0 (i + Z.of_nat (length l))); [lia|done].
  - destruct (Z.leb_spec 0 i); [|lia].
    destruct (Z.ltb_spec i (Z.of_nat (length l))); [lia|done].
Qed.

(** ** Loops that fill a dictionary *)

Lemma res_mapM_fst {A B} (f : A → res B) (l : list (hkey * A))
    (l' : list (hkey * B)) :
  res_mapM (λ kv, w ← f kv.2; mret (kv.1, w)) l = Ok l' → l'.*1 = l.*1.
Proof.
  revert l'. induction l as [|[k x] l IH]; intros l'; cbn.
  - by intros [= <-].
  - destruct (f x) as [y|e]; [|done]. cbn.
    destruct (res_mapM _ l) as [r|e]; [|done]. cbn.
    intros [= <-]. cbn. f_equal. by apply IH.
Qed.

Lemma foldl_insert_list_to_map {V} (l : list (hkey * V)) (s : gmap hkey V) :
  NoDup l.*1 →
  foldl (λ s kv, <[kv.1 := kv.2]> s) s l = list_to_map l ∪ s.
Proof.
  revert s. induction l as [|[k v] l IH]; intros s Hnd; cbn.
  - by rewrite (left_id ∅ (∪)).
  - cbn in Hnd. inversion Hnd as [|? ? Hk Hnd']; subst.
    rewrite IH by done.
    rewrite <-insert_union_l. symmetry. apply insert_union_r.
    by apply not_elem_of_list_to_map.
Qed.

Lemma for_each_cons {S A} (x : A) (l : list A) (body : A → M S ()) (s : S) :
  for_each (x :: l) body s
  = match body x s with
    | (Ok _, s') => for_each l body s'
    | (Raise e, s') => (Raise e, s')
    end.
Proof. done. Qed.

Lemma lift_bind {S A B} (r : res A) (f : A → M S B) (s : S) :
  (lift r ≫= f) s = match r with Ok a => f a s | Raise e => (Raise e, s) end.
Proof. unfold mbind, M_bind, lift. by destruct r. Qed.

Section per_array_dict_loops.
Import ndarray PerArrayDictChecks.

(** [__setitem__] is its checks, then the assignment into the store. *)
Lemma setitem_checked (key : pykey) (value : nd) (d : PerArrayDict.t) :
  PerArrayDict.__setitem__ key value d
  = match checked (PerArrayDict.n_elements d) value with
    | Ok a =>
        match dict_setitem (PerArrayDict.store d) key a with
        | Ok s => (Ok (), PerArrayDict.Build (PerArrayDict.n_elements d) s)
        | Raise e => (Raise e, d)
        end
    | Raise e => (Raise e, d)
    end.
Proof.
  unfold PerArrayDict.__setitem__, checked, lift, mbind at 1, M_bind at 1.
  destruct (py_list value) as [l|e]; [|done].
  cbn [mbind res_bind].
  destruct (bool_decide (ndim (asarray l) = 1%nat)
            && negb (dtype_object (asarray l)));
    (case_bool_decide; [done|]);
    unfold mbind, M_bind, get_state, put_state, raise;
    (case_bool_decide; [done|]);
    by destruct (dict_setitem _ key _).
Qed.

Lemma checked_valid (n : option N) (value : nd) (a : t) :
  checked n value = Ok a →
  ndim a = 2%nat ∧ ∀ m, n = Some m → len a = m.
Proof.
  unfold checked. destruct (py_list value) as [l|e]; [|done].
  cbn [mbind res_bind].
  set (v := if _ && _ then _ else _).
  case_bool_decide as Hdim; [done|]. case_bool_decide as Hlen; [done|].
  intros [= <-]. split; [by destruct (decide (ndim v = 2%nat))|].
  intros m ->. destruct (decide (len v = m)) as [|Hne]; [done|].
  destruct Hlen. split; [done|]. congruence.
Qed.

(** The loop [for k, v in items: self[k] = f(v)], for [f] that may raise
    before the assignment. *)
Lemma fill_run {A} (f : A → res nd) (l : list (hkey * A))
    (d : PerArrayDict.t) :
  match res_mapM (λ kv, a ← (x ← f kv.2;
                             checked (PerArrayDict.n_elements d) x);
                        mret (kv.1, a)) l with
  | Ok l' =>
      for_each l (λ kv, x ← lift (f kv.2);
                        PerArrayDict.__setitem__ (Hashable kv.1) x) d
      = (Ok (), PerArrayDict.Build (PerArrayDict.n_elements d)
                  (foldl (λ s kv, <[kv.1 := kv.2]> s)
                         (PerArrayDict.store d) l'))
  | Raise e =>
      ∃ d', for_each l (λ kv, x ← lift (f kv.2);
                              PerArrayDict.__setitem__ (Hashable kv.1) x) d
            = (Raise e, d')
  end.
Proof.
  revert d. induction l as [|[k v] l IH]; intros d.
  - by destruct d.
  - rewrite for_each_cons. cbn [res_mapM fst snd]. rewrite lift_bind.
    destruct (f v) as [x|e]; cbn [mbind res_bind]; [|by eexists].
    rewrite setitem_checked.
    destruct (checked (PerArrayDict.n_elements d) x) as [a|e];
      cbn [mbind res_bind dict_setitem]; [|by eexists].
    specialize (IH (PerArrayDict.Build (PerArrayDict.n_elements d)
                      (<[k := a]> (PerArrayDict.store d)))).
    cbn [PerArrayDict.n_elements PerArrayDict.store] in IH.
    destruct (res_mapM _ l) as [l'|e]; cbn [mbind res_bind mret res_ret];
      exact IH.
Qed.
End per_array_dict_loops.

Lemma for_each_ext {S A} (l : list A) (b1 b2 : A → M S ()) (s : S) :
  (∀ x s, b1 x s = b2 x s) → for_each l b1 s = for_each l b2 s.
Proof.
  intros Hb. revert s. induction l as [|x l IH]; intros s; [done|].
  rewrite !for_each_cons, Hb. by destruct (b2 x s) as [[[]|e] s'].
Qed.

Lemma res_mapM_Ok_inv {A B} (g : A → res B) (l : list A) (l' : list B) :
  res_mapM g l = Ok l' → ∀ x, x ∈ l → ∃ y, g x = Ok y.
Proof.
  revert l'. induction l as [|x l IH]; intros l' Hrun x' Hin.
  - by apply elem_of_nil in Hin.
  - cbn in Hrun. destruct (g x) as [y|e] eqn:Hx; [|done]. cbn in Hrun.
    destruct (res_mapM g l) as [r|e]; [|done].
    apply elem_of_cons in Hin as [->|Hin]; [by exists y|]. by eapply IH.
Qed.

Lemma res_mapM_Raise_inv {A B} (g : A → res B) (l : list A) (e : exn) :
  res_mapM g l = Raise e → ∃ x, x ∈ l ∧ g x = Raise e.
Proof.
  induction l as [|x l IH]; [done|]. cbn.
  destruct (g x) as [y|e'] eqn:Hx; cbn.
  - destruct (res_mapM g l) as [r|e']; [done|]. cbn. intros [= <-].
    destruct IH as (x' & Hin & Hx'); [done|]. exists x'. split; [by right|done].
  - intros [= <-]. exists x. split; [by left|done].
Qed.

(** A comprehension that ends without an exception has evaluated its body
    on every value, and holds the results. *)
Lemma dict_mapM_Ok_inv {V W} (f : V → res W) (m : gmap hkey V)
    (m' : gmap hkey W) :
  dict_mapM f m = Ok m' →
  ∀ k, match m !! k with
       | Some x => ∃ y, f x = Ok y ∧ m' !! k = Some y
       | None => m' !! k = None
       end.
Proof.
  intros Hrun.
  assert (∀ k x, m !! k = Some x → ∃ y, f x = Ok y) as Hall.
  { intros k x Hk. unfold dict_mapM in Hrun.
    destruct (res_mapM _ (map_to_list m)) as [l'|e] eqn:Hl; [|done].
    destruct (res_mapM_Ok_inv _ _ _ Hl (k, x)) as [[k' y] Hy].
    { by apply elem_of_map_to_list. }
    cbn in Hy. destruct (f x) as [y'|]; [by exists y'|done]. }
  set (m2 := omap (λ x, match f x with Ok y => Some y | Raise _ => None end) m).
  assert (dict_mapM f m = Ok m2) as Hrun2.
  { apply dict_mapM_Ok. intros k. unfold m2. rewrite lookup_omap.
    destruct (m !! k) as [x|] eqn:Hk; [|done]. cbn.
    destruct (Hall k x Hk) as [y Hy]. exists y. by rewrite Hy. }
  rewrite Hrun in Hrun2. injection Hrun2 as ->.
  intros k. unfold m2. rewrite lookup_omap.
  destruct (m !! k) as [x|] eqn:Hk; [|done]. cbn.
  destruct (Hall k x Hk) as [y Hy]. exists y. by rewrite Hy.
Qed.

Lemma dict_mapM_Raise_inv {V W} (f : V → res W) (m : gmap hkey V) (e : exn) :
  dict_mapM f m = Raise e → ∃ k x, m !! k = Some x ∧ f x = Raise e.
Proof.
  unfold dict_mapM. intros Hrun.
  destruct (res_mapM _ (map_to_list m)) as [l'|e'] eqn:Hl; [done|].
  injection Hrun as ->.
  destruct (res_mapM_Raise_inv _ _ _ Hl) as ([k x] & Hin & Hx).
  exists k, x. split; [by apply elem_of_map_to_list|].
  cbn [fst snd] in Hx. destruct (f x) as [y|e']; [discriminate Hx|].
  cbn in Hx. by injection Hx as ->.
Qed.

(** A comprehension whose body can only raise [e] raises [e] as soon as
    one value makes it raise. *)
Lemma dict_mapM_Raise {V W} (f : V → res W) (m : gmap hkey V) (e : exn) :
  (∀ k x, m !! k = Some x → (∃ y, f x = Ok y) ∨ f x = Raise e) →
  (∃ k x, m !! k = Some x ∧ f x = Raise e) →
  dict_mapM f m = Raise e.
Proof.
  intros Hall (k & x & Hk & Hx).
  destruct (dict_mapM f m) as [m'|e'] eqn:Hrun.
  - pose proof (dict_mapM_Ok_inv f m m' Hrun k) as H. rewrite Hk in H.
    destruct H as (y & Hy & _). congruence.
  - destruct (dict_mapM_Raise_inv f m e' Hrun) as (k' & x' & Hk' & Hx').
    destruct (Hall k' x' Hk') as [[y Hy]|He]; congruence.
Qed.

Lemma py_kwargs_strings {I} (m : gmap hkey I) :
  (∀ k, is_Some (m !! k) → ∃ s, k = KStr s) → py_kwargs m = Ok m.
Proof.
  intros Hm. unfold py_kwargs.
  assert (forallb (λ kv : hkey * I,
                     match kv.1 with KStr _ => true | KInt _ => false end)
                  (map_to_list m) = true) as ->; [|done].
  apply forallb_forall. intros [k v] Hin%list_elem_of_In%elem_of_map_to_list.
  destruct (Hm k) as [s ->]; [by eexists|done].
Qed.

Lemma py_kwargs_integer {I} (m : gmap hkey I) (i : Z) :
  is_Some (m !! KInt i) → py_kwargs m = Raise TypeError.
Proof.
  intros [v Hk]. unfold py_kwargs.
  destruct (forallb _ (map_to_list m)) eqn:Hall; [|done].
  rewrite forallb_forall in Hall.
  by specialize (Hall (KInt i, v)
                   (proj1 (list_elem_of_In _ _)
                      (proj2 (elem_of_map_to_list _ _ _) Hk))).
Qed.

Section per_array_dict_fill.
Import ndarray PerArrayDictChecks.

(** The loop over the items of a dictionary [m]. *)
Lemma fill_dict {A} (f : A → res nd) (m : gmap hkey A) (d : PerArrayDict.t) :
  match dict_mapM (λ v, x ← f v; checked (PerArrayDict.n_elements d) x) m with
  | Ok m' =>
      for_each (map_to_list m)
               (λ kv, x ← lift (f kv.2);
                      PerArrayDict.__setitem__ (Hashable kv.1) x) d
      = (Ok (), PerArrayDict.Build (PerArrayDict.n_elements d)
                  (m' ∪ PerArrayDict.store d))
  | Raise e =>
      ∃ d', for_each (map_to_list m)
                     (λ kv, x ← lift (f kv.2);
                            PerArrayDict.__setitem__ (Hashable kv.1) x) d
            = (Raise e, d')
  end.
Proof.
  pose proof (fill_run f (map_to_list m) d) as Hrun. unfold dict_mapM.
  destruct (res_mapM _ (map_to_list m)) as [l'|e] eqn:Hl; [|exact Hrun].
  cbn. rewrite Hrun. do 2 f_equal. apply foldl_insert_list_to_map.
  rewrite (res_mapM_fst
             (λ v, x ← f v; checked (PerArrayDict.n_elements d) x) _ _ Hl).
  apply NoDup_fst_map_to_list.
Qed.

Lemma update_run (m : gmap hkey nd) (d : PerArrayDict.t) :
  match dict_mapM (checked (PerArrayDict.n_elements d)) m with
  | Ok m' =>
      SliceableDataDict.update m d
      = (Ok (), PerArrayDict.Build (PerArrayDict.n_elements d)
                  (m' ∪ PerArrayDict.store d))
  | Raise e => ∃ d', SliceableDataDict.update m d = (Raise e, d')
  end.
Proof.
  pose proof (fill_dict Ok m d) as Hrun. cbn [mbind res_bind] in Hrun.
  unfold SliceableDataDict.update.
  rewrite (for_each_ext _ _
             (λ kv, x ← lift (Ok kv.2);
                    PerArrayDict.__setitem__ (Hashable kv.1) x)); [|done].
  exact Hrun.
Qed.

Lemma init_mapping (n : option N) (sliceable : bool) (m : gmap hkey nd) :
  (sliceable = true → py_kwargs m = Ok m) →
  PerArrayDict.__init__ n [ArgMapping sliceable m]
  = PerArrayDict.Build n <$> dict_mapM (checked n) m.
Proof.
  intros Hkw. unfold PerArrayDict.__init__, SliceableDataDict.__init__.
  cbn [length bool_decide decide_rel]. 
  rewrite bool_decide_eq_false_2 by (intros H; by apply H).
  cbn [SliceableDataDict.clear PerArrayDict.mutable PerArrayDict.n_elements].
  pose proof (update_run m (PerArrayDict.Build n ∅)) as Hrun.
  cbn [PerArrayDict.n_elements PerArrayDict.store] in Hrun.
  assert ((if sliceable
           then (d' ← lift (py_kwargs m); SliceableDataDict.update d')
                  (PerArrayDict.Build n ∅)
           else (d ← lift (py_dict [ArgMapping sliceable m]);
                 SliceableDataDict.update d) (PerArrayDict.Build n ∅))
          = SliceableDataDict.update m (PerArrayDict.Build n ∅)) as Heq.
  { destruct sliceable; rewrite lift_bind; [by rewrite Hkw|done]. }
  replace (match _ with
           | (Ok _, self) => Ok self
           | (Raise e, _) => Raise e
           end)
    with (match SliceableDataDict.update m (PerArrayDict.Build n ∅) with
          | (Ok _, self) => Ok self
          | (Raise e, _) => Raise e
          end : res PerArrayDict.t)
    by (by destruct sliceable; rewrite <-Heq).
  destruct (dict_mapM (checked n) m) as [m'|e].
  - rewrite Hrun. cbn. by rewrite (right_id ∅ (∪)).
  - destruct Hrun as [d' ->]. done.
Qed.

Lemma construct_None_run :
  SliceableDataDict.construct_None (D:=PerArrayDict.t)
  = Ok (PerArrayDict.Build None ∅).
Proof. reflexivity. Qed.

(** [d[key]] when [key] is not a stored key: the comprehension over the
    stored arrays. *)
Lemma getitem_reindex (d : PerArrayDict.t) (key : pykey) :
  (∀ v, dict_getitem (PerArrayDict.store d) key ≠ Ok v) →
  PerArrayDict.__getitem__ d key
  = match dict_mapM (λ v, x ← ndarray.__getitem__ v key; checked None x)
                    (PerArrayDict.store d) with
    | Ok m' => Ok (SliceableDataDict.Sliced (PerArrayDict.Build None m'))
    | Raise TypeError =>
        SliceableDataDict.Value <$> dict_getitem (PerArrayDict.store d) key
    | Raise e => Raise e
    end.
Proof.
  intros Hfail.
  unfold PerArrayDict.__getitem__, SliceableDataDict.__getitem__.
  cbn [SliceableDataDict.store PerArrayDict.indexable].
  pose proof (dict_getitem_Raise _ key Hfail) as Hcases.
  pose proof (fill_dict (λ v, ndarray.__getitem__ v key)
                (PerArrayDict.store d) (PerArrayDict.Build None ∅)) as Hrun.
  cbn [PerArrayDict.n_elements PerArrayDict.store] in Hrun.
  assert (SliceableDataDict.reindex d key (PerArrayDict.Build None ∅)
          = for_each (map_to_list (PerArrayDict.store d))
              (λ kv, x ← lift (ndarray.__getitem__ kv.2 key);
                     PerArrayDict.__setitem__ (Hashable kv.1) x)
              (PerArrayDict.Build None ∅)) as Hre by done.
  destruct (dict_getitem (PerArrayDict.store d) key) as [v|e];
    [by destruct (Hfail v)|].
  destruct Hcases as [[= ->]|[= ->]];
    rewrite construct_None_run; cbn [mbind res_bind]; rewrite Hre;
    (destruct (dict_mapM _ (PerArrayDict.store d)) as [m'|e];
     [rewrite Hrun; by rewrite (right_id ∅ (∪))
     |destruct Hrun as [d' ->]; by destruct e]).
Qed.
End per_array_dict_fill.

(** ** The data dictionaries: invariant, constructor and subscripts *)

Section per_array_dict_theorems.
Import ndarray PerArrayDictChecks.

Lemma discover_row (row : list Qc) :
  discover (Seq (Num <$> row)) = [N.of_nat (length row)].
Proof.
  cbn [discover]. rewrite length_fmap, discover_nums. f_equal.
  destruct row as [|x row]; [done|]. apply common_prefix_replicate.
Qed.

Lemma checked_row (n : option N) (row : list Qc) :
  (∀ m, n = Some m → m = N.of_nat (length row)) →
  checked n (Seq (Num <$> row))
  = Ok (Build [N.of_nat (length row); 1%N] false
              ((λ x, Seq [Num x]) <$> row)).
Proof.
  intros Hn. unfold checked. cbn [py_list mbind res_bind].
  rewrite asarray_nums. cbn [ndim shape dtype_object length negb andb].
  rewrite (bool_decide_eq_true_2 (1 = 1)%nat) by done.
  cbn [andb reshape_column ndim shape length dtype_object items].
  rewrite bool_decide_eq_false_2 by lia.
  rewrite bool_decide_eq_false_2.
  - unfold reshape_column, len. cbn [shape hd dtype_object items].
    by rewrite <-list_fmap_compose.
  - intros [[m ->] H]. apply H. unfold len. cbn. f_equal.
    symmetry. by apply Hn.
Qed.

Lemma foldr_common_prefix_same (s : list N) (ss : list (list N)) :
  Forall (λ s', s' = s) ss → foldr common_prefix s ss = s.
Proof.
  induction 1 as [|s' ss -> _ IH]; cbn; [done|]. rewrite IH.
  clear. induction s as [|a s IH]; cbn; [done|].
  by rewrite N.eqb_refl, IH.
Qed.

Lemma checked_rows (width : nat) (rows : list nd) :
  Forall (λ x, ∃ row : list Qc, x = Seq (Num <$> row) ∧ length row = width)
         rows →
  ∃ a, checked None (Seq rows) = Ok a ∧ items a = rows ∧ ndim a = 2%nat.
Proof.
  intros Hrows. destruct rows as [|r rows].
  - eexists. split; [reflexivity|done].
  - assert (Forall (λ s', s' = [N.of_nat width]) (discover <$> (r :: rows)))
      as Hd.
    { apply Forall_fmap. eapply Forall_impl; [|exact Hrows].
      intros x (row & -> & <-). apply discover_row. }
    assert (shape (asarray (r :: rows))
            = [N.of_nat (length (r :: rows)); N.of_nat width]) as Hshape.
    { unfold asarray. cbn [shape discover]. f_equal.
      rewrite fmap_cons in Hd. inversion Hd as [|? ? Hr Hrest]; subst.
      rewrite fmap_cons, Hr. by rewrite foldr_common_prefix_same. }
    exists (asarray (r :: rows)). unfold checked.
    cbn [py_list mbind res_bind]. unfold ndim. rewrite Hshape.
    cbn [length]. rewrite (bool_decide_eq_false_2 (2 = 1)%nat) by done.
    cbn [andb]. rewrite Hshape. cbn [length].
    rewrite bool_decide_eq_false_2 by (intros H; by apply H).
    rewrite bool_decide_eq_false_2; [done|]. by intros [[? [=]] _].
Qed.

(** X1. [PerArrayDict.__setitem__] keeps the invariant of the dictionary:
    after it, whether it returned or raised, every stored array still has
    two dimensions and [n_elements] rows, and [n_elements] is what it
    was; an assignment that raises leaves the dictionary exactly as it
    was, and one that returns has changed the entry of its key only. *)
Theorem X1_setitem_keeps_valid (d d' : PerArrayDict.t) (key : pykey)
    (value : nd) (r : res ()) :
  valid d →
  PerArrayDict.__setitem__ key value d = (r, d') →
  valid d'
  ∧ PerArrayDict.n_elements d' = PerArrayDict.n_elements d
  ∧ (∀ e, r = Raise e → d' = d)
  ∧ (r = Ok () →
     ∃ (k : hkey) (a : ndarray.t),
       key = Hashable k
       ∧ PerArrayDict.store d' = <[k := a]> (PerArrayDict.store d)).
Proof.
  intros Hvalid. rewrite setitem_checked.
  destruct (checked (PerArrayDict.n_elements d) value) as [a|e] eqn:Ha.
  - destruct key as [k|start stop]; cbn [dict_setitem].
    + intros [= <- <-]. split_and!; [|done|done|by eexists _, _].
      intros k' v. cbn [PerArrayDict.store PerArrayDict.n_elements].
      destruct (decide (k = k')) as [<-|Hne].
      * rewrite lookup_insert_eq. intros [= <-].
        by apply (checked_valid _ value).
      * rewrite lookup_insert_ne by done. apply Hvalid.
    + intros [= <- <-]. split_and!; [done|done|done|done].
  - intros [= <- <-]. split_and!; [done|done|done|done].
Qed.

(** X2. [PerArrayDict(n_elements, ...)]: without a mapping, or with
    [None], the dictionary is empty.  With a mapping, the constructor
    returns exactly when every item of the mapping would be accepted by a
    single assignment into an empty dictionary; the dictionary then has
    the keys of the mapping, holds under each key what that assignment
    stores, and satisfies the invariant.  When it raises, it raises the
    exception of an item that a single assignment rejects.  A
    [SliceableDataDict] given as the mapping is passed on as keyword
    arguments: with string keys only it is treated as a plain mapping,
    and with an integer among its keys the constructor raises
    [TypeError]. *)
Theorem X2_init_validates_every_item (n : option N) (m : gmap hkey nd) :
  PerArrayDict.__init__ n [] = Ok (PerArrayDict.Build n ∅)
  ∧ PerArrayDict.__init__ n [ArgNone] = Ok (PerArrayDict.Build n ∅)
  ∧ (∀ d : PerArrayDict.t,
       PerArrayDict.__init__ n [ArgMapping false m] = Ok d →
       PerArrayDict.n_elements d = n
       ∧ valid d
       ∧ dom (PerArrayDict.store d) = dom m
       ∧ ∀ k v, m !! k = Some v →
           ∃ a, PerArrayDict.store d !! k = Some a
                ∧ PerArrayDict.__setitem__ (Hashable k) v
                    (PerArrayDict.Build n ∅)
                  = (Ok (), PerArrayDict.Build n (<[k := a]> ∅)))
  ∧ (∀ e : exn,
       PerArrayDict.__init__ n [ArgMapping false m] = Raise e →
       ∃ k v, m !! k = Some v
              ∧ PerArrayDict.__setitem__ (Hashable k) v
                  (PerArrayDict.Build n ∅)
                = (Raise e, PerArrayDict.Build n ∅))
  ∧ ((∀ k v, m !! k = Some v →
        ∃ a, PerArrayDict.__setitem__ (Hashable k) v (PerArrayDict.Build n ∅)
             = (Ok (), PerArrayDict.Build n (<[k := a]> ∅))) →
     ∃ d, PerArrayDict.__init__ n [ArgMapping false m] = Ok d)
  ∧ ((∀ k, is_Some (m !! k) → ∃ s, k = KStr s) →
     PerArrayDict.__init__ n [ArgMapping true m]
     = PerArrayDict.__init__ n [ArgMapping false m])
  ∧ (∀ i : Z,
       is_Some (m !! KInt i) →
       PerArrayDict.__init__ n [ArgMapping true m] = Raise TypeError).
Proof.
  split_and!; [reflexivity|reflexivity| | | | |].
  - intros d. rewrite init_mapping by done.
    destruct (dict_mapM (checked n) m) as [m'|e] eqn:Hrun; [|done].
    intros [= <-]. pose proof (dict_mapM_Ok_inv _ _ _ Hrun) as Hm.
    cbn [PerArrayDict.n_elements PerArrayDict.store]. split_and!; [done| | |].
    + intros k a Hk. cbn [PerArrayDict.n_elements PerArrayDict.store] in *.
      specialize (Hm k). destruct (m !! k) as [v|]; [|congruence].
      destruct Hm as (a' & Ha & Hk'). rewrite Hk in Hk'. injection Hk' as <-.
      by apply (checked_valid _ v).
    + apply set_eq. intros k. rewrite !elem_of_dom. specialize (Hm k).
      destruct (m !! k) as [v|].
      * destruct Hm as (a & _ & ->). split; eauto.
      * rewrite Hm. split; intros [? [=]].
    + intros k v Hk. specialize (Hm k). rewrite Hk in Hm.
      destruct Hm as (a & Ha & Hk'). exists a. split; [done|].
      rewrite setitem_checked. cbn [PerArrayDict.n_elements]. by rewrite Ha.
  - intros e. rewrite init_mapping by done.
    destruct (dict_mapM (checked n) m) as [m'|e'] eqn:Hrun; [done|].
    intros [= ->]. destruct (dict_mapM_Raise_inv _ _ _ Hrun) as (k & v & Hk & Hv).
    exists k, v. split; [done|]. rewrite setitem_checked.
    cbn [PerArrayDict.n_elements]. by rewrite Hv.
  - intros Hall. rewrite init_mapping by done.
    destruct (dict_mapM (checked n) m) as [m'|e'] eqn:Hrun; [by eexists|].
    destruct (dict_mapM_Raise_inv _ _ _ Hrun) as (k & v & Hk & Hv).
    destruct (Hall k v Hk) as [a Ha]. rewrite setitem_checked in Ha.
    cbn [PerArrayDict.n_elements] in Ha. by rewrite Hv in Ha.
  - intros Hkeys. rewrite !init_mapping; [done|done|].
    intros _. by apply py_kwargs_strings.
  - intros i Hi. unfold PerArrayDict.__init__, SliceableDataDict.__init__.
    cbn [length]. rewrite bool_decide_eq_false_2 by (intros H; by apply H).
    by rewrite lift_bind, (py_kwargs_integer m i Hi).
Qed.

(** X3. A key that is not stored does not give [KeyError]: on an empty
    [PerArrayDict] every subscript, hashable or slice, returns a new empty
    dictionary; on one that is not empty, a string that is not a stored
    key raises the [IndexError] of the first array it is applied to. *)
Theorem X3_missing_key (d : PerArrayDict.t) :
  (PerArrayDict.store d = ∅ →
   ∀ key : pykey,
     PerArrayDict.__getitem__ d key
     = Ok (SliceableDataDict.Sliced (PerArrayDict.Build None ∅)))
  ∧ (PerArrayDict.store d ≠ ∅ →
     ∀ s : string,
       PerArrayDict.store d !! KStr s = None →
       PerArrayDict.__getitem__ d (Hashable (KStr s)) = Raise IndexError).
Proof.
  split.
  - intros Hempty key. rewrite getitem_reindex.
    + by rewrite Hempty, dict_mapM_empty.
    + rewrite Hempty. by destruct key.
  - intros Hne s Hs. rewrite getitem_reindex.
    + rewrite (dict_mapM_Raise _ _ IndexError); [done|by right|].
      destruct (map_choose _ Hne) as (k & v & Hk). by exists k, v.
    + intros v. cbn. by rewrite Hs.
Qed.

(** X4. Slicing a [PerArrayDict] whose arrays are tables (rows of numbers
    of one width per array): [d[start:stop]] returns a new [PerArrayDict]
    with the same keys and no fixed number of elements, in which every
    array is two-dimensional and holds the rows [start:stop] of the array
    of [d]. *)
Theorem X4_getitem_slice (d : PerArrayDict.t) (start stop : option Z) :
  (∀ k v, PerArrayDict.store d !! k = Some v → ∃ width, table width v) →
  ∃ d' : PerArrayDict.t,
    PerArrayDict.__getitem__ d (Slice start stop)
    = Ok (SliceableDataDict.Sliced d')
    ∧ PerArrayDict.n_elements d' = None
    ∧ valid d'
    ∧ ∀ k, items <$> PerArrayDict.store d' !! k
           = (λ v, py_slice_Z (items v) start stop)
               <$> PerArrayDict.store d !! k.
Proof.
  intros Htable.
  assert (∀ k v, PerArrayDict.store d !! k = Some v →
            ∃ a, checked None (Seq (py_slice_Z (items v) start stop)) = Ok a
                 ∧ items a = py_slice_Z (items v) start stop
                 ∧ ndim a = 2%nat) as Hrows.
  { intros k v Hk. destruct (Htable k v Hk) as [width Hv].
    apply (checked_rows width). unfold py_slice_Z.
    by apply Forall_take, Forall_drop. }
  rewrite getitem_reindex by done.
  destruct (dict_mapM _ (PerArrayDict.store d)) as [m'|e] eqn:Hrun.
  - pose proof (dict_mapM_Ok_inv _ _ _ Hrun) as Hm.
    eexists. split; [reflexivity|]. split_and!; [done| |].
    + intros k a Hk. cbn [PerArrayDict.store PerArrayDict.n_elements] in *.
      split; [|done]. specialize (Hm k).
      destruct (PerArrayDict.store d !! k) as [v|] eqn:Hv; [|congruence].
      destruct Hm as (a' & Ha' & Hk'). rewrite Hk in Hk'. injection Hk' as <-.
      destruct (Hrows k v Hv) as (a'' & Ha'' & _ & Hdim).
      cbn [ndarray.__getitem__ mbind res_bind] in Ha'. congruence.
    + intros k. cbn [PerArrayDict.store]. specialize (Hm k).
      destruct (PerArrayDict.store d !! k) as [v|] eqn:Hv.
      * destruct Hm as (a & Ha & ->). cbn.
        destruct (Hrows k v Hv) as (a' & Ha' & Hitems & _).
        cbn [ndarray.__getitem__ mbind res_bind] in Ha. congruence.
      * by rewrite Hm.
  - destruct (dict_mapM_Raise_inv _ _ _ Hrun) as (k & v & Hk & Hv).
    destruct (Hrows k v Hk) as (a & Ha & _).
    cbn [ndarray.__getitem__ mbind res_bind] in Hv. congruence.
Qed.

(** X5. An integer that is not a stored key, on a [PerArrayDict] whose
    arrays are tables of [T] rows: within the bounds [-T <= i < T] the
    subscript returns a new dictionary with the same keys that holds, for
    every array, its row [i] as a column (one number per row); outside
    the bounds, on a dictionary that is not empty, it raises
    [IndexError]. *)
Theorem X5_getitem_integer (d : PerArrayDict.t) (T : nat) (i : Z) :
  (∀ k v, PerArrayDict.store d !! k = Some v →
          length (items v) = T ∧ ∃ width, table width v) →
  PerArrayDict.store d !! KInt i = None →
  ((- Z.of_nat T ≤ i < Z.of_nat T)%Z →
   ∃ d' : PerArrayDict.t,
     PerArrayDict.__getitem__ d (Hashable (KInt i))
     = Ok (SliceableDataDict.Sliced d')
     ∧ PerArrayDict.n_elements d' = None
     ∧ dom (PerArrayDict.store d') = dom (PerArrayDict.store d)
     ∧ ∀ k v, PerArrayDict.store d !! k = Some v →
         ∃ (row : list Qc) (a : ndarray.t),
           py_index (items v) i = Ok (Seq (Num <$> row))
           ∧ PerArrayDict.store d' !! k = Some a
           ∧ shape a = [N.of_nat (length row); 1%N]
           ∧ items a = (λ x, Seq [Num x]) <$> row)
  ∧ ((i < - Z.of_nat T ∨ Z.of_nat T ≤ i)%Z →
     PerArrayDict.store d ≠ ∅ →
     PerArrayDict.__getitem__ d (Hashable (KInt i)) = Raise IndexError).
Proof.
  intros Htable Hkey.
  assert (∀ v, dict_getitem (PerArrayDict.store d) (Hashable (KInt i)) ≠ Ok v)
    as Hfail by (intros v; cbn; by rewrite Hkey).
  split.
  - intros Hi.
    assert (∀ k v, PerArrayDict.store d !! k = Some v →
              ∃ row, py_index (items v) i = Ok (Seq (Num <$> row))) as Hrow.
    { intros k v Hk. destruct (Htable k v Hk) as (Hlen & width & Hv).
      set (j := if (i <? 0)%Z then (i + Z.of_nat T)%Z else i).
      assert (0 ≤ j < Z.of_nat T)%Z as Hj
        by (unfold j; destruct (Z.ltb_spec i 0); lia).
      destruct (lookup_lt_is_Some_2 (items v) (Z.to_nat j)) as [x Hx]; [lia|].
      unfold table in Hv. rewrite Forall_lookup in Hv.
      destruct (Hv _ _ Hx) as (row & -> & _). exists row.
      unfold py_index. rewrite Hlen. fold j.
      destruct (Z.leb_spec 0 j); [|lia].
      destruct (Z.ltb_spec j (Z.of_nat T)); [|lia]. cbn. by rewrite Hx. }
    rewrite getitem_reindex by done.
    destruct (dict_mapM _ (PerArrayDict.store d)) as [m'|e] eqn:Hrun.
    + pose proof (dict_mapM_Ok_inv _ _ _ Hrun) as Hm.
      eexists. split; [reflexivity|]. split_and!; [done| |].
      * apply set_eq. intros k. rewrite !elem_of_dom. specialize (Hm k).
        cbn [PerArrayDict.store].
        destruct (PerArrayDict.store d !! k) as [v|].
        -- destruct Hm as (a & _ & ->). split; eauto.
        -- rewrite Hm. split; intros [? [=]].
      * intros k v Hk. destruct (Hrow k v Hk) as [row Hr].
        specialize (Hm k). rewrite Hk in Hm. destruct Hm as (a & Ha & Hk').
        cbn [ndarray.__getitem__] in Ha. rewrite Hr in Ha.
        cbn [mbind res_bind] in Ha. rewrite checked_row in Ha by done.
        injection Ha as <-. eexists row, _. split_and!; [done|exact Hk'|done|done].
    + destruct (dict_mapM_Raise_inv _ _ _ Hrun) as (k & v & Hk & Hv).
      destruct (Hrow k v Hk) as [row Hr].
      cbn [ndarray.__getitem__] in Hv. rewrite Hr in Hv.
      cbn [mbind res_bind] in Hv. by rewrite checked_row in Hv.
  - intros Hi Hne. rewrite getitem_reindex by done.
    assert (∀ k v, PerArrayDict.store d !! k = Some v →
              py_index (items v) i = Raise IndexError) as Hout.
    { intros k v Hk. destruct (Htable k v Hk) as [Hlen _].
      apply py_index_out_of_range. lia. }
    rewrite (dict_mapM_Raise _ _ IndexError); [done| |].
    + intros k v Hk. right. cbn [ndarray.__getitem__].
      by rewrite (Hout k v Hk).
    + destruct (map_choose _ Hne) as (k & v & Hk). exists k, v.
      split; [done|]. cbn [ndarray.__getitem__]. by rewrite (Hout k v Hk).
Qed.
End per_array_dict_theorems.

Section store_methods.
Import StoreMethods.

(** X6. [del d[key]], [iter(d)] and [len(d)] on a [PerArrayDict]: deleting
    a stored key removes that entry and no other, and makes the dictionary
    one shorter; deleting a key that is not stored raises [KeyError], and a
    slice raises [TypeError], with the dictionary as it was; [iter] gives
    every stored key once and [len] counts them; and deleting a key right
    after an assignment that added it gives back the dictionary as it was
    before the assignment. *)
Theorem X6_delitem_iter_len (d : PerArrayDict.t) :
  (∀ (k : hkey) (v : ndarray.t),
     PerArrayDict.store d !! k = Some v →
     ∃ d' : PerArrayDict.t,
       __delitem__ (Hashable k) d = (Ok (), d')
       ∧ PerArrayDict.n_elements d' = PerArrayDict.n_elements d
       ∧ PerArrayDict.store d' !! k = None
       ∧ (∀ k', k' ≠ k →
                PerArrayDict.store d' !! k' = PerArrayDict.store d !! k')
       ∧ (PerArrayDict.__len__ d' + 1 = PerArrayDict.__len__ d)%N)
  ∧ (∀ k : hkey,
       PerArrayDict.store d !! k = None →
       __delitem__ (Hashable k) d = (Raise KeyError, d))
  ∧ (∀ start stop : option Z,
       __delitem__ (Slice start stop) d = (Raise TypeError, d))
  ∧ NoDup (__iter__ d)
  ∧ (∀ k : hkey, k ∈ __iter__ d ↔ is_Some (PerArrayDict.store d !! k))
  ∧ PerArrayDict.__len__ d = N.of_nat (length (__iter__ d))
  ∧ (∀ (k : hkey) (value : nd) (d1 : PerArrayDict.t),
       PerArrayDict.store d !! k = None →
       PerArrayDict.__setitem__ (Hashable k) value d = (Ok (), d1) →
       k ∈ __iter__ d1
       ∧ (PerArrayDict.__len__ d1 = PerArrayDict.__len__ d + 1)%N
       ∧ __delitem__ (Hashable k) d1 = (Ok (), d)).
Proof.
  split_and!.
  - intros k v Hk. eexists. split_and!.
    + unfold __delitem__, mbind, M_bind, get_state, lift, put_state. cbn.
      rewrite Hk. reflexivity.
    + done.
    + cbn. apply lookup_delete_eq.
    + intros k' Hne. cbn. by apply lookup_delete_ne.
    + unfold PerArrayDict.__len__, SliceableDataDict.__len__. cbn.
      rewrite map_size_delete, Hk.
      pose proof (map_size_ne_0_lookup_2 (PerArrayDict.store d) k
                    (mk_is_Some _ _ Hk)).
      cbn. lia.
  - intros k Hk. unfold __delitem__, mbind, M_bind, get_state, lift. cbn.
    by rewrite Hk.
  - done.
  - apply NoDup_fst_map_to_list.
  - intros k. unfold __iter__. cbn. rewrite list_elem_of_fmap. split.
    + intros ([k' v] & -> & Hin%elem_of_map_to_list). eauto.
    + intros [v Hk]. exists (k, v). split; [done|].
      by apply elem_of_map_to_list.
  - unfold PerArrayDict.__len__, SliceableDataDict.__len__, __iter__.
    by rewrite length_fmap, length_map_to_list.
  - intros k value d1 Hk Hset.
    rewrite setitem_checked in Hset.
    destruct (PerArrayDictChecks.checked _ value) as [a|e]; [|done].
    cbn in Hset. injection Hset as <-. split_and!.
    + unfold __iter__. cbn. apply list_elem_of_fmap. exists (k, a).
      split; [done|]. apply elem_of_map_to_list, lookup_insert_eq.
    + unfold PerArrayDict.__len__, SliceableDataDict.__len__. cbn.
      rewrite map_size_insert, Hk. lia.
    + unfold __delitem__, mbind, M_bind, get_state, lift, put_state. cbn.
      rewrite lookup_insert_eq, delete_insert_id by done. by destruct d.
Qed.
End store_methods.

(** ** LazyDict *)

Lemma LazyDict_fill (l : list (hkey * pyval pyobj))
    (l' : list (hkey * option (callable pyobj))) (d : LazyDict.t) :
  l = prod_map id LazyDict.stored <$> l' →
  for_each l (λ kv, LazyDict.__setitem__ (Hashable kv.1) kv.2) d
  = (Ok (), LazyDict.Build (foldl (λ s kv, <[kv.1 := kv.2]> s)
                                  (LazyDict.store d) l')).
Proof.
  intros ->. revert d. induction l' as [|[k f] l' IH]; intros d.
  - by destruct d.
  - rewrite fmap_cons, for_each_cons. cbn [prod_map fst snd id].
    destruct f as [f|]; cbn; apply IH.
Qed.

Lemma LazyDict_update (m : gmap hkey (option (callable pyobj)))
    (d : LazyDict.t) :
  LazyDict.store d = ∅ →
  SliceableDataDict.update (LazyDict.stored <$> m) d
  = (Ok (), LazyDict.Build m).
Proof.
  intros Hd. unfold SliceableDataDict.update.
  set (unstored := λ v : pyval pyobj,
         match v with PyCallable f => Some f | _ => None end).
  set (l := map_to_list (LazyDict.stored <$> m)).
  rewrite (LazyDict_fill l (prod_map id unstored <$> l)).
  - f_equal. f_equal. rewrite foldl_insert_list_to_map.
    + rewrite Hd, (right_id ∅ (∪)), list_to_map_fmap.
      unfold l. rewrite list_to_map_to_list, <-map_fmap_compose.
      rewrite <-(map_fmap_id m) at 2. apply map_fmap_ext.
      by intros k [f|] _.
    + rewrite <-list_fmap_compose.
      rewrite (list_fmap_ext _ fst l) by (by intros ? []).
      apply NoDup_fst_map_to_list.
  - rewrite <-list_fmap_compose. rewrite <-(list_fmap_id l) at 1.
    apply list_fmap_ext. intros i [k v] Hin. cbn.
    apply list_elem_of_lookup_2, elem_of_map_to_list in Hin.
    rewrite lookup_fmap in Hin.
    destruct (m !! k) as [[f|]|]; cbn in Hin; [| |done];
      by injection Hin as <-.
Qed.

(** X7. A [LazyDict] stores generator functions and calls them on
    retrieval: after [d[k] = f] for a callable [f], [d[k]] is what [f()]
    gives in the current store, each time it is read, and the other keys
    read as before; a value that is neither callable nor [None] is
    rejected with [TypeError] and the dictionary stays as it was; a key
    that is not stored raises [KeyError] and a slice raises [TypeError]:
    a [LazyDict] never applies the key as a subscript to its values. *)
Theorem X7_LazyDict_calls_producers (d : LazyDict.t) :
  (∀ (k : hkey) (f : callable pyobj),
     ∃ d' : LazyDict.t,
       LazyDict.__setitem__ (Hashable k) (PyCallable f) d = (Ok (), d')
       ∧ (∀ h : eager_heap, LazyDict.__getitem__ d' (Hashable k) h = f h)
       ∧ (∀ (k' : hkey) (h : eager_heap),
            k' ≠ k →
            LazyDict.__getitem__ d' (Hashable k') h
            = LazyDict.__getitem__ d (Hashable k') h))
  ∧ (∀ key : pykey,
       LazyDict.__setitem__ key PyOther d = (Raise TypeError, d))
  ∧ (∀ (k : hkey) (h : eager_heap),
       LazyDict.store d !! k = None →
       LazyDict.__getitem__ d (Hashable k) h = Raise KeyError)
  ∧ (∀ (start stop : option Z) (h : eager_heap),
       LazyDict.__getitem__ d (Slice start stop) h = Raise TypeError).
Proof.
  split_and!.
  - intros k f. eexists. split_and!; [reflexivity| |].
    + intros h. unfold LazyDict.__getitem__. cbn.
      by rewrite lookup_insert_eq.
    + intros k' h Hne. unfold LazyDict.__getitem__. cbn.
      by rewrite lookup_insert_ne.
  - done.
  - intros k h Hk. unfold LazyDict.__getitem__. cbn. by rewrite Hk.
  - done.
Qed.

(** X8. The constructor of [LazyDict]: without an argument or with
    [None] the dictionary is empty; [LazyDict(other)] for a [LazyDict]
    whose keys are all strings is a copy that holds the same producers
    (stored [None]s included); the copy goes through keyword arguments, so
    with an integer among the keys of [other] it raises [TypeError]. *)
Theorem X8_LazyDict_init (d : LazyDict.t) :
  LazyDict.__init__ [] = Ok (LazyDict.Build ∅)
  ∧ LazyDict.__init__ [LazyDict.Arg ArgNone] = Ok (LazyDict.Build ∅)
  ∧ ((∀ k, is_Some (LazyDict.store d !! k) → ∃ s, k = KStr s) →
     LazyDict.__init__ [LazyDict.ArgLazyDict d] = Ok d)
  ∧ (∀ i : Z,
       is_Some (LazyDict.store d !! KInt i) →
       LazyDict.__init__ [LazyDict.ArgLazyDict d] = Raise TypeError).
Proof.
  split_and!; [reflexivity|reflexivity| |].
  - intros Hkeys. unfold LazyDict.__init__. rewrite lift_bind.
    rewrite py_kwargs_strings.
    + rewrite LazyDict_update by done. by destruct d.
    + intros k. rewrite lookup_fmap. intros [v Hv]. apply Hkeys.
      destruct (LazyDict.store d !! k); [by eexists|done].
  - intros i [f Hi]. unfold LazyDict.__init__. rewrite lift_bind.
    rewrite (py_kwargs_integer _ i); [done|].
    rewrite lookup_fmap, Hi. by eexists.
Qed.

(** ** The module-level predicates *)

(** X9. [is_data_dict] and [is_lazy_dict]: an object without a [store]
    attribute is neither, and asking raises nothing.  On a dictionary
    whose store is empty [is_lazy_dict] raises instead of answering, in
    Python 2 ([IndexError]) and in Python 3 ([TypeError]); in Python 3 it
    raises [TypeError] on every dictionary, since [dict.values()] is not
    subscriptable there.  In Python 2, on a store that is not empty, a
    [PerArrayDict] is not a lazy dictionary, and a [LazyDict] whose
    values are all generator functions is one. *)
Theorem X9_is_lazy_dict :
  (∀ version : python,
     is_data_dict OtherObject = false
     ∧ is_lazy_dict version OtherObject = Ok false)
  ∧ (∀ (version : python) (obj : object),
       is_data_dict obj = true →
       store_values obj = [] →
       is_lazy_dict version obj
       = Raise match version with
               | Python2 => IndexError
               | Python3 => TypeError
               end)
  ∧ (∀ obj : object,
       is_data_dict obj = true →
       is_lazy_dict Python3 obj = Raise TypeError)
  ∧ (∀ d : PerArrayDict.t,
       PerArrayDict.store d ≠ ∅ →
       is_lazy_dict Python2 (PerArrayDictObject d) = Ok false)
  ∧ (∀ d : LazyDict.t,
       LazyDict.store d ≠ ∅ →
       (∀ k f, LazyDict.store d !! k = Some f → is_Some f) →
       is_lazy_dict Python2 (LazyDictObject d) = Ok true).
Proof.
  split_and!.
  - done.
  - intros [] obj Hobj Hvalues; unfold is_lazy_dict;
      rewrite Hobj; cbn; by rewrite ?Hvalues.
  - intros obj Hobj. unfold is_lazy_dict. by rewrite Hobj.
  - intros d Hne. unfold is_lazy_dict. cbn.
    destruct (map_to_list (PerArrayDict.store d)) as [|kv l] eqn:Hl; [|done].
    by apply map_to_list_empty_iff in Hl.
  - intros d Hne Hall. unfold is_lazy_dict. cbn.
    destruct (map_to_list (LazyDict.store d)) as [|[k f] l] eqn:Hl.
    + by apply map_to_list_empty_iff in Hl.
    + cbn. rewrite bool_decide_eq_true_2; [done|]. apply (Hall k).
      apply elem_of_map_to_list. rewrite Hl. by left.
Qed.

(** ** The eager tractogram: transformations *)

Section eager_affine.
Import TractogramState EagerTractogram.
Local Open Scope Qc_scope.

(** The inverse of an affine is an affine. *)
Lemma inverse_is_affine (A Ainv : np.mat4) :
  np.is_affine A → np.dot A Ainv = np.eye4 → np.is_affine Ainv.
Proof.
  destruct A as [[? ? ? ?] [? ? ? ?] [? ? ? ?] [? ? ? ?]].
  destruct Ainv as [[? ? ? ?] [? ? ? ?] [? ? ? ?] [b0 b1 b2 b3]].
  unfold np.is_affine. cbn. intros [= -> -> -> ->] H.
  apply (f_equal np.r3) in H.
  cbv [np.dot np.eye4 np.mmk np.vmk np.sum4 np.mget np.vget np.mrow
       np.r0 np.r1 np.r2 np.r3 np.v0 np.v1 np.v2 np.v3] in H.
  rewrite <-H. f_equal; ring.
Qed.

Lemma apply_point_eye4 (p : np.point) : affines.apply_point np.eye4 p = p.
Proof.
  destruct p as [x y z]. unfold affines.apply_point, np.eye4, np.mget.
  cbn. f_equal; ring.
Qed.

Lemma apply_affine_eye4 (pts : list np.point) :
  affines.apply_affine np.eye4 pts = pts.
Proof.
  unfold affines.apply_affine. rewrite <-(list_fmap_id pts) at 2.
  apply list_fmap_ext. intros _ p _. apply apply_point_eye4.
Qed.

Lemma apply_affine_dot (A B : np.mat4) (pts : list np.point) :
  np.is_affine A →
  affines.apply_affine B (affines.apply_affine A pts)
  = affines.apply_affine (np.dot B A) pts.
Proof.
  intros HA. unfold affines.apply_affine. rewrite <-list_fmap_compose.
  apply list_fmap_ext. intros _ p _. cbn. symmetry. by apply apply_point_dot.
Qed.

Lemma transformed_transformed (A B Ainv Binv : np.mat4) (t : t) :
  np.is_affine A →
  transformed B Binv (transformed A Ainv t)
  = transformed (np.dot B A) (np.dot Ainv Binv) t.
Proof.
  intros HA. unfold transformed, set_affine_to_rasmm, set_data.
  cbn [_streamlines _affine_to_rasmm _data_per_streamline _data_per_point
       ArraySequence._data ArraySequence._offsets ArraySequence._lengths].
  rewrite apply_affine_dot by done. by rewrite dot_assoc.
Qed.

Lemma transformed_eye4 (t : t) : transformed np.eye4 np.eye4 t = t.
Proof.
  unfold transformed, set_affine_to_rasmm, set_data.
  cbn [_streamlines _affine_to_rasmm _data_per_streamline _data_per_point
       ArraySequence._data ArraySequence._offsets ArraySequence._lengths].
  rewrite apply_affine_eye4, dot_eye4_r. by destruct t as [[] ? ? ?].
Qed.

Lemma heap_insert_id (h : heap) (self : loc) (t : t) :
  eager h !! self = Some t → Heap (<[self := t]> (eager h)) (lazy h) = h.
Proof. intros H. destruct h as [E L]. cbn in *. by rewrite insert_id. Qed.

(** Running [apply_affine(A, lazy=False)] and then a second computation. *)
Lemma apply_affine_then {B} (h : heap) (self : loc) (t : t)
    (A Ainv : np.mat4) (k : ref → M heap B) :
  eager h !! self = Some t →
  np.dot A Ainv = np.eye4 →
  (apply_affine self A false ≫= k) h
  = k (Eager self)
      (if bool_decide (ArraySequence.__len__ (_streamlines t) = 0%N) then h
       else Heap (<[self := transformed A Ainv t]> (eager h)) (lazy h)).
Proof.
  intros Hself HA.
  by rewrite (M_bind_Ok _ _ _ _ _ (apply_affine_in_place h self t A Ainv Hself HA)).
Qed.

(** X10. Two in-place transformations are one: for an affine [A] (last
    row 0 0 0 1) and invertible [A] and [B], [apply_affine(A)] followed by
    [apply_affine(B)] leaves the store exactly as the single
    [apply_affine(B . A)] does, streamlines and world affine alike, and
    that call returns. *)
Theorem X10_apply_affine_twice (h : heap) (self : loc) (t : t)
    (A B Ainv Binv : np.mat4) :
  eager h !! self = Some t →
  np.is_affine A →
  np.dot A Ainv = np.eye4 →
  np.dot B Binv = np.eye4 →
  (apply_affine self A false;; apply_affine self B false) h
  = apply_affine self (np.dot B A) false h
  ∧ ∃ h', apply_affine self (np.dot B A) false h = (Ok (Eager self), h').
Proof.
  intros Hself HAff HA HB.
  pose proof (dot_inverse A B Ainv Binv HA HB) as HBA.
  rewrite (apply_affine_then h self t A Ainv _ Hself HA).
  rewrite (apply_affine_in_place h self t _ _ Hself HBA).
  split; [|by eexists].
  case_bool_decide as Hlen.
  - rewrite (apply_affine_in_place h self t B Binv Hself HB).
    by rewrite bool_decide_eq_true_2.
  - erewrite apply_affine_in_place; [|cbn; apply lookup_insert_eq|exact HB].
    rewrite bool_decide_eq_false_2 by done. cbn [eager lazy].
    by rewrite insert_insert_eq, transformed_transformed.
Qed.

(** X11. Applying an affine and then its inverse gives the tractogram
    back: for an invertible affine [A] (last row 0 0 0 1),
    [apply_affine(A)] followed by [apply_affine(inv(A))] returns [self] and
    leaves the whole store as it was, points and world affine included;
    and applying the identity changes nothing. *)
Theorem X11_apply_affine_inverse (h : heap) (self : loc) (t : t)
    (A Ainv : np.mat4) :
  eager h !! self = Some t →
  np.is_affine A →
  np.dot A Ainv = np.eye4 →
  (apply_affine self A false;; apply_affine self Ainv false) h
  = (Ok (Eager self), h)
  ∧ apply_affine self np.eye4 false h = (Ok (Eager self), h).
Proof.
  intros Hself HAff HA. split; last first.
  { rewrite (apply_affine_in_place h self t np.eye4 np.eye4 Hself
               (dot_eye4_l np.eye4)).
    case_bool_decide; [done|].
    by rewrite transformed_eye4, heap_insert_id. }
  pose proof (inverse_comm A Ainv HA) as HA'.
  rewrite (apply_affine_then h self t A Ainv _ Hself HA).
  case_bool_decide as Hlen.
  - rewrite (apply_affine_in_place h self t Ainv A Hself HA').
    by rewrite bool_decide_eq_true_2.
  - erewrite apply_affine_in_place; [|cbn; apply lookup_insert_eq|exact HA'].
    rewrite bool_decide_eq_false_2 by done. cbn [eager lazy].
    rewrite insert_insert_eq, transformed_transformed by done.
    rewrite HA', transformed_eye4. by rewrite heap_insert_id.
Qed.

Lemma to_world_run (h : heap) (self : loc) (t : t) (Winv : np.mat4) :
  eager h !! self = Some t →
  np.dot (_affine_to_rasmm t) Winv = np.eye4 →
  to_world self false h
  = (Ok (Eager self),
     if bool_decide (ArraySequence.__len__ (_streamlines t) = 0%N) then h
     else Heap (<[self := transformed (_affine_to_rasmm t) Winv t]> (eager h))
               (lazy h)).
Proof.
  intros Hself HW. unfold to_world.
  rewrite (M_bind_Ok _ _ _ _ _ (load_eager_run h self t Hself)).
  by apply apply_affine_in_place.
Qed.

(** X12. [to_world] is idempotent: on a tractogram whose world affine is
    invertible, [to_world(lazy=False)] returns, and a second call
    changes nothing, with or without streamlines. *)
Theorem X12_to_world_idempotent (h : heap) (self : loc) (t : t)
    (Winv : np.mat4) :
  eager h !! self = Some t →
  np.dot (_affine_to_rasmm t) Winv = np.eye4 →
  (to_world self false;; to_world self false) h = to_world self false h
  ∧ ∃ h', to_world self false h = (Ok (Eager self), h').
Proof.
  intros Hself HW.
  rewrite (M_bind_Ok _ _ _ _ _ (to_world_run h self t Winv Hself HW)).
  rewrite (to_world_run h self t Winv Hself HW).
  split; [|by eexists].
  case_bool_decide as Hlen.
  - rewrite (to_world_run h self t Winv Hself HW).
    by rewrite bool_decide_eq_true_2.
  - erewrite (to_world_run _ self _ np.eye4);
      [|cbn; apply lookup_insert_eq|cbn; rewrite HW; apply dot_eye4_l].
    rewrite bool_decide_eq_false_2 by done.
    cbn [eager lazy]. rewrite insert_insert_eq. do 3 f_equal.
    change (_affine_to_rasmm (transformed (_affine_to_rasmm t) Winv t))
      with (np.dot (_affine_to_rasmm t) Winv).
    rewrite HW. apply transformed_eye4.
Qed.

(** X13. The world coordinates do not depend on the transformations
    applied before: for an invertible affine [A] (last row 0 0 0 1) and an
    invertible world affine, [apply_affine(A)] followed by [to_world()]
    leaves the store exactly as [to_world()] alone does, and [to_world()]
    returns. *)
Theorem X13_to_world_after_apply_affine (h : heap) (self : loc) (t : t)
    (A Ainv Winv : np.mat4) :
  eager h !! self = Some t →
  np.is_affine A →
  np.dot A Ainv = np.eye4 →
  np.dot (_affine_to_rasmm t) Winv = np.eye4 →
  (apply_affine self A false;; to_world self false) h = to_world self false h
  ∧ ∃ h', to_world self false h = (Ok (Eager self), h').
Proof.
  intros Hself HAff HA HW.
  rewrite (apply_affine_then h self t A Ainv _ Hself HA).
  rewrite (to_world_run h self t Winv Hself HW).
  split; [|by eexists].
  case_bool_decide as Hlen.
  - rewrite (to_world_run h self t Winv Hself HW).
    by rewrite bool_decide_eq_true_2.
  - assert (np.dot (np.dot (_affine_to_rasmm t) Ainv) (np.dot A Winv)
            = np.eye4) as Hinv.
    { rewrite dot_assoc, <-(dot_assoc Ainv), (inverse_comm A Ainv HA).
      by rewrite dot_eye4_l. }
    erewrite (to_world_run _ self _ (np.dot A Winv));
      [|cbn; apply lookup_insert_eq|exact Hinv].
    rewrite bool_decide_eq_false_2 by done.
    cbn [eager lazy]. rewrite insert_insert_eq. do 3 f_equal.
    change (_affine_to_rasmm (transformed A Ainv t))
      with (np.dot (_affine_to_rasmm t) Ainv).
    rewrite transformed_transformed by done.
    rewrite dot_assoc, (inverse_comm A Ainv HA), dot_eye4_r.
    rewrite <-dot_assoc, (inverse_comm A Ainv HA), dot_eye4_l. done.
Qed.
End eager_affine.

(** ** The eager tractogram: errors, copies and subscripts *)

Section eager_more.
Import TractogramState EagerTractogram.

(** X14. A matrix with a zero column (one that collapses an axis, hence
    singular) on [apply_affine(affine, lazy=False)]: without streamlines
    the call returns [self] and nothing is checked; with streamlines it
    raises [LinAlgError] only after the loop, so the exception leaves
    every point already overwritten and the world affine as it was. *)
Theorem X14_apply_affine_singular (h : heap) (self : loc) (t : t)
    (A : np.mat4) (j : np.ix4) :
  eager h !! self = Some t →
  (∀ i : np.ix4, np.mget A i j = 0%Qc) →
  apply_affine self A false h
  = if bool_decide (ArraySequence.__len__ (_streamlines t) = 0%N)
    then (Ok (Eager self), h)
    else (Raise LinAlgError,
          Heap (<[self := set_data (affines.apply_affine A
                             (ArraySequence._data (_streamlines t))) t]>
                  (eager h)) (lazy h)).
Proof.
  intros Hself Hcol. case_bool_decide as Hlen.
  - unfold apply_affine.
    rewrite (M_bind_Ok _ _ _ _ _ (load_eager_run h self t Hself)).
    by rewrite bool_decide_eq_true_2.
  - apply apply_affine_inv_raises; [done|done|].
    by apply linalg_inv_singular, (det_zero_column A j).
Qed.

(** X16. The lazy variants of the eager methods never return:
    [apply_affine(affine, lazy=True)] raises [TypeError] for every
    tractogram and affine, since it starts with
    [LazyTractogram.from_tractogram(self)], and so does
    [to_world(lazy=True)]; the store is left as it was. *)
Theorem X16_lazy_requests_TypeError (self : loc) (affine : np.mat4) (h : heap) :
  apply_affine self affine true h = (Raise TypeError, h)
  ∧ ∀ t : t, eager h !! self = Some t →
             to_world self true h = (Raise TypeError, h).
Proof.
  split; [reflexivity|]. intros t Hself. unfold to_world.
  by rewrite (M_bind_Ok _ _ _ _ _ (load_eager_run h self t Hself)).
Qed.
End eager_more.

Lemma dict_mapM_ext {V W} (f g : V → res W) (m : gmap hkey V) :
  (∀ k v, m !! k = Some v → f v = g v) →
  dict_mapM f m = dict_mapM g m.
Proof.
  intros Hfg. unfold dict_mapM. f_equal.
  assert (∀ kv, kv ∈ map_to_list m → f kv.2 = g kv.2) as H.
  { intros [k v] Hin%elem_of_map_to_list. by apply (Hfg k). }
  induction (map_to_list m) as [|kv l IH]; [done|].
  cbn. rewrite (H kv) by left. destruct (g kv.2); [|done]. cbn.
  rewrite IH; [done|]. intros kv' Hin. apply H. by right.
Qed.

Lemma py_index_negative {A} (l : list A) (i n : Z) :
  n = Z.of_nat (length l) → (0 ≤ i < n)%Z →
  py_index l (i - n) = py_index l i.
Proof.
  intros -> Hi. unfold py_index.
  destruct (Z.ltb_spec (i - Z.of_nat (length l)) 0); [|lia].
  destruct (Z.ltb_spec i 0); [lia|].
  by replace (i - Z.of_nat (length l) + Z.of_nat (length l))%Z with i by lia.
Qed.

Section eager_index.
Import TractogramState.
Context (DataPerStreamlineDict :
  ArraySequence.t np.point → option (gmap hkey nd) → res PerArrayDict.t).
Context (DataPerPointDict :
  ArraySequence.t np.point → option (gmap hkey (list nd)) →
  res (gmap hkey (ArraySequence.t nd))).

Local Abbreviation getitem :=
  (Tractogram.__getitem__ DataPerStreamlineDict DataPerPointDict).

(** X17. Slicing an eager tractogram raises [NameError], whatever the
    slice and whatever the two unbound names are taken to stand for: the
    slices of the streamlines and of the data are taken, and then
    [Tractogram(...)] is called.  The store is left as it was. *)
Theorem X17_getitem_slice_NameError (h : heap) (self : loc) (t : t)
    (start stop : option Z) :
  eager h !! self = Some t →
  getitem self (Slc start stop) h = (Raise NameError, h).
Proof.
  intros Hself. unfold Tractogram.__getitem__.
  rewrite (M_bind_Ok _ _ _ _ _ (load_eager_run h self t Hself)).
  rewrite (dict_mapM_total _
             (λ v, Seq (py_slice_Z (ndarray.items v) start stop))) by done.
  reflexivity.
Qed.

(** X18. An integer subscript outside [-len(t) <= idx < len(t)] raises
    [IndexError], from the subscript of the streamlines, which comes
    first; the store is left as it was. *)
Theorem X18_getitem_out_of_range (h : heap) (self : loc) (t : t) (idx : Z) :
  eager h !! self = Some t →
  (idx < - Z.of_N (ArraySequence.__len__ (_streamlines t))
   ∨ Z.of_N (ArraySequence.__len__ (_streamlines t)) ≤ idx)%Z →
  getitem self (Int idx) h = (Raise IndexError, h).
Proof.
  intros Hself Hidx. unfold Tractogram.__getitem__, Tractogram.item.
  apply M_bind_Raise.
  rewrite (M_bind_Ok _ _ _ _ _ (load_eager_run h self t Hself)).
  unfold ArraySequence.__getitem__, ArraySequence.__len__ in *.
  rewrite (py_index_out_of_range (ArraySequence._offsets (_streamlines t)) idx)
    by lia.
  reflexivity.
Qed.

(** X19. Negative subscripts count from the end: on a consistent
    tractogram with [n] streamlines, [t[i - n]] is [t[i]] for
    [0 <= i < n], and that is the [i]-th item of the iteration. *)
Theorem X19_getitem_negative (h : heap) (self : loc) (t : t) (i : Z) :
  eager h !! self = Some t →
  Tractogram.consistent t →
  (0 ≤ i < Z.of_N (ArraySequence.__len__ (_streamlines t)))%Z →
  getitem self (Int (i - Z.of_N (ArraySequence.__len__ (_streamlines t)))) h
  = getitem self (Int i) h
  ∧ ∃ item : TractogramItem.t,
      Tractogram.items_of t !! Z.to_nat i = Some item
      ∧ getitem self (Int i) h = (Ok (Tractogram.Item item), h).
Proof.
  intros Hself Hcons Hi.
  pose proof Hcons as (Hwithin & Hdps & Hdpp).
  set (n := Z.of_N (ArraySequence.__len__ (_streamlines t))) in *.
  assert (∀ (A : Type) (s : ArraySequence.t A),
            ArraySequence.within s →
            ArraySequence.__len__ s = ArraySequence.__len__ (_streamlines t) →
            ArraySequence.__getitem__ s (i - n)
            = ArraySequence.__getitem__ s i) as Hseq.
  { intros A s Hs Hlen. unfold ArraySequence.__getitem__.
    pose proof (within_lengths s Hs) as Hl.
    unfold ArraySequence.__len__ in Hlen.
    rewrite !(py_index_negative _ i n); [done| |done| |done];
      unfold n, ArraySequence.__len__; lia. }
  split.
  - enough (Tractogram.item self (i - n) h = Tractogram.item self i h) as Heq
      by (unfold Tractogram.__getitem__, mbind, M_bind; by rewrite Heq).
    unfold Tractogram.item.
    rewrite !(M_bind_Ok _ _ _ _ _ (load_eager_run h self t Hself)).
    rewrite (Hseq _ _ Hwithin eq_refl).
    rewrite (dict_mapM_ext
               (λ v, ObjArray <$> ndarray.__getitem__ v (Hashable (KInt (i - n))))
               (λ v, ObjArray <$> ndarray.__getitem__ v (Hashable (KInt i)))).
    2:{ intros k v Hk. cbn. rewrite (py_index_negative _ i n); [done| |done].
        specialize (Hdps k v Hk). unfold n. lia. }
    rewrite (dict_mapM_ext
               (λ s, (ObjArray ∘ Seq) <$> ArraySequence.__getitem__ s (i - n))
               (λ s, (ObjArray ∘ Seq) <$> ArraySequence.__getitem__ s i)).
    2:{ intros k s Hk. destruct (Hdpp k s Hk) as [Hs Hlen].
        by rewrite (Hseq _ s Hs Hlen). }
    done.
  - destruct (lookup_lt_is_Some_2 (ArraySequence.__iter__ (_streamlines t))
                (Z.to_nat i)) as [pts Hpts].
    { pose proof (iter_length _ Hwithin). unfold n in Hi. lia. }
    eexists. split.
    + unfold Tractogram.items_of. rewrite list_lookup_imap, Hpts. reflexivity.
    + unfold Tractogram.__getitem__.
      pose proof (item_of_consistent h self t (Z.to_nat i) pts Hself Hcons Hpts)
        as Hitem.
      rewrite nat_N_Z, Z2Nat.id in Hitem by lia.
      by rewrite (M_bind_Ok _ _ _ _ _ Hitem).
Qed.

(** X20. Iterating a consistent eager tractogram yields [len(t)] items
    and leaves the store as it was; the [i]-th item is [t[i]], and the
    streamlines of the items are the streamlines of the tractogram, in
    order. *)
Theorem X20_iter_agrees_with_getitem (h : heap) (self : loc) (t : t) :
  eager h !! self = Some t →
  Tractogram.consistent t →
  Tractogram.__iter__ self h = (Ok (Tractogram.items_of t), h)
  ∧ Tractogram.__len__ self h
    = (Ok (N.of_nat (length (Tractogram.items_of t))), h)
  ∧ (∀ (i : nat) (item : TractogramItem.t),
       Tractogram.items_of t !! i = Some item →
       getitem self (Int (Z.of_nat i)) h = (Ok (Tractogram.Item item), h))
  ∧ TractogramItem.streamline <$> Tractogram.items_of t
    = ArraySequence.__iter__ (_streamlines t).
Proof.
  intros Hself Hcons. split_and!.
  - by apply eager_iter.
  - unfold Tractogram.__len__.
    rewrite (M_bind_Ok _ _ _ _ _ (load_eager_run h self t Hself)).
    unfold Tractogram.items_of. rewrite length_imap, iter_length; [done|].
    apply Hcons.
  - intros i item Hi. unfold Tractogram.items_of in Hi.
    rewrite list_lookup_imap in Hi.
    destruct (ArraySequence.__iter__ (_streamlines t) !! i) as [pts|] eqn:Hpts;
      [|done].
    cbn in Hi. injection Hi as <-.
    pose proof (item_of_consistent h self t i pts Hself Hcons Hpts) as Hitem.
    rewrite nat_N_Z in Hitem. unfold Tractogram.__getitem__.
    by rewrite (M_bind_Ok _ _ _ _ _ Hitem).
  - unfold Tractogram.items_of.
    apply list_eq. intros i. rewrite list_lookup_fmap, list_lookup_imap.
    by destruct (ArraySequence.__iter__ (_streamlines t) !! i).
Qed.
End eager_index.

(** ** The lazy tractogram *)

Section lazy_tractogram.
Import LazyTractogramState LazyTractogramCreate.

Lemma lazy_copy_TypeError (self : loc) (t : t) (h : heap) :
  lazy h !! self = Some t →
  LazyTractogram.copy self h = (Raise TypeError, h).
Proof.
  intros Hself. unfold LazyTractogram.copy.
  rewrite (M_bind_Ok _ _ _ _ _ (load_lazy_run h self t Hself)).
  apply M_bind_Raise, LazyTractogram_init_TypeError.
  by destruct (_streamlines t).
Qed.

(** X21. No [LazyTractogram] can be made: the constructor raises
    [TypeError] whatever its arguments (its setters build
    [LazyDict(self, value)], and a streamlines argument that is not
    callable is rejected before that), and so do [create_from], whether
    or not its argument is callable, and [copy()].  None of them changes
    the store. *)
Theorem X21_no_lazy_tractogram_is_made (h : heap) :
  (∀ (streamlines : pyval (list np.point))
     (data_per_streamline data_per_point : LazyDict.arg)
     (affine_to_rasmm : np.mat4),
     LazyTractogram.__init__ streamlines data_per_streamline data_per_point
       affine_to_rasmm h = (Raise TypeError, h))
  ∧ (∀ data_func : pyval TractogramItem.t,
       create_from data_func h = (Raise TypeError, h))
  ∧ (∀ (self : loc) (t : t),
       lazy h !! self = Some t →
       LazyTractogram.copy self h = (Raise TypeError, h)).
Proof.
  split_and!.
  - by intros [].
  - by intros [].
  - intros self t. apply lazy_copy_TypeError.
Qed.

(** X22. [LazyTractogram.to_world]: with [lazy=False] it raises
    [ValueError], and with [lazy=True] it raises the [TypeError] of the
    copy it starts with; the store is left as it was. *)
Theorem X22_lazy_to_world (h : heap) (self : loc) (t : t) :
  lazy h !! self = Some t →
  LazyTractogram.to_world self false h = (Raise ValueError, h)
  ∧ LazyTractogram.to_world self true h = (Raise TypeError, h).
Proof.
  intros Hself. unfold LazyTractogram.to_world.
  rewrite !(M_bind_Ok _ _ _ _ _ (load_lazy_run h self t Hself)).
  split; [done|]. unfold LazyTractogram.apply_affine. cbn [negb].
  by apply M_bind_Raise, (lazy_copy_TypeError self t).
Qed.

Lemma setattr_run (h : heap) (self : loc) (lt : t) (set : t → t) :
  lazy h !! self = Some lt →
  LazyTractogram.setattr self set h
  = (Ok (), Heap (eager h) (<[self := set lt]> (lazy h))).
Proof.
  intros Hself. unfold LazyTractogram.setattr.
  by rewrite (M_bind_Ok _ _ _ _ _ (load_lazy_run h self lt Hself)).
Qed.

Lemma lazy_iter_run (h : heap) (self : loc) (lt : t)
    (items : list TractogramItem.t) :
  lazy h !! self = Some lt →
  LazyTractogram.data lt (eager h) = Ok items →
  LazyTractogram.__iter__ self h
  = (Ok items,
     Heap (eager h)
          (<[self := LazyTractogram.set_nb_streamlines
                       (Some (N.of_nat (length items))) lt]> (lazy h))).
Proof.
  intros Hself Hdata. unfold LazyTractogram.__iter__.
  rewrite (M_bind_Ok _ _ _ _ _ (load_lazy_run h self lt Hself)).
  erewrite M_bind_Ok; [|by rewrite Hdata].
  by rewrite (M_bind_Ok _ _ _ _ _ (setattr_run h self lt _ Hself)).
Qed.

Lemma lazy_len_known (h : heap) (self : loc) (t : t) (n : N) :
  lazy h !! self = Some t →
  _nb_streamlines t = Some n →
  LazyTractogram.__len__ self h = (Ok n, h).
Proof.
  intros Hself Hn. unfold LazyTractogram.__len__.
  rewrite (M_bind_Ok _ _ _ _ _ (load_lazy_run h self t Hself)).
  by rewrite Hn.
Qed.

(** X23. [len] of a lazy tractogram: when the number of streamlines is
    recorded it is returned and no producer is called; when it is not,
    the streamlines are produced and counted and the count is recorded on
    the tractogram, and an exception of the producer leaves the store as
    it was.  A [len] that has returned has changed nothing of the store
    but the number recorded on the tractogram, which is the number it
    returned, and gives the same number when asked again, without
    changing the store. *)
Theorem X23_lazy_len (h : heap) (self : loc) (t : t) :
  lazy h !! self = Some t →
  (∀ n : N, _nb_streamlines t = Some n →
            LazyTractogram.__len__ self h = (Ok n, h))
  ∧ (∀ s : list (list np.point),
       _nb_streamlines t = None →
       LazyTractogram.streamlines t (eager h) = Ok s →
       LazyTractogram.__len__ self h
       = (Ok (N.of_nat (length s)),
          Heap (eager h)
               (<[self := LazyTractogram.set_nb_streamlines
                            (Some (N.of_nat (length s))) t]> (lazy h))))
  ∧ (∀ e : exn,
       _nb_streamlines t = None →
       LazyTractogram.streamlines t (eager h) = Raise e →
       LazyTractogram.__len__ self h = (Raise e, h))
  ∧ (∀ (n : N) (h' : heap),
       LazyTractogram.__len__ self h = (Ok n, h') →
       h' = Heap (eager h)
                 (<[self := LazyTractogram.set_nb_streamlines (Some n) t]>
                    (lazy h))
       ∧ LazyTractogram.__len__ self h' = (Ok n, h')).
Proof.
  intros Hself.
  assert (∀ s : list (list np.point),
            _nb_streamlines t = None →
            LazyTractogram.streamlines t (eager h) = Ok s →
            LazyTractogram.__len__ self h
            = (Ok (N.of_nat (length s)),
               Heap (eager h)
                    (<[self := LazyTractogram.set_nb_streamlines
                                 (Some (N.of_nat (length s))) t]> (lazy h))))
    as Hcount.
  { intros s Hn Hs. unfold LazyTractogram.__len__.
    rewrite (M_bind_Ok _ _ _ _ _ (load_lazy_run h self t Hself)), Hn.
    erewrite M_bind_Ok; [|by rewrite Hs].
    by rewrite (M_bind_Ok _ _ _ _ _ (setattr_run h self t _ Hself)). }
  assert (∀ e : exn,
            _nb_streamlines t = None →
            LazyTractogram.streamlines t (eager h) = Raise e →
            LazyTractogram.__len__ self h = (Raise e, h)) as Hraise.
  { intros e Hn Hs. unfold LazyTractogram.__len__.
    rewrite (M_bind_Ok _ _ _ _ _ (load_lazy_run h self t Hself)), Hn.
    apply M_bind_Raise. by rewrite Hs. }
  split_and!; [intros n Hn; by apply (lazy_len_known h self t)|done|done|].
  intros n h' Hrun. destruct (_nb_streamlines t) as [m|] eqn:Hn.
  - rewrite (lazy_len_known h self t m Hself Hn) in Hrun.
    injection Hrun as <- <-. split; [|by apply (lazy_len_known h self t)].
    assert (LazyTractogram.set_nb_streamlines (Some m) t = t) as ->.
    { destruct t. cbn in Hn. by subst. }
    rewrite (insert_id (lazy h) self t Hself). by destruct h.
  - destruct (LazyTractogram.streamlines t (eager h)) as [s|e] eqn:Hs.
    + rewrite (Hcount s eq_refl eq_refl) in Hrun. injection Hrun as <- <-.
      split; [done|].
      eapply lazy_len_known; [cbn; apply lookup_insert_eq|done].
    + by rewrite (Hraise e eq_refl eq_refl) in Hrun.
Qed.

(** X24. Iterating a lazy tractogram to the end yields the items of its
    [data] and then records their number, replacing whatever number was
    recorded before: [len] afterwards is the number of items that were
    yielded, and the eager tractograms of the store are untouched.  When
    [data] raises, so does the iteration, and nothing is recorded. *)
Theorem X24_lazy_iter_records_count (h : heap) (self : loc) (t : t) :
  lazy h !! self = Some t →
  (∀ items : list TractogramItem.t,
     LazyTractogram.data t (eager h) = Ok items →
     ∃ h' : heap,
       LazyTractogram.__iter__ self h = (Ok items, h')
       ∧ h' = Heap (eager h)
                   (<[self := LazyTractogram.set_nb_streamlines
                                (Some (N.of_nat (length items))) t]> (lazy h))
       ∧ LazyTractogram.__len__ self h'
         = (Ok (N.of_nat (length items)), h'))
  ∧ (∀ e : exn,
       LazyTractogram.data t (eager h) = Raise e →
       LazyTractogram.__iter__ self h = (Raise e, h)).
Proof.
  intros Hself. split.
  - intros items Hdata. eexists. split_and!; [|reflexivity|].
    + by apply lazy_iter_run.
    + eapply lazy_len_known; [cbn; apply lookup_insert_eq|done].
  - intros e Hdata. unfold LazyTractogram.__iter__.
    rewrite (M_bind_Ok _ _ _ _ _ (load_lazy_run h self t Hself)).
    apply M_bind_Raise. by rewrite Hdata.
Qed.

(** X25. A lazy tractogram without producers (no streamlines producer, no
    [_data], empty dictionaries) is empty, whatever its two affines:
    iterating it yields nothing and records the length 0. *)
Theorem X25_lazy_without_producers (h : heap) (self : loc) (t : t) :
  lazy h !! self = Some t →
  _streamlines t = None →
  _data t = None →
  LazyDict.store (_data_per_streamline t) = ∅ →
  LazyDict.store (_data_per_point t) = ∅ →
  LazyTractogram.streamlines t (eager h) = Ok []
  ∧ ∃ h' : heap,
      LazyTractogram.__iter__ self h = (Ok [], h')
      ∧ LazyTractogram.__len__ self h' = (Ok 0%N, h').
Proof.
  intros Hself Hs Hd H1 H2.
  assert (LazyTractogram.streamlines t (eager h) = Ok []) as Hstream.
  { unfold LazyTractogram.streamlines. rewrite Hs, Hd.
    cbn [mbind res_bind]. by destruct (negb _). }
  split; [done|].
  assert (LazyTractogram.data t (eager h) = Ok []) as Hdata.
  { unfold LazyTractogram.data.
    by rewrite Hd, H1, H2, !dict_mapM_empty, Hstream. }
  eexists. split; [by apply lazy_iter_run|].
  eapply lazy_len_known; [cbn; apply lookup_insert_eq|done].
Qed.
End lazy_tractogram.

(** ** A lazy view with a pending affine *)

Section pending_affine.
Import TractogramState LazyTractogramCreate.

Lemma iter_transformed (A Ainv : np.mat4) (t : t) :
  ArraySequence.__iter__ (_streamlines (EagerTractogram.transformed A Ainv t))
  = affines.apply_affine A <$> ArraySequence.__iter__ (_streamlines t).
Proof.
  unfold ArraySequence.__iter__. rewrite <-list_fmap_compose.
  apply list_fmap_ext. intros i [o l] _. cbn.
  unfold ArraySequence.view, affines.apply_affine. cbn. apply py_slice_fmap.
Qed.

Lemma consistent_transformed (A Ainv : np.mat4) (t : t) :
  Tractogram.consistent t →
  Tractogram.consistent (EagerTractogram.transformed A Ainv t).
Proof.
  intros (Hwithin & Hdps & Hdpp). split_and!; [|done|done].
  unfold ArraySequence.within in *. cbn.
  unfold affines.apply_affine. by rewrite length_fmap.
Qed.

Lemma items_of_transformed (A Ainv : np.mat4) (t : t) :
  Tractogram.items_of (EagerTractogram.transformed A Ainv t)
  = transformed_item A <$> Tractogram.items_of t.
Proof.
  unfold Tractogram.items_of. rewrite iter_transformed, imap_fmap, fmap_imap.
  by apply imap_ext.
Qed.

(** The [data] of a lazy tractogram that holds the producers of a
    consistent tractogram: its items, with the pending affine applied to
    the streamlines unless it is close to the identity. *)
Lemma lazy_data_pending (h : eager_heap) (tractogram : loc) (t : t)
    (lt : LazyTractogramState.t) :
  h !! tractogram = Some t →
  Tractogram.consistent t →
  producers_of lt tractogram t →
  LazyTractogram.data lt h
  = Ok (if np.allclose (LazyTractogramState._affine_to_apply lt) np.eye4
        then Tractogram.items_of t
        else transformed_item (LazyTractogramState._affine_to_apply lt)
               <$> Tractogram.items_of t).
Proof.
  intros Ht (Hwithin & Hdps & Hdpp) (Hsl & Hstore1 & Hstore2 & Hdata).
  assert (dict_mapM (λ f, call f h)
            (LazyDict.store (LazyTractogramState._data_per_streamline lt))
          = Ok ((λ v, ObjArray <$> ndarray.items v)
                  <$> PerArrayDict.store (_data_per_streamline t))) as H1.
  { apply dict_mapM_Ok. intros k.
    rewrite Hstore1, map_lookup_imap, lookup_fmap.
    destruct (PerArrayDict.store (_data_per_streamline t) !! k) as [v|] eqn:Hk;
      [|done].
    cbn. eexists. split; [|done].
    by apply (call_lambda_data_per_streamline h tractogram t). }
  assert (dict_mapM (λ f, call f h)
            (LazyDict.store (LazyTractogramState._data_per_point lt))
          = Ok ((λ s, (ObjArray ∘ Seq) <$> ArraySequence.__iter__ s)
                  <$> _data_per_point t)) as H2.
  { apply dict_mapM_Ok. intros k.
    rewrite Hstore2, map_lookup_imap, lookup_fmap.
    destruct (_data_per_point t !! k) as [s|] eqn:Hk; [|done].
    cbn. eexists. split; [|done].
    by apply (call_lambda_data_per_point h tractogram t). }
  set (P := LazyTractogramState._affine_to_apply lt).
  assert (LazyTractogram.streamlines lt h
          = Ok (if np.allclose P np.eye4
                then ArraySequence.__iter__ (_streamlines t)
                else affines.apply_affine P
                       <$> ArraySequence.__iter__ (_streamlines t))) as H3.
  { unfold LazyTractogram.streamlines. rewrite Hsl. fold P.
    unfold LazyTractogram.lambda_streamlines. rewrite Ht.
    cbn [mbind res_bind]. by destruct (np.allclose P np.eye4). }
  assert (∀ l : list (list np.point),
            length l = length (ArraySequence.__iter__ (_streamlines t)) →
            LazyTractogram.gen_data l
              ((λ v, ObjArray <$> ndarray.items v)
                 <$> PerArrayDict.store (_data_per_streamline t))
              ((λ s, (ObjArray ∘ Seq) <$> ArraySequence.__iter__ s)
                 <$> _data_per_point t)
            = imap (λ i pts,
                 TractogramItem.Build pts
                   (omap (λ v, ObjArray <$> ndarray.items v !! i)
                      (PerArrayDict.store (_data_per_streamline t)))
                   (omap (λ s, (ObjArray ∘ Seq)
                                 <$> ArraySequence.__iter__ s !! i)
                      (_data_per_point t))) l) as Hgen.
  { intros l Hl. rewrite gen_data_imap.
    - apply imap_ext. intros i pts _. cbn.
      f_equal; apply map_eq; intros k; rewrite !lookup_omap, lookup_fmap.
      + destruct (PerArrayDict.store (_data_per_streamline t) !! k); [|done].
        cbn. apply list_lookup_fmap.
      + destruct (_data_per_point t !! k); [|done].
        cbn. apply list_lookup_fmap.
    - intros k x. rewrite lookup_fmap.
      destruct (PerArrayDict.store (_data_per_streamline t) !! k) as [v|]
        eqn:Hk; [|done].
      intros [= <-]. rewrite length_fmap.
      pose proof (Hdps k v Hk). pose proof (iter_length _ Hwithin). lia.
    - intros k x. rewrite lookup_fmap.
      destruct (_data_per_point t !! k) as [s|] eqn:Hk; [|done].
      intros [= <-]. rewrite length_fmap.
      destruct (Hdpp k s Hk) as [Hs Hlen].
      pose proof (iter_length _ Hs). pose proof (iter_length _ Hwithin).
      lia. }
  unfold LazyTractogram.data. rewrite Hdata, H1. cbn [mbind res_bind].
  rewrite H2. cbn [mbind res_bind]. rewrite H3. cbn [mbind res_bind mret res_ret].
  f_equal. destruct (np.allclose P np.eye4).
  - by rewrite Hgen.
  - rewrite Hgen by (by rewrite length_fmap).
    unfold Tractogram.items_of. rewrite imap_fmap, fmap_imap.
    by apply imap_ext.
Qed.

(** X26. The lazy and the eager transformation agree.  Take a lazy
    tractogram that holds the producers [from_tractogram] installs for a
    consistent eager tractogram, with a pending affine [A] that is
    invertible and not close to the identity.  Iterating it yields the
    items of the eager tractogram with [A] applied to every streamline
    and the data as they are: the same items, in the same order, that
    iterating the eager tractogram yields after [apply_affine(A)] in
    place. *)
Theorem X26_lazy_affine_as_eager (h : heap) (self tractogram : loc)
    (t : t) (lt : LazyTractogramState.t) (A Ainv : np.mat4) :
  lazy h !! self = Some lt →
  eager h !! tractogram = Some t →
  Tractogram.consistent t →
  producers_of lt tractogram t →
  LazyTractogramState._affine_to_apply lt = A →
  np.allclose A np.eye4 = false →
  np.dot A Ainv = np.eye4 →
  ∃ (items : list TractogramItem.t) (h1 h2 : heap),
    LazyTractogram.__iter__ self h = (Ok items, h1)
    ∧ (EagerTractogram.apply_affine tractogram A false;;
       Tractogram.__iter__ tractogram) h = (Ok items, h2)
    ∧ items = transformed_item A <$> Tractogram.items_of t
    ∧ N.of_nat (length items) = ArraySequence.__len__ (_streamlines t).
Proof.
  intros Hself Ht Hcons Hprod HA Hclose Hinv.
  exists (transformed_item A <$> Tractogram.items_of t). eexists.
  exists (if bool_decide (ArraySequence.__len__ (_streamlines t) = 0%N)
          then h
          else Heap (<[tractogram := EagerTractogram.transformed A Ainv t]>
                       (eager h)) (lazy h)).
  split_and!; [| |done|].
  - apply lazy_iter_run; [done|].
    rewrite (lazy_data_pending (eager h) tractogram t lt Ht Hcons Hprod).
    by rewrite HA, Hclose.
  - rewrite (M_bind_Ok _ _ _ _ _
               (apply_affine_in_place h tractogram t A Ainv Ht Hinv)).
    case_bool_decide as Hlen.
    + rewrite (eager_iter h tractogram t Ht Hcons).
      assert (Tractogram.items_of t = []) as Hnil.
      { apply length_zero_iff_nil. unfold Tractogram.items_of.
        rewrite length_imap. pose proof (iter_length _ (proj1 Hcons)). lia. }
      rewrite Hnil.
      reflexivity.
    + erewrite eager_iter;
        [|cbn; apply lookup_insert_eq|by apply consistent_transformed].
      rewrite items_of_transformed. reflexivity.
  - rewrite length_fmap. unfold Tractogram.items_of. rewrite length_imap.
    apply iter_length, Hcons.
Qed.

(** X27. A pending affine within numpy's tolerance of the identity is not
    applied: a lazy tractogram that holds the producers of a consistent
    eager tractogram, with such a pending affine, iterates exactly as the
    eager tractogram does, the same items in the same order, even when the
    pending affine is not the identity. *)
Theorem X27_lazy_affine_close_to_identity (h : heap)
    (self tractogram : loc) (t : t) (lt : LazyTractogramState.t) :
  lazy h !! self = Some lt →
  eager h !! tractogram = Some t →
  Tractogram.consistent t →
  producers_of lt tractogram t →
  np.allclose (LazyTractogramState._affine_to_apply lt) np.eye4 = true →
  ∃ (items : list TractogramItem.t) (h' : heap),
    LazyTractogram.__iter__ self h = (Ok items, h')
    ∧ Tractogram.__iter__ tractogram h = (Ok items, h)
    ∧ TractogramItem.streamline <$> items
      = ArraySequence.__iter__ (_streamlines t).
Proof.
  intros Hself Ht Hcons Hprod Hclose.
  exists (Tractogram.items_of t). eexists. split_and!.
  - apply lazy_iter_run; [done|].
    rewrite (lazy_data_pending (eager h) tractogram t lt Ht Hcons Hprod).
    by rewrite Hclose.
  - by apply eager_iter.
  - unfold Tractogram.items_of.
    apply list_eq. intros i. rewrite list_lookup_fmap, list_lookup_imap.
    by destruct (ArraySequence.__iter__ (_streamlines t) !! i).
Qed.

(** X28. The in-place transformation keeps the tractogram consistent: on
    a consistent tractogram, [apply_affine(A, lazy=False)] for an
    invertible [A] leaves a consistent tractogram with the same number of
    streamlines, each with as many points as before, and with the
    per-streamline and per-point data untouched. *)
Theorem X28_apply_affine_keeps_consistent (h : heap) (self : loc) (t : t)
    (A Ainv : np.mat4) :
  eager h !! self = Some t →
  Tractogram.consistent t →
  np.dot A Ainv = np.eye4 →
  ∃ (h' : heap) (t' : TractogramState.t),
    EagerTractogram.apply_affine self A false h = (Ok (Eager self), h')
    ∧ eager h' !! self = Some t'
    ∧ Tractogram.consistent t'
    ∧ ArraySequence.__len__ (_streamlines t')
      = ArraySequence.__len__ (_streamlines t)
    ∧ length <$> ArraySequence.__iter__ (_streamlines t')
      = length <$> ArraySequence.__iter__ (_streamlines t)
    ∧ _data_per_streamline t' = _data_per_streamline t
    ∧ _data_per_point t' = _data_per_point t.
Proof.
  intros Hself Hcons HA.
  rewrite (apply_affine_in_place h self t A Ainv Hself HA).
  case_bool_decide as Hlen.
  - by exists h, t.
  - eexists _, (EagerTractogram.transformed A Ainv t).
    split_and!; [done|cbn; apply lookup_insert_eq
                |by apply consistent_transformed|done| |done|done].
    rewrite iter_transformed, <-list_fmap_compose.
    apply list_fmap_ext. intros i pts _. cbn.
    unfold affines.apply_affine. by rewrite length_fmap.
Qed.
End pending_affine.

(** ** A lazy tractogram driven by [_data] *)

Section data_driven.
Import LazyTractogramState.

(** X29. On a lazy tractogram whose [_data] producer is set (as
    [create_from] sets it), iteration yields exactly the items of that
    producer: the producers of the two dictionaries are not called and
    the pending affine is not applied to the items.  The [streamlines]
    property of the same tractogram, when no streamlines producer is set,
    does apply the pending affine to the streamlines of those items
    (unless it is close to the identity): the streamlines read through
    the property are the transformed ones, those read through the items
    are not. *)
Theorem X29_data_ignores_pending_affine (h : heap) (self : loc) (lt : t)
    (data_func : callable TractogramItem.t)
    (items : list TractogramItem.t) :
  lazy h !! self = Some lt →
  _data lt = Some data_func →
  data_func (eager h) = Ok items →
  LazyTractogram.data lt (eager h) = Ok items
  ∧ (∃ h' : heap, LazyTractogram.__iter__ self h = (Ok items, h'))
  ∧ (_streamlines lt = None →
     LazyTractogram.streamlines lt (eager h)
     = Ok (if np.allclose (_affine_to_apply lt) np.eye4
           then TractogramItem.streamline <$> items
           else affines.apply_affine (_affine_to_apply lt)
                  <$> (TractogramItem.streamline <$> items))).
Proof.
  intros Hself Hdata Hitems.
  assert (LazyTractogram.data lt (eager h) = Ok items) as Hrun
    by (unfold LazyTractogram.data; by rewrite Hdata).
  split_and!; [done|eexists; by apply lazy_iter_run|].
  intros Hs. unfold LazyTractogram.streamlines.
  rewrite Hs, Hdata, Hitems. cbn [mbind res_bind mret res_ret].
  by destruct (np.allclose (_affine_to_apply lt) np.eye4).
Qed.
End data_driven.

(** ** The further properties on concrete inputs *)

Lemma scalars_valid : PerArrayDictChecks.valid Examples.scalars.
Proof.
  intros k v Hk. cbn in Hk. apply lookup_singleton_Some in Hk as [_ <-].
  split; [done|]. by intros n [= <-].
Defined.

Lemma scalars_tables (k : hkey) (v : ndarray.t) :
  PerArrayDict.store Examples.scalars !! k = Some v →
  length (ndarray.items v) = 3%nat ∧ ∃ width, PerArrayDictChecks.table width v.
Proof.
  intros Hk. cbn in Hk. apply lookup_singleton_Some in Hk as [_ <-].
  split; [done|]. exists 1%nat. unfold PerArrayDictChecks.table. cbn.
  repeat constructor; by eexists [_].
Defined.

Lemma scalars_not_empty : PerArrayDict.store Examples.scalars ≠ ∅.
Proof.
  intros H. apply (f_equal (λ m, m !! KStr "scalars")) in H.
  vm_compute in H. discriminate H.
Defined.

Lemma pending_view_producers :
  LazyTractogramCreate.producers_of Inputs.pending_view 1%positive
    Examples.with_data.
Proof. split_and!; reflexivity. Defined.

Lemma tiny_view_producers :
  LazyTractogramCreate.producers_of Inputs.tiny_view 1%positive
    Examples.with_data.
Proof. split_and!; reflexivity. Defined.

Lemma tiny_not_identity : Inputs.tiny ≠ np.eye4.
Proof.
  intros H. apply (f_equal (λ A, np.mget A np.I0 np.I3)) in H.
  apply (f_equal this) in H. vm_compute in H. discriminate H.
Defined.

Lemma singular_column (i : np.ix4) :
  np.mget Examples.singular i np.I2 = 0%Qc.
Proof. destruct i; reflexivity. Defined.

Lemma X1_witness :
  PerArrayDictChecks.valid Inputs.two_columns
  ∧ PerArrayDict.n_elements Inputs.two_columns
    = PerArrayDict.n_elements Examples.scalars
  ∧ (∀ e, Ok () = Raise e → Inputs.two_columns = Examples.scalars)
  ∧ (Ok () = Ok () →
     ∃ (k : hkey) (a : ndarray.t),
       Hashable (KStr "more") = Hashable k
       ∧ PerArrayDict.store Inputs.two_columns
         = <[k := a]> (PerArrayDict.store Examples.scalars)).
Proof.
  apply (X1_setitem_keeps_valid Examples.scalars Inputs.two_columns
           (Hashable (KStr "more")) (Inputs.nums [4; 5; 6]%Z) (Ok ())).
  - exact scalars_valid.
  - reflexivity.
Defined.

Lemma X2_witness :
  (PerArrayDict.n_elements Examples.scalars = Some 3%N
   ∧ PerArrayDictChecks.valid Examples.scalars
   ∧ dom (PerArrayDict.store Examples.scalars) = dom Inputs.scalars_mapping
   ∧ ∀ k v, Inputs.scalars_mapping !! k = Some v →
       ∃ a, PerArrayDict.store Examples.scalars !! k = Some a
            ∧ PerArrayDict.__setitem__ (Hashable k) v
                (PerArrayDict.Build (Some 3%N) ∅)
              = (Ok (), PerArrayDict.Build (Some 3%N) (<[k := a]> ∅)))
  ∧ ∃ d, PerArrayDict.__init__ (Some 3%N)
           [ArgMapping false Inputs.scalars_mapping] = Ok d.
Proof.
  pose proof (X2_init_validates_every_item (Some 3%N) Inputs.scalars_mapping)
    as (_ & _ & Hok & _ & Hall & _).
  split.
  - apply Hok. vm_compute. reflexivity.
  - apply Hall. intros k v Hk. unfold Inputs.scalars_mapping in Hk.
    apply lookup_singleton_Some in Hk as [<- <-].
    exists (Examples.column [1; 2; 3]%Z). reflexivity.
Defined.

Lemma X3_witness :
  (∀ key : pykey,
     PerArrayDict.__getitem__ (PerArrayDict.Build (Some 3%N) ∅) key
     = Ok (SliceableDataDict.Sliced (PerArrayDict.Build None ∅)))
  ∧ PerArrayDict.__getitem__ Examples.scalars (Hashable (KStr "missing"))
    = Raise IndexError.
Proof.
  split.
  - apply (proj1 (X3_missing_key (PerArrayDict.Build (Some 3%N) ∅))).
    reflexivity.
  - apply (proj2 (X3_missing_key Examples.scalars)).
    + exact scalars_not_empty.
    + reflexivity.
Defined.

Lemma X4_witness :
  ∃ d' : PerArrayDict.t,
    PerArrayDict.__getitem__ Examples.scalars (Slice (Some 0%Z) (Some 2%Z))
    = Ok (SliceableDataDict.Sliced d')
    ∧ PerArrayDict.n_elements d' = None
    ∧ PerArrayDictChecks.valid d'
    ∧ ∀ k, ndarray.items <$> PerArrayDict.store d' !! k
           = (λ v, py_slice_Z (ndarray.items v) (Some 0%Z) (Some 2%Z))
               <$> PerArrayDict.store Examples.scalars !! k.
Proof.
  apply (X4_getitem_slice Examples.scalars (Some 0%Z) (Some 2%Z)).
  intros k v Hk. exact (proj2 (scalars_tables k v Hk)).
Defined.

Lemma X5_witness :
  (∃ d' : PerArrayDict.t,
     PerArrayDict.__getitem__ Examples.scalars (Hashable (KInt 1))
     = Ok (SliceableDataDict.Sliced d')
     ∧ PerArrayDict.n_elements d' = None
     ∧ dom (PerArrayDict.store d') = dom (PerArrayDict.store Examples.scalars)
     ∧ ∀ k v, PerArrayDict.store Examples.scalars !! k = Some v →
         ∃ (row : list Qc) (a : ndarray.t),
           py_index (ndarray.items v) 1 = Ok (Seq (Num <$> row))
           ∧ PerArrayDict.store d' !! k = Some a
           ∧ ndarray.shape a = [N.of_nat (length row); 1%N]
           ∧ ndarray.items a = (λ x, Seq [Num x]) <$> row)
  ∧ PerArrayDict.__getitem__ Examples.scalars (Hashable (KInt 3))
    = Raise IndexError.
Proof.
  split.
  - apply (proj1 (X5_getitem_integer Examples.scalars 3 1
                    scalars_tables eq_refl)).
    lia.
  - apply (proj2 (X5_getitem_integer Examples.scalars 3 3
                    scalars_tables eq_refl)).
    + lia.
    + exact scalars_not_empty.
Defined.

Lemma X6_witness :
  (∃ d' : PerArrayDict.t,
     StoreMethods.__delitem__ (Hashable (KStr "scalars")) Examples.scalars
     = (Ok (), d')
     ∧ PerArrayDict.n_elements d' = PerArrayDict.n_elements Examples.scalars
     ∧ PerArrayDict.store d' !! KStr "scalars" = None
     ∧ (∀ k', k' ≠ KStr "scalars" →
              PerArrayDict.store d' !! k'
              = PerArrayDict.store Examples.scalars !! k')
     ∧ (PerArrayDict.__len__ d' + 1 = PerArrayDict.__len__ Examples.scalars)%N)
  ∧ StoreMethods.__delitem__ (Hashable (KStr "missing")) Examples.scalars
    = (Raise KeyError, Examples.scalars)
  ∧ (KStr "more" ∈ StoreMethods.__iter__ Inputs.two_columns
     ∧ (PerArrayDict.__len__ Inputs.two_columns
        = PerArrayDict.__len__ Examples.scalars + 1)%N
     ∧ StoreMethods.__delitem__ (Hashable (KStr "more")) Inputs.two_columns
       = (Ok (), Examples.scalars)).
Proof.
  pose proof (X6_delitem_iter_len Examples.scalars)
    as (Hdel & Hmissing & _ & _ & _ & _ & Hset).
  split; [|split].
  - apply (Hdel (KStr "scalars") (Examples.column [1; 2; 3]%Z)). reflexivity.
  - apply Hmissing. reflexivity.
  - apply (Hset (KStr "more") (Inputs.nums [4; 5; 6]%Z)); reflexivity.
Defined.

Lemma X7_witness :
  LazyDict.__getitem__ Inputs.lazy_dict (Hashable (KStr "missing")) ∅
  = Raise KeyError.
Proof.
  apply (proj1 (proj2 (proj2 (X7_LazyDict_calls_producers Inputs.lazy_dict)))).
  reflexivity.
Defined.

Lemma X8_witness :
  LazyDict.__init__ [LazyDict.ArgLazyDict Inputs.lazy_dict]
  = Ok Inputs.lazy_dict
  ∧ LazyDict.__init__ [LazyDict.ArgLazyDict Inputs.int_keyed_lazy_dict]
    = Raise TypeError.
Proof.
  split.
  - apply (proj1 (proj2 (proj2 (X8_LazyDict_init Inputs.lazy_dict)))).
    intros k [v Hk]. unfold Inputs.lazy_dict in Hk. cbn in Hk.
    apply lookup_singleton_Some in Hk as [<- _]. by eexists.
  - apply (proj2 (proj2 (proj2 (X8_LazyDict_init Inputs.int_keyed_lazy_dict)))
             0%Z).
    by eexists.
Defined.

Lemma X9_witness :
  is_lazy_dict Python2 (PerArrayDictObject (PerArrayDict.Build None ∅))
  = Raise IndexError
  ∧ is_lazy_dict Python3 (LazyDictObject Inputs.lazy_dict) = Raise TypeError
  ∧ is_lazy_dict Python2 (PerArrayDictObject Examples.scalars) = Ok false
  ∧ is_lazy_dict Python2 (LazyDictObject Inputs.lazy_dict) = Ok true.
Proof.
  pose proof X9_is_lazy_dict as (_ & Hempty & Hpy3 & Harrays & Hlazy).
  split_and!.
  - apply (Hempty Python2); reflexivity.
  - apply Hpy3. reflexivity.
  - apply Harrays. exact scalars_not_empty.
  - apply Hlazy.
    + intros H. apply (f_equal (λ m, m !! KStr "scalars")) in H.
      vm_compute in H. discriminate H.
    + intros k f Hk. unfold Inputs.lazy_dict in Hk. cbn in Hk.
      apply lookup_singleton_Some in Hk as [_ <-]. by eexists.
Defined.

Lemma X10_witness :
  (EagerTractogram.apply_affine 1%positive Examples.move false;;
   EagerTractogram.apply_affine 1%positive Examples.zoom false)
    (Examples.store_of (Examples.tractogram np.eye4))
  = EagerTractogram.apply_affine 1%positive
      (np.dot Examples.zoom Examples.move) false
      (Examples.store_of (Examples.tractogram np.eye4))
  ∧ ∃ h', EagerTractogram.apply_affine 1%positive
            (np.dot Examples.zoom Examples.move) false
            (Examples.store_of (Examples.tractogram np.eye4))
          = (Ok (Eager 1%positive), h').
Proof.
  apply (X10_apply_affine_twice
           (Examples.store_of (Examples.tractogram np.eye4)) 1%positive
           (Examples.tractogram np.eye4) Examples.move Examples.zoom
           Examples.move_back Examples.zoom_back).
  - reflexivity.
  - reflexivity.
  - exact move_inverse.
  - exact zoom_inverse.
Defined.

Lemma X11_witness :
  (EagerTractogram.apply_affine 1%positive Examples.move false;;
   EagerTractogram.apply_affine 1%positive Examples.move_back false)
    (Examples.store_of (Examples.tractogram np.eye4))
  = (Ok (Eager 1%positive), Examples.store_of (Examples.tractogram np.eye4))
  ∧ EagerTractogram.apply_affine 1%positive np.eye4 false
      (Examples.store_of (Examples.tractogram np.eye4))
    = (Ok (Eager 1%positive),
       Examples.store_of (Examples.tractogram np.eye4)).
Proof.
  apply (X11_apply_affine_inverse
           (Examples.store_of (Examples.tractogram np.eye4)) 1%positive
           (Examples.tractogram np.eye4) Examples.move Examples.move_back).
  - reflexivity.
  - reflexivity.
  - exact move_inverse.
Defined.

Lemma X12_witness :
  (EagerTractogram.to_world 1%positive false;;
   EagerTractogram.to_world 1%positive false)
    (Examples.store_of (Examples.tractogram Examples.move))
  = EagerTractogram.to_world 1%positive false
      (Examples.store_of (Examples.tractogram Examples.move))
  ∧ ∃ h', EagerTractogram.to_world 1%positive false
            (Examples.store_of (Examples.tractogram Examples.move))
          = (Ok (Eager 1%positive), h').
Proof.
  apply (X12_to_world_idempotent
           (Examples.store_of (Examples.tractogram Examples.move)) 1%positive
           (Examples.tractogram Examples.move) Examples.move_back).
  - reflexivity.
  - exact move_inverse.
Defined.

Lemma X13_witness :
  (EagerTractogram.apply_affine 1%positive Examples.move false;;
   EagerTractogram.to_world 1%positive false)
    (Examples.store_of (Examples.tractogram Examples.zoom))
  = EagerTractogram.to_world 1%positive false
      (Examples.store_of (Examples.tractogram Examples.zoom))
  ∧ ∃ h', EagerTractogram.to_world 1%positive false
            (Examples.store_of (Examples.tractogram Examples.zoom))
          = (Ok (Eager 1%positive), h').
Proof.
  apply (X13_to_world_after_apply_affine
           (Examples.store_of (Examples.tractogram Examples.zoom)) 1%positive
           (Examples.tractogram Examples.zoom) Examples.move
           Examples.move_back Examples.zoom_back).
  - reflexivity.
  - reflexivity.
  - exact move_inverse.
  - exact zoom_inverse.
Defined.

Lemma X14_witness :
  EagerTractogram.apply_affine 1%positive Examples.singular false
    (Examples.store_of (Examples.tractogram np.eye4))
  = if bool_decide (ArraySequence.__len__
                      (TractogramState._streamlines
                         (Examples.tractogram np.eye4)) = 0%N)
    then (Ok (Eager 1%positive),
          Examples.store_of (Examples.tractogram np.eye4))
    else (Raise LinAlgError,
          Heap (<[1%positive :=
                  EagerTractogram.set_data
                    (affines.apply_affine Examples.singular
                       (ArraySequence._data
                          (TractogramState._streamlines
                             (Examples.tractogram np.eye4))))
                    (Examples.tractogram np.eye4)]>
                  (eager (Examples.store_of (Examples.tractogram np.eye4))))
               (lazy (Examples.store_of (Examples.tractogram np.eye4)))).
Proof.
  apply (X14_apply_affine_singular
           (Examples.store_of (Examples.tractogram np.eye4)) 1%positive
           (Examples.tractogram np.eye4) Examples.singular np.I2).
  - reflexivity.
  - exact singular_column.
Defined.

Lemma X16_witness :
  EagerTractogram.to_world 1%positive true Inputs.store_with_data
  = (Raise TypeError, Inputs.store_with_data).
Proof.
  apply (proj2 (X16_lazy_requests_TypeError 1%positive np.eye4
                  Inputs.store_with_data) Examples.with_data).
  reflexivity.
Defined.

Lemma X17_witness :
  Tractogram.__getitem__ Inputs.unbound Inputs.unbound 1%positive
    (Slc (Some 0%Z) (Some 2%Z)) Inputs.store_with_data
  = (Raise NameError, Inputs.store_with_data).
Proof.
  apply (X17_getitem_slice_NameError Inputs.unbound Inputs.unbound
           Inputs.store_with_data 1%positive Examples.with_data).
  reflexivity.
Defined.

Lemma X18_witness :
  Tractogram.__getitem__ Inputs.unbound Inputs.unbound 1%positive (Int 3)
    Inputs.store_with_data
  = (Raise IndexError, Inputs.store_with_data).
Proof.
  apply (X18_getitem_out_of_range Inputs.unbound Inputs.unbound
           Inputs.store_with_data 1%positive Examples.with_data 3).
  - reflexivity.
  - right. vm_compute. discriminate.
Defined.

Lemma X19_witness :
  Tractogram.__getitem__ Inputs.unbound Inputs.unbound 1%positive
    (Int (2 - Z.of_N (ArraySequence.__len__
                        (TractogramState._streamlines Examples.with_data))))
    Inputs.store_with_data
  = Tractogram.__getitem__ Inputs.unbound Inputs.unbound 1%positive (Int 2)
      Inputs.store_with_data
  ∧ ∃ item : TractogramItem.t,
      Tractogram.items_of Examples.with_data !! Z.to_nat 2 = Some item
      ∧ Tractogram.__getitem__ Inputs.unbound Inputs.unbound 1%positive
          (Int 2) Inputs.store_with_data
        = (Ok (Tractogram.Item item), Inputs.store_with_data).
Proof.
  apply (X19_getitem_negative Inputs.unbound Inputs.unbound
           Inputs.store_with_data 1%positive Examples.with_data 2).
  - reflexivity.
  - exact with_data_consistent.
  - vm_compute. split; [discriminate|reflexivity].
Defined.

Lemma X20_witness :
  Tractogram.__iter__ 1%positive Inputs.store_with_data
  = (Ok (Tractogram.items_of Examples.with_data), Inputs.store_with_data)
  ∧ Tractogram.__len__ 1%positive Inputs.store_with_data
    = (Ok (N.of_nat (length (Tractogram.items_of Examples.with_data))),
       Inputs.store_with_data)
  ∧ (∀ (i : nat) (item : TractogramItem.t),
       Tractogram.items_of Examples.with_data !! i = Some item →
       Tractogram.__getitem__ Inputs.unbound Inputs.unbound 1%positive
         (Int (Z.of_nat i)) Inputs.store_with_data
       = (Ok (Tractogram.Item item), Inputs.store_with_data))
  ∧ TractogramItem.streamline <$> Tractogram.items_of Examples.with_data
    = ArraySequence.__iter__
        (TractogramState._streamlines Examples.with_data).
Proof.
  apply (X20_iter_agrees_with_getitem Inputs.unbound Inputs.unbound
           Inputs.store_with_data 1%positive Examples.with_data).
  - reflexivity.
  - exact with_data_consistent.
Defined.

Lemma X21_witness :
  LazyTractogram.copy 1%positive Examples.lazy_store
  = (Raise TypeError, Examples.lazy_store).
Proof.
  apply (proj2 (proj2 (X21_no_lazy_tractogram_is_made Examples.lazy_store))
           1%positive Examples.lazy_tractogram).
  reflexivity.
Defined.

Lemma X22_witness :
  LazyTractogram.to_world 1%positive false Examples.lazy_store
  = (Raise ValueError, Examples.lazy_store)
  ∧ LazyTractogram.to_world 1%positive true Examples.lazy_store
    = (Raise TypeError, Examples.lazy_store).
Proof.
  apply (X22_lazy_to_world Examples.lazy_store 1%positive
           Examples.lazy_tractogram).
  reflexivity.
Defined.

Lemma X23_witness :
  LazyTractogram.__len__ 1%positive Inputs.store_with_view
  = (Ok 3%N, Inputs.store_with_view)
  ∧ LazyTractogram.__len__ 1%positive Inputs.store_uncounted
    = (Ok 3%N,
       Heap (eager Inputs.store_uncounted)
            (<[1%positive := LazyTractogram.set_nb_streamlines (Some 3%N)
                               Inputs.uncounted_view]>
               (lazy Inputs.store_uncounted)))
  ∧ LazyTractogram.__len__ 1%positive
      (Heap (eager Inputs.store_uncounted)
            (<[1%positive := LazyTractogram.set_nb_streamlines (Some 3%N)
                               Inputs.uncounted_view]>
               (lazy Inputs.store_uncounted)))
    = (Ok 3%N,
       Heap (eager Inputs.store_uncounted)
            (<[1%positive := LazyTractogram.set_nb_streamlines (Some 3%N)
                               Inputs.uncounted_view]>
               (lazy Inputs.store_uncounted)))
  ∧ LazyTractogram.__len__ 1%positive Inputs.store_failing
    = (Raise ValueError, Inputs.store_failing).
Proof.
  assert (LazyTractogram.__len__ 1%positive Inputs.store_uncounted
          = (Ok 3%N,
             Heap (eager Inputs.store_uncounted)
                  (<[1%positive := LazyTractogram.set_nb_streamlines
                                     (Some 3%N) Inputs.uncounted_view]>
                     (lazy Inputs.store_uncounted)))) as Hcount.
  { change 3%N
      with (N.of_nat (length (affines.apply_affine Examples.move
                                <$> Examples.streamlines))).
    apply (proj1 (proj2 (X23_lazy_len Inputs.store_uncounted 1%positive
                           Inputs.uncounted_view eq_refl))
             (affines.apply_affine Examples.move <$> Examples.streamlines));
      [reflexivity|vm_compute; reflexivity]. }
  split_and!.
  - apply (proj1 (X23_lazy_len Inputs.store_with_view 1%positive
                    Inputs.pending_view eq_refl) 3%N).
    reflexivity.
  - exact Hcount.
  - exact (proj2 (proj2 (proj2 (proj2 (X23_lazy_len Inputs.store_uncounted
                                         1%positive Inputs.uncounted_view
                                         eq_refl)))
                    3%N _ Hcount)).
  - apply (proj1 (proj2 (proj2 (X23_lazy_len Inputs.store_failing 1%positive
                                  Inputs.failing_view eq_refl)))
             ValueError); reflexivity.
Defined.

Lemma X24_witness :
  LazyTractogram.__len__ 1%positive Inputs.store_miscounted
  = (Ok 7%N, Inputs.store_miscounted)
  ∧ (∃ h' : heap,
       LazyTractogram.__iter__ 1%positive Inputs.store_miscounted
       = (Ok [TractogramItem.Build [Examples.pt 0 0 0] ∅ ∅], h')
       ∧ h' = Heap (eager Inputs.store_miscounted)
                   (<[1%positive := LazyTractogram.set_nb_streamlines
                                      (Some 1%N) Inputs.miscounted]>
                      (lazy Inputs.store_miscounted))
       ∧ LazyTractogram.__len__ 1%positive h' = (Ok 1%N, h'))
  ∧ LazyTractogram.__iter__ 1%positive Inputs.store_failing
    = (Raise ValueError, Inputs.store_failing).
Proof.
  split_and!.
  - reflexivity.
  - apply (proj1 (X24_lazy_iter_records_count Inputs.store_miscounted
                    1%positive Inputs.miscounted eq_refl)
             [TractogramItem.Build [Examples.pt 0 0 0] ∅ ∅]).
    reflexivity.
  - apply (proj2 (X24_lazy_iter_records_count Inputs.store_failing
                    1%positive Inputs.failing_view eq_refl) ValueError).
    reflexivity.
Defined.

Lemma X25_witness :
  LazyTractogram.streamlines Examples.lazy_tractogram
    (eager Examples.lazy_store) = Ok []
  ∧ ∃ h' : heap,
      LazyTractogram.__iter__ 1%positive Examples.lazy_store = (Ok [], h')
      ∧ LazyTractogram.__len__ 1%positive h' = (Ok 0%N, h').
Proof.
  apply (X25_lazy_without_producers Examples.lazy_store 1%positive
           Examples.lazy_tractogram); reflexivity.
Defined.

Lemma X26_witness :
  ∃ (items : list TractogramItem.t) (h1 h2 : heap),
    LazyTractogram.__iter__ 1%positive Inputs.store_with_view
    = (Ok items, h1)
    ∧ (EagerTractogram.apply_affine 1%positive Examples.move false;;
       Tractogram.__iter__ 1%positive) Inputs.store_with_view
      = (Ok items, h2)
    ∧ items = LazyTractogramCreate.transformed_item Examples.move
                <$> Tractogram.items_of Examples.with_data
    ∧ N.of_nat (length items)
      = ArraySequence.__len__
          (TractogramState._streamlines Examples.with_data).
Proof.
  apply (X26_lazy_affine_as_eager Inputs.store_with_view 1%positive
           1%positive Examples.with_data Inputs.pending_view Examples.move
           Examples.move_back).
  - reflexivity.
  - reflexivity.
  - exact with_data_consistent.
  - exact pending_view_producers.
  - reflexivity.
  - vm_compute. reflexivity.
  - exact move_inverse.
Defined.

Lemma X27_witness :
  ∃ (items : list TractogramItem.t) (h' : heap),
    LazyTractogram.__iter__ 1%positive Inputs.store_with_tiny_view
    = (Ok items, h')
    ∧ Tractogram.__iter__ 1%positive Inputs.store_with_tiny_view
      = (Ok items, Inputs.store_with_tiny_view)
    ∧ TractogramItem.streamline <$> items
      = ArraySequence.__iter__
          (TractogramState._streamlines Examples.with_data).
Proof.
  apply (X27_lazy_affine_close_to_identity Inputs.store_with_tiny_view
           1%positive 1%positive Examples.with_data Inputs.tiny_view).
  - reflexivity.
  - reflexivity.
  - exact with_data_consistent.
  - exact tiny_view_producers.
  - vm_compute. reflexivity.
Defined.

Lemma X28_witness :
  ∃ (h' : heap) (t' : TractogramState.t),
    EagerTractogram.apply_affine 1%positive Examples.move false
      Inputs.store_with_data
    = (Ok (Eager 1%positive), h')
    ∧ eager h' !! 1%positive = Some t'
    ∧ Tractogram.consistent t'
    ∧ ArraySequence.__len__ (TractogramState._streamlines t')
      = ArraySequence.__len__
          (TractogramState._streamlines Examples.with_data)
    ∧ length <$> ArraySequence.__iter__ (TractogramState._streamlines t')
      = length <$> ArraySequence.__iter__
                     (TractogramState._streamlines Examples.with_data)
    ∧ TractogramState._data_per_streamline t'
      = TractogramState._data_per_streamline Examples.with_data
    ∧ TractogramState._data_per_point t'
      = TractogramState._data_per_point Examples.with_data.
Proof.
  apply (X28_apply_affine_keeps_consistent Inputs.store_with_data 1%positive
           Examples.with_data Examples.move Examples.move_back).
  - reflexivity.
  - exact with_data_consistent.
  - exact move_inverse.
Defined.

Lemma X29_witness :
  LazyTractogram.data Inputs.data_driven (eager Inputs.store_data_driven)
  = Ok [TractogramItem.Build [Examples.pt 0 0 0] ∅ ∅]
  ∧ (∃ h' : heap,
       LazyTractogram.__iter__ 1%positive Inputs.store_data_driven
       = (Ok [TractogramItem.Build [Examples.pt 0 0 0] ∅ ∅], h'))
  ∧ (LazyTractogramState._streamlines Inputs.data_driven = None →
     LazyTractogram.streamlines Inputs.data_driven
       (eager Inputs.store_data_driven)
     = Ok (if np.allclose
                (LazyTractogramState._affine_to_apply Inputs.data_driven)
                np.eye4
           then TractogramItem.streamline
                  <$> [TractogramItem.Build [Examples.pt 0 0 0] ∅ ∅]
           else affines.apply_affine
                  (LazyTractogramState._affine_to_apply Inputs.data_driven)
                  <$> (TractogramItem.streamline
                         <$> [TractogramItem.Build [Examples.pt 0 0 0] ∅ ∅]))).
Proof.
  apply (X29_data_ignores_pending_affine Inputs.store_data_driven 1%positive
           Inputs.data_driven Inputs.one_item).
  - reflexivity.
  - reflexivity.
  - reflexivity.
Defined.
